(** * ADB session wrapper ([adb_manager.py]): a shallow embedding

    The Python class [ADBManager] locates the [adb] executable, runs it as a
    child process and exposes a handful of device operations built on
    [execute_command].  The development below embeds that class:

    - Python text is a [string]; every character stands for the code point
      with the same number (0..255), which is the range in which the
      whitespace and substring tests of the source are written out here;
    - the operating system (child processes, the clock, the console, the file
      system) is a [World] that logs what the code did, together with
      oracles that say how a child process ends, whether a file exists and
      how [Path.home()] ends;
    - a method is a computation in a small state-and-exception monad over
      the pair of the object ([self]) and the world;
    - the mutual recursion [execute_command] <-> [wait_for_device] is unrolled
      by a nesting bound, and shown never to need more than two levels. *)

From Stdlib Require Import ZArith Lia Ascii.
From stdpp Require Import base strings list gmap.

Local Open Scope Z_scope.

(** ** Python string primitives used by the source *)

Module PyStr.

Definition LF : string := String (ascii_of_nat 10) "".
Definition TAB : string := String (ascii_of_nat 9) "".

(** [str.isspace] on one character, for code points below 256:
    TAB, LF, VT, FF, CR, the separators FS GS RS US, the space,
    NEL (0x85) and the no-break space (0xA0). *)
Definition isspace (c : ascii) : bool :=
  let n := nat_of_ascii c in
  ((9 <=? n)%nat && (n <=? 13)%nat)
  || ((28 <=? n)%nat && (n <=? 32)%nat)
  || (n =? 133)%nat || (n =? 160)%nat.

Fixpoint lstrip (s : string) : string :=
  match s with
  | EmptyString => EmptyString
  | String c t => if isspace c then lstrip t else s
  end.

Fixpoint rstrip (s : string) : string :=
  match s with
  | EmptyString => EmptyString
  | String c t =>
      match rstrip t with
      | EmptyString => if isspace c then EmptyString else String c EmptyString
      | r => String c r
      end
  end.

(** [s.strip()] *)
Definition strip (s : string) : string := rstrip (lstrip s).

Fixpoint startswith (p s : string) : bool :=
  match p, s with
  | EmptyString, _ => true
  | String a p', String b s' => if Ascii.eqb a b then startswith p' s' else false
  | String _ _, EmptyString => false
  end.

(** [sub in s] *)
Fixpoint contains (sub s : string) : bool :=
  startswith sub s ||
  match s with
  | EmptyString => false
  | String _ t => contains sub t
  end.

(** [s.split()] with no separator: maximal runs of non-whitespace.
    [word] holds the characters of the run being read, last one first. *)
Definition flush (word : list ascii) : list string :=
  match word with
  | [] => []
  | _ => [String.string_of_list_ascii (rev word)]
  end.

Fixpoint split_from (word : list ascii) (s : string) : list string :=
  match s with
  | EmptyString => flush word
  | String c t =>
      if isspace c then flush word ++ split_from [] t
      else split_from (c :: word) t
  end.

Definition split (s : string) : list string := split_from [] s.

(** Truth value of a string in a condition: non-empty. *)
Definition truthy (s : string) : bool :=
  match s with EmptyString => false | String _ _ => true end.

Fixpoint all_space (s : string) : bool :=
  match s with
  | EmptyString => true
  | String c t => isspace c && all_space t
  end.

Definition first_char (s : string) : option ascii :=
  match s with EmptyString => None | String c _ => Some c end.

Fixpoint last_char (s : string) : option ascii :=
  match s with
  | EmptyString => None
  | String c EmptyString => Some c
  | String _ t => last_char t
  end.

End PyStr.

(** ** The world outside the interpreter *)

(** How a child process started by [subprocess.run] ends: it completes with
    an exit code and its two captured streams, it exceeds the time limit
    ([subprocess.TimeoutExpired]), or it cannot be launched or read at all
    (an [OSError], [ValueError], ... whose [str] is [description]).
    An interrupt of the interpreter itself (Ctrl-C) is not an outcome of the
    process and is outside this model. *)
Inductive proc_outcome : Type :=
| Completed (code : Z) (out err : string)
| TimedOut
| SpawnFailed (description : string).

Record invocation : Type := Invocation { argv : list string; time_limit : Z }.

(** The lines the source prints. *)
Inductive message : Type :=
| MsgAdbNotFound
| MsgDownloadHint
| MsgWaiting
| MsgConnected
| MsgDot
| MsgDeviceNotFound
| MsgInvalidMode (mode : string)
| MsgRebooting (mode : string)
| MsgLocalMissing (local_path : string)
| MsgPushed (local_path device_path : string)
| MsgPushFailed (err : string)
| MsgPulled (device_path local_path : string)
| MsgPullFailed (err : string).

(** What the code has done so far: the processes it started (oldest first),
    the time it slept, the lines it printed. *)
Record World : Type := mkWorld {
  spawned : list invocation;
  elapsed : Z;
  console : list message
}.

(** ** The object *)

Record ADBManager : Type := mkADBManager {
  adb_path : option string;
  devices : list string;
  timeout : Z
}.

(** The dictionary returned by [execute_command]. *)
Record CommandResult : Type := mkResult {
  success : bool;
  output : string;
  error : string;
  returncode : Z
}.

(** The value returned by [subprocess.run]. *)
Record CompletedProcess : Type := mkCompleted {
  proc_returncode : Z;
  proc_stdout : string;
  proc_stderr : string
}.

(** ** Computations: state and exceptions *)

Inductive exn : Type :=
| TimeoutExpired
| Exception (description : string).

Record Sys : Type := mkSys { self : ADBManager; world : World }.

Inductive Res (A : Type) : Type :=
| Ret (a : A)
| Raise (e : exn)
| Unfinished.
Arguments Ret {A} a.
Arguments Raise {A} e.
Arguments Unfinished {A}.

Definition M (A : Type) : Type := Sys -> Res A * Sys.

Definition ret {A} (a : A) : M A := fun s => (Ret a, s).

Definition bind {A B} (c : M A) (k : A -> M B) : M B :=
  fun s =>
    match c s with
    | (Ret a, s') => k a s'
    | (Raise e, s') => (Raise e, s')
    | (Unfinished, s') => (Unfinished, s')
    end.

Definition raise {A} (e : exn) : M A := fun s => (Raise e, s).

Definition unfinished {A} : M A := fun s => (Unfinished, s).

(** [try: body / except ... as e: handler e] *)
Definition try_except {A} (body : M A) (handler : exn -> M A) : M A :=
  fun s =>
    match body s with
    | (Raise e, s') => handler e s'
    | other => other
    end.

Declare Scope py_scope.
Delimit Scope py_scope with py.
Notation "x <- c ;; k" := (bind c (fun x => k))
  (at level 100, c at next level, right associativity) : py_scope.
Notation "c ;; k" := (bind c (fun _ => k))
  (at level 100, right associativity) : py_scope.
Local Open Scope py_scope.

Definition get_self : M ADBManager := fun s => (Ret (self s), s).

Definition set_self (m : ADBManager) : M unit :=
  fun s => (Ret tt, mkSys m (world s)).

Definition on_world (f : World -> World) : M unit :=
  fun s => (Ret tt, mkSys (self s) (f (world s))).

Definition print (msg : message) : M unit :=
  on_world (fun w => mkWorld (spawned w) (elapsed w) (console w ++ [msg])).

(** [time.sleep(seconds)] *)
Definition sleep (seconds : Z) : M unit :=
  on_world (fun w => mkWorld (spawned w) (elapsed w + seconds) (console w)).

Definition log_spawn (i : invocation) (w : World) : World :=
  mkWorld (spawned w ++ [i]) (elapsed w) (console w).

(** A [for] loop whose body may [return]: the body answers [Some b] when it
    returns [b] from the enclosing function and [None] to go on. *)
Fixpoint for_each {A B} (items : list A) (body : A -> M (option B)) : M (option B) :=
  match items with
  | [] => ret None
  | x :: rest =>
      r <- body x ;;
      match r with
      | Some b => ret (Some b)
      | None => for_each rest body
      end
  end.

(** A [for] loop that updates a local variable. *)
Fixpoint for_fold {A S} (items : list A) (acc : S) (body : S -> A -> M S) : M S :=
  match items with
  | [] => ret acc
  | x :: rest => acc' <- body acc x ;; for_fold rest acc' body
  end.

(** [range(n)] *)
Definition range (n : Z) : list Z := Z.of_nat <$> seq 0 (Z.to_nat n).

(** ** Paths ([pathlib]) *)

Module Pathlib.

(** A [pathlib.Path] as far as the code uses one: the class of the object,
    [PosixPath] or [WindowsPath] by the platform, and its [str].  The text
    of a path is normalised: [.] for the empty path, and a separator at
    the end only when the path is its anchor alone ([/], [//], [C:\],
    [\\host\share\]). *)
Inductive Path : Type :=
| PosixPath (text : string)
| WindowsPath (text : string).

(** [str(p)] *)
Definition str (p : Path) : string :=
  match p with
  | PosixPath text => text
  | WindowsPath text => text
  end.

Definition SLASH : ascii := ascii_of_nat 47.
Definition BACKSLASH : ascii := ascii_of_nat 92.
Definition DRIVE_COLON : ascii := ascii_of_nat 58.

(** A relative path written with [/], with the separators of Windows. *)
Fixpoint backslashes (rel : string) : string :=
  match rel with
  | EmptyString => EmptyString
  | String c rest =>
      String (if Ascii.eqb c SLASH then BACKSLASH else c) (backslashes rest)
  end.

Definition ends_with (c : ascii) (text : string) : bool :=
  match PyStr.last_char text with
  | Some last => Ascii.eqb last c
  | None => false
  end.

(** The path is its anchor alone, with no component after it.  On Windows
    that is also a drive without a root ([C:]). *)
Definition anchor_only (p : Path) : bool :=
  match p with
  | PosixPath text => ends_with SLASH text
  | WindowsPath text =>
      ends_with BACKSLASH text
      || match text with
         | String _ (String colon EmptyString) => Ascii.eqb colon DRIVE_COLON
         | _ => false
         end
  end.

(** The text of the path [tail] below the path whose text is [text]. *)
Definition below (text : string) (bare : bool) (sep : ascii) (tail : string)
    : string :=
  if String.eqb text "." then tail
  else if bare then text +:+ tail
  else text +:+ String sep tail.

(** [p / rel], for a relative [rel] written with [/] whose components are
    plain names (no drive, no [.], no [..], nothing empty), as the two
    literals of [find_adb] are. *)
Definition joinpath (p : Path) (rel : string) : Path :=
  match p with
  | PosixPath text =>
      PosixPath (below text (anchor_only p) SLASH rel)
  | WindowsPath text =>
      WindowsPath (below text (anchor_only p) BACKSLASH (backslashes rel))
  end.

End Pathlib.

(** How [Path.home()] ends: with the home directory, or with the error it
    raises when no home directory can be determined (a [RuntimeError] whose
    text is [description]). *)
Inductive home_outcome : Type :=
| HomeIs (p : Pathlib.Path)
| HomeUnknown (description : string).

(** ** The class [ADBManager] *)

Section Session.

(** How a child process started in a given world ends. *)
Variable run_outcome : World -> invocation -> proc_outcome.
(** [os.path.exists] *)
Variable path_exists : World -> string -> bool.
(** How [Path.home()] ends. *)
Variable home : home_outcome.

(** [subprocess.run(args, capture_output=True, text=True, timeout=limit)] *)
Definition subprocess_run (args : list string) (limit : Z) : M CompletedProcess :=
  fun s =>
    let i := Invocation args limit in
    let s' := mkSys (self s) (log_spawn i (world s)) in
    match run_outcome (world s) i with
    | Completed code out err => (Ret (mkCompleted code out err), s')
    | TimedOut => (Raise TimeoutExpired, s')
    | SpawnFailed d => (Raise (Exception d), s')
    end.

(** [Path.home()] *)
Definition path_home : M Pathlib.Path :=
  match home with
  | HomeIs p => ret p
  | HomeUnknown description => raise (Exception description)
  end.

(** The list display that [find_adb] binds to [possible_paths].  Its
    elements are evaluated in order, so [Path.home()] is called twice,
    outside any [try], before the first candidate is probed. *)
Definition possible_paths : M (list string) :=
  home1 <- path_home ;;
  let windows_sdk :=
    Pathlib.str (Pathlib.joinpath home1
                   "AppData/Local/Android/Sdk/platform-tools/adb.exe") in
  home2 <- path_home ;;
  let mac_sdk :=
    Pathlib.str (Pathlib.joinpath home2 "Library/Android/sdk/platform-tools/adb") in
  ret [ "adb";
        "/usr/bin/adb";
        "/usr/local/bin/adb";
        "C:\Android\platform-tools\adb.exe";
        windows_sdk;
        mac_sdk ].

(** The bare [except:] turns whatever [subprocess.run] raises into [False]. *)
Definition _check_adb_path (path : string) : M bool :=
  try_except
    (result <- subprocess_run [path; "--version"] 5 ;;
     ret (proc_returncode result =? 0))
    (fun _ => ret false).

Definition find_adb : M (option string) :=
  possible_paths <- possible_paths ;;
  for_each possible_paths
    (fun path =>
       ok <- _check_adb_path path ;;
       if ok then ret (Some path) else ret None).

Definition __init__ : M unit :=
  found <- find_adb ;;
  m <- get_self ;;
  set_self (mkADBManager found (devices m) (timeout m)) ;;
  m <- get_self ;;
  set_self (mkADBManager (adb_path m) [] (timeout m)) ;;
  m <- get_self ;;
  set_self (mkADBManager (adb_path m) (devices m) 30).

(** Truth value of [self.adb_path]: [None] and the empty string are false. *)
Definition adb_path_set (m : ADBManager) : option string :=
  match adb_path m with
  | Some p => if PyStr.truthy p then Some p else None
  | None => None
  end.

Definition check_adb_installed : M bool :=
  m <- get_self ;;
  match adb_path_set m with
  | None => print MsgAdbNotFound ;; print MsgDownloadHint ;; ret false
  | Some _ => ret true
  end.

Definition timed_out_result : CommandResult :=
  mkResult false "" "Command timed out" (-1).

Definition failed_result (e : string) : CommandResult :=
  mkResult false "" e (-1).

(** One turn of the loop of [wait_for_device], over the [execute_command]
    it calls. *)
Definition poll_once (execute : list string -> bool -> M CommandResult)
    : M (option bool) :=
  result <- execute ["devices"] false ;;
  if PyStr.contains ("device" +:+ PyStr.LF) (output result)
  then print MsgConnected ;; ret (Some true)
  else print MsgDot ;; sleep 1 ;; ret None.

Definition wait_for_device_with
    (execute : list string -> bool -> M CommandResult)
    (max_attempts : Z) : M bool :=
  print MsgWaiting ;;
  r <- for_each (range max_attempts) (fun _ => poll_once execute) ;;
  match r with
  | Some b => ret b
  | None => print MsgDeviceNotFound ;; ret false
  end.

(** [execute_command] calls [wait_for_device], which calls
    [execute_command]: [depth] bounds the nesting of these calls. *)
Fixpoint execute_command_at (depth : nat) (command : list string)
    (wait_for_device : bool) : M CommandResult :=
  match depth with
  | O => unfinished
  | S depth' =>
      m <- get_self ;;
      match adb_path_set m with
      | None => raise (Exception "ADB not found")
      | Some adb =>
          let full_command := [adb] ++ command in
          try_except
            ((if wait_for_device
              then wait_for_device_with (execute_command_at depth') 30 ;; ret tt
              else ret tt) ;;
             m' <- get_self ;;
             result <- subprocess_run full_command (timeout m') ;;
             ret (mkResult (proc_returncode result =? 0)
                           (PyStr.strip (proc_stdout result))
                           (PyStr.strip (proc_stderr result))
                           (proc_returncode result)))
            (fun e =>
               match e with
               | TimeoutExpired => ret timed_out_result
               | Exception d => ret (failed_result d)
               end)
      end
  end.

(** Two levels are all the source ever uses (see [execute_command_depth]). *)
Definition call_depth : nat := 2.

Definition execute_command : list string -> bool -> M CommandResult :=
  execute_command_at call_depth.

Definition wait_for_device (max_attempts : Z) : M bool :=
  wait_for_device_with execute_command max_attempts.

Definition commands : list (string * string) :=
  [ ("shell getprop ro.product.model", "Model");
    ("shell getprop ro.build.version.release", "Android Version");
    ("shell getprop ro.build.version.security_patch", "Security Patch");
    ("shell getprop ro.product.manufacturer", "Manufacturer");
    ("shell getprop ro.serialno", "Serial Number");
    ("shell getprop ro.bootloader", "Bootloader");
    ("shell getprop ro.hardware", "Hardware") ].

(** [device_id] is a parameter of the method; its body never reads it. *)
Definition get_device_info (device_id : option string) : M (gmap string string) :=
  for_fold commands (∅ : gmap string string)
    (fun info '(cmd, key) =>
       result <- execute_command (PyStr.split cmd) false ;;
       if success result && PyStr.truthy (output result)
       then ret (<[key := PyStr.strip (output result)]> info)
       else ret info).

Definition modes : gmap string string :=
  list_to_map
    [ ("system", "");
      ("recovery", "recovery");
      ("bootloader", "bootloader");
      ("fastboot", "bootloader");
      ("download", "download");
      ("sideload", "sideload") ].

Definition reboot_device (mode : string) : M bool :=
  match modes !! mode with
  | None => print (MsgInvalidMode mode) ;; ret false
  | Some target =>
      let cmd := ["reboot"] ++ (if PyStr.truthy target then [target] else []) in
      result <- execute_command cmd false ;;
      if success result
      then print (MsgRebooting mode) ;; sleep 5 ;; ret true
      else ret false
  end.

Definition is_device_rooted : M bool :=
  result <- execute_command ["shell"; "su"; "-c"; "echo root_check"] false ;;
  if success result && PyStr.contains "root_check" (output result)
  then ret true
  else
    result <- execute_command ["shell"; "which"; "su"] false ;;
    ret (success result && PyStr.contains "/su" (output result)).

Definition local_exists (local_path : string) : M bool :=
  fun s => (Ret (path_exists (world s) local_path), s).

Definition push_file (local_path device_path : string) : M bool :=
  present <- local_exists local_path ;;
  if negb present
  then print (MsgLocalMissing local_path) ;; ret false
  else
    result <- execute_command ["push"; local_path; device_path] false ;;
    if success result
    then print (MsgPushed local_path device_path) ;; ret true
    else print (MsgPushFailed (error result)) ;; ret false.

Definition pull_file (device_path local_path : string) : M bool :=
  result <- execute_command ["pull"; device_path; local_path] false ;;
  if success result
  then print (MsgPulled device_path local_path) ;; ret true
  else print (MsgPullFailed (error result)) ;; ret false.

Definition DQUOTE : string := String (ascii_of_nat 34) "".

Definition shell_command (command : string) (root : bool) : M CommandResult :=
  let command := if root then "su -c " +:+ DQUOTE +:+ command +:+ DQUOTE else command in
  result <- execute_command ["shell"; command] false ;;
  ret result.

End Session.

(** ** Vocabulary of the statements *)

Section Observations.

Variable run_outcome : World -> invocation -> proc_outcome.
Variable home : home_outcome.

(** The executable location is resolved to [adb]. *)
Definition resolved (m : ADBManager) (adb : string) : Prop :=
  adb_path_set m = Some adb.

(** [m] is an object as the constructor leaves it. *)
Definition constructed (m : ADBManager) : Prop :=
  exists s0 s1, __init__ run_outcome home s0 = (Ret tt, s1) /\ self s1 = m.

(** The process started for the argument list [command]. *)
Definition request (m : ADBManager) (adb : string) (command : list string) : invocation :=
  Invocation (adb :: command) (timeout m).

(** The world once [calls] have been started and nothing else happened. *)
Definition after_calls (w : World) (calls : list invocation) : World :=
  mkWorld (spawned w ++ calls) (elapsed w) (console w).

(** The dictionary built from the way the process ended. *)
Definition result_of (o : proc_outcome) : CommandResult :=
  match o with
  | Completed code out err =>
      mkResult (code =? 0) (PyStr.strip out) (PyStr.strip err) code
  | TimedOut => timed_out_result
  | SpawnFailed d => failed_result d
  end.

(** [t] is [raw] without its leading and trailing whitespace. *)
Definition trimmed_of (raw t : string) : Prop :=
  (exists l r, raw = l +:+ t +:+ r
               /\ PyStr.all_space l = true /\ PyStr.all_space r = true)
  /\ (forall c, PyStr.first_char t = Some c -> PyStr.isspace c = false)
  /\ (forall c, PyStr.last_char t = Some c -> PyStr.isspace c = false).

(** The six candidates of [find_adb] when the home directory is [h], in
    the order of the list. *)
Definition candidates (h : Pathlib.Path) : list string :=
  [ "adb";
    "/usr/bin/adb";
    "/usr/local/bin/adb";
    "C:\Android\platform-tools\adb.exe";
    Pathlib.str (Pathlib.joinpath h "AppData/Local/Android/Sdk/platform-tools/adb.exe");
    Pathlib.str (Pathlib.joinpath h "Library/Android/sdk/platform-tools/adb") ].

(** The version query sent to a candidate path. *)
Definition probe (path : string) : invocation :=
  Invocation [path; "--version"] 5.

Definition exits_zero (o : proc_outcome) : bool :=
  match o with
  | Completed code _ _ => code =? 0
  | _ => false
  end.

(** The world in which the candidate number [k] is probed. *)
Definition probing (w : World) (paths : list string) (k : nat) : World :=
  after_calls w (probe <$> take k paths).

Definition candidate_works (w : World) (paths : list string) (k : nat) (p : string) : bool :=
  exits_zero (run_outcome (probing w paths k) (probe p)).

(** The poll of [wait_for_device] sees a ready device in this outcome. *)
Definition reports_ready (o : proc_outcome) : bool :=
  PyStr.contains ("device" +:+ PyStr.LF) (output (result_of o)).

(** The world after [wait_for_device] announced itself. *)
Definition announced (w : World) : World :=
  mkWorld (spawned w) (elapsed w) (console w ++ [MsgWaiting]).

(** The world after [k] polls [q] that saw no ready device. *)
Definition polled (q : invocation) (w : World) (k : nat) : World :=
  mkWorld (spawned w ++ replicate k q)
          (elapsed w + Z.of_nat k)
          (console w ++ replicate k MsgDot).

(** The world after a poll [q] that saw a ready device. *)
Definition connected (q : invocation) (w : World) : World :=
  mkWorld (spawned w ++ [q]) (elapsed w) (console w ++ [MsgConnected]).

(** The world after [wait_for_device] gave up. *)
Definition gave_up (w : World) : World :=
  mkWorld (spawned w) (elapsed w) (console w ++ [MsgDeviceNotFound]).

(** A check passes: the command exits with 0 and [marker] is in its output. *)
Definition marker_found (marker : string) (o : proc_outcome) : bool :=
  success (result_of o) && PyStr.contains marker (output (result_of o)).

(** What [get_device_info] records for a property whose query ended in [o]:
    the trimmed output of a query that exits with 0 and prints something. *)
Definition property_value (o : proc_outcome) : option string :=
  match o with
  | Completed code out _ =>
      if (code =? 0) && PyStr.truthy (PyStr.strip out)
      then Some (PyStr.strip out) else None
  | _ => None
  end.

(** The raw device list has a line that ends in TAB, [device]. *)
Definition ready_line_in (stdout : string) : bool :=
  PyStr.contains (PyStr.TAB +:+ "device" +:+ PyStr.LF) stdout.

(** The world just before [execute_command] starts the process. *)
Definition before_run (wait_flag : bool) (s : Sys) : Sys :=
  if wait_flag then snd (wait_for_device run_outcome 30 s) else s.

(** A preserved object: whatever the computation does, [self] is as before. *)
Definition preserves_self {A} (c : M A) : Prop :=
  forall s, self (snd (c s)) = self s.

(** The invocation selects the device [serial] ([adb -s serial ...]). *)
Definition selects_device (serial : string) (i : invocation) : Prop :=
  exists adb rest, argv i = adb :: "-s" :: serial :: rest.

End Observations.

(** ** Concrete environments *)

Module Stub.

(** What [adb devices] prints with one device attached and ready. *)
Definition device_list_one : string :=
  "List of devices attached" +:+ PyStr.LF
  +:+ "emulator-5554" +:+ PyStr.TAB +:+ "device" +:+ PyStr.LF
  +:+ PyStr.LF.

(** What it prints with nothing attached. *)
Definition device_list_none : string :=
  "List of devices attached" +:+ PyStr.LF +:+ PyStr.LF.

(** What it prints with two devices, the first of them ready. *)
Definition device_list_two : string :=
  "List of devices attached" +:+ PyStr.LF
  +:+ "emulator-5554" +:+ PyStr.TAB +:+ "device" +:+ PyStr.LF
  +:+ "0123456789ABCDEF" +:+ PyStr.TAB +:+ "offline" +:+ PyStr.LF
  +:+ PyStr.LF.

Definition single_device (w : World) (i : invocation) : proc_outcome :=
  Completed 0 device_list_one "".

Definition no_device (w : World) (i : invocation) : proc_outcome :=
  Completed 0 device_list_none "".

(** Nothing attached for the first two processes, one ready device after. *)
Definition late_device (w : World) (i : invocation) : proc_outcome :=
  if (length (spawned w) <? 2)%nat
  then Completed 0 device_list_none ""
  else Completed 0 device_list_one "".

(** Nothing attached for the first two processes, two devices after. *)
Definition late_pair (w : World) (i : invocation) : proc_outcome :=
  if (length (spawned w) <? 2)%nat
  then Completed 0 device_list_none ""
  else Completed 0 device_list_two "".

Definition hanging (w : World) (i : invocation) : proc_outcome := TimedOut.

(** An [adb] that answers the version query and hangs on everything else. *)
Definition hangs_after_probe (w : World) (i : invocation) : proc_outcome :=
  match argv i with
  | [_; "--version"] => Completed 0 "Android Debug Bridge version 1.0.41" ""
  | _ => TimedOut
  end.

Definition last_arg (i : invocation) : string := List.last (argv i) "".

(** A device whose serial number cannot be read and whose bootloader
    property is blank. *)
Definition properties (w : World) (i : invocation) : proc_outcome :=
  if String.eqb (last_arg i) "ro.serialno" then Completed 1 "" "getprop: failed"
  else if String.eqb (last_arg i) "ro.bootloader" then Completed 0 ("  " +:+ PyStr.LF) ""
  else Completed 0 (" " +:+ last_arg i +:+ PyStr.LF) "".

(** A rooted device: the elevated echo answers. *)
Definition rooted (w : World) (i : invocation) : proc_outcome :=
  Completed 0 ("root_check" +:+ PyStr.LF) "".

(** No [su] in the shell, but a [su] binary on the search path. *)
Definition su_on_path (w : World) (i : invocation) : proc_outcome :=
  if String.eqb (last_arg i) "echo root_check"
  then Completed 127 "" "su: not found"
  else Completed 0 ("/system/xbin/su" +:+ PyStr.LF) "".

(** Only the third candidate is a working [adb]. *)
Definition only_usr_local (w : World) (i : invocation) : proc_outcome :=
  match argv i with
  | "adb" :: _ => SpawnFailed "[Errno 2] No such file or directory: 'adb'"
  | "/usr/bin/adb" :: _ => TimedOut
  | "/usr/local/bin/adb" :: _ => Completed 0 "Android Debug Bridge version 1.0.41" ""
  | _ => Completed 1 "" ""
  end.

Definition nothing_installed (w : World) (i : invocation) : proc_outcome :=
  SpawnFailed "[Errno 2] No such file or directory".

(** A file system without the local file. *)
Definition no_files (w : World) (p : string) : bool := false.

Definition home : home_outcome := HomeIs (Pathlib.PosixPath "/home/user").

(** A Windows account. *)
Definition windows_home : home_outcome :=
  HomeIs (Pathlib.WindowsPath "C:\Users\user").

(** No [HOME] in the environment and no entry for the user in the password
    database. *)
Definition no_home : home_outcome :=
  HomeUnknown "Could not determine home directory.".

(** An [adb] on the search path and nowhere else. *)
Definition adb_on_path (w : World) (i : invocation) : proc_outcome :=
  match argv i with
  | "adb" :: _ => Completed 0 "Android Debug Bridge version 1.0.41" ""
  | _ => SpawnFailed "[Errno 2] No such file or directory"
  end.

(** The SDK of Android Studio on Windows and no other [adb]. *)
Definition windows_sdk_only (w : World) (i : invocation) : proc_outcome :=
  match argv i with
  | "C:\Users\user\AppData\Local\Android\Sdk\platform-tools\adb.exe" :: _ =>
      Completed 0 "Android Debug Bridge version 1.0.41" ""
  | _ => SpawnFailed "[WinError 2] The system cannot find the file specified"
  end.

(** Two devices attached: [adb] refuses a command that selects neither,
    and the emulator answers a property query with the name of the
    property. *)
Definition two_attached (w : World) (i : invocation) : proc_outcome :=
  match argv i with
  | [_; "-s"; "emulator-5554"; "shell"; "getprop"; prop] =>
      Completed 0 (prop +:+ PyStr.LF) ""
  | _ :: "-s" :: _ => Completed 1 "" "error: closed"
  | _ => Completed 1 "" "error: more than one device/emulator"
  end.

Definition session : ADBManager := mkADBManager (Some "adb") [] 30.

(** The object before [__init__] ran. *)
Definition blank : ADBManager := mkADBManager None [] 0.

Definition fresh : World := mkWorld [] 0 [].

End Stub.

(** ** More Python string primitives *)

Module PyText.

(** [s.split(sep)] for a separator of one character: the pieces between
    the separators, empty ones included; never an empty list. *)
Fixpoint split_on (sep : ascii) (s : string) : list string :=
  match s with
  | EmptyString => [EmptyString]
  | String a t =>
      if Ascii.eqb a sep then EmptyString :: split_on sep t
      else match split_on sep t with
           | piece :: pieces => String a piece :: pieces
           | [] => [String a EmptyString]
           end
  end.

(** [s.split(sep, 1)]: cut at the first separator only. *)
Fixpoint split_first (sep : ascii) (s : string) : list string :=
  match s with
  | EmptyString => [EmptyString]
  | String a t =>
      if Ascii.eqb a sep then [EmptyString; t]
      else match split_first sep t with
           | piece :: pieces => String a piece :: pieces
           | [] => [String a EmptyString]
           end
  end.

(** [str.lower] on one character, for code points below 256: the letters
    A to Z and the accented capitals of Latin-1 (0xC0 to 0xDE but 0xD7). *)
Definition lower_char (c : ascii) : ascii :=
  let n := nat_of_ascii c in
  if ((65 <=? n)%nat && (n <=? 90)%nat)
     || ((192 <=? n)%nat && (n <=? 222)%nat && negb (n =? 215)%nat)
  then ascii_of_nat (n + 32)
  else c.

Fixpoint map_chars (f : ascii -> ascii) (s : string) : string :=
  match s with
  | EmptyString => EmptyString
  | String a t => String (f a) (map_chars f t)
  end.

(** [s.lower()] *)
Definition lower (s : string) : string := map_chars lower_char s.

(** [s.replace(old, new)] for two strings of one character. *)
Definition replace_char (old new : ascii) (s : string) : string :=
  map_chars (fun c => if Ascii.eqb c old then new else c) s.

(** [re.search(word, s, re.IGNORECASE)] for a pattern that is one word of
    ASCII letters: the word occurs in [s] in any mix of cases. *)
Definition search_ignorecase (word s : string) : bool :=
  PyStr.contains (lower word) (lower s).

Definition COLON : ascii := ascii_of_nat 58.
Definition SPACE : ascii := ascii_of_nat 32.
Definition UNDERSCORE : ascii := ascii_of_nat 95.
Definition LFc : ascii := ascii_of_nat 10.
Definition TABc : ascii := ascii_of_nat 9.

(** No character of [s] is [c]. *)
Fixpoint lacks (c : ascii) (s : string) : bool :=
  match s with
  | EmptyString => true
  | String a t => negb (Ascii.eqb a c) && lacks c t
  end.

End PyText.

(** ** The class [DeviceScanner] ([device_scanner.py]) *)

(** The dictionary that [_get_device_details] builds for one device.  The
    keys it always sets are fields; the nine properties, each present only
    when its query answered, are the entries of [dev_props]. *)
Record device : Type := mkDevice {
  dev_serial : string;
  dev_scan_time : string;
  dev_status : string;
  dev_props : gmap string string;
  dev_lock_status : string;
  dev_usb_debugging : bool;
  dev_rooted : bool;
  dev_storage : gmap string string;
  dev_battery : gmap string string
}.

(** The dictionary of [_generate_summary]. *)
Record Summary : Type := mkSummary {
  locked_devices : Z;
  unlocked_devices : Z;
  rooted_devices : Z;
  debugging_enabled : Z;
  android_versions : gmap string Z;
  manufacturers : gmap string Z
}.

(** The dictionary of [generate_report]. *)
Record Report : Type := mkReport {
  report_scan_time : string;
  total_devices : Z;
  report_devices : list device;
  report_summary : Summary
}.

Inductive scan_message : Type :=
| ScanStart
| ScanFailed
| ScanNoDevices
| ScanNothingYet.

(** The scanner: its [adb] object in its world, its [scan_results] and the
    lines the scanner itself printed. *)
Record ScanSys : Type := mkScanSys {
  adb_sys : Sys;
  scan_results : list device;
  scan_console : list scan_message
}.

Definition SM (A : Type) : Type := ScanSys -> Res A * ScanSys.

Definition sret {A} (a : A) : SM A := fun st => (Ret a, st).

Definition sbind {A B} (c : SM A) (k : A -> SM B) : SM B :=
  fun st =>
    match c st with
    | (Ret a, st') => k a st'
    | (Raise e, st') => (Raise e, st')
    | (Unfinished, st') => (Unfinished, st')
    end.

Declare Scope scan_scope.
Delimit Scope scan_scope with scan.
Notation "x <- c ;; k" := (sbind c (fun x => k))
  (at level 100, c at next level, right associativity) : scan_scope.
Notation "c ;; k" := (sbind c (fun _ => k))
  (at level 100, right associativity) : scan_scope.

(** A method of [self.adb] called from the scanner. *)
Definition via_adb {A} (c : M A) : SM A :=
  fun st =>
    let '(r, s') := c (adb_sys st) in
    (r, mkScanSys s' (scan_results st) (scan_console st)).

Definition scan_print (msg : scan_message) : SM unit :=
  fun st => (Ret tt, mkScanSys (adb_sys st) (scan_results st) (scan_console st ++ [msg])).

Definition get_results : SM (list device) :=
  fun st => (Ret (scan_results st), st).

Definition set_results (l : list device) : SM unit :=
  fun st => (Ret tt, mkScanSys (adb_sys st) l (scan_console st)).

(** [self.scan_results.append(d)] *)
Definition append_result (d : device) : SM unit :=
  fun st => (Ret tt, mkScanSys (adb_sys st) (scan_results st ++ [d]) (scan_console st)).

(** A [for] loop of the scanner; its body returns nothing. *)
Fixpoint sfor {A} (items : list A) (body : A -> SM unit) : SM unit :=
  match items with
  | [] => sret tt
  | x :: rest => sbind (body x) (fun _ => sfor rest body)
  end.

Section Scanner.

Variable run_outcome : World -> invocation -> proc_outcome.
(** [datetime.now().isoformat()] *)
Variable now_iso : World -> string.
Variable home : home_outcome.

Definition datetime_now : M string := fun s => (Ret (now_iso (world s)), s).

(** The methods below use nothing of the scanner but [self.adb]: they are
    computations on that object. *)

Definition detail_commands : list (string * string) :=
  [ ("model", "shell getprop ro.product.model");
    ("brand", "shell getprop ro.product.brand");
    ("manufacturer", "shell getprop ro.product.manufacturer");
    ("device", "shell getprop ro.product.device");
    ("android_version", "shell getprop ro.build.version.release");
    ("api_level", "shell getprop ro.build.version.sdk");
    ("security_patch", "shell getprop ro.build.version.security_patch");
    ("build_id", "shell getprop ro.build.id");
    ("build_type", "shell getprop ro.build.type") ].

Definition _check_lock_status (serial : string) : M string :=
  result <- execute_command run_outcome ["-s"; serial; "shell"; "dumpsys"; "trust"] false ;;
  let returned :=
    if success result then
      let output := output result in
      let from_trust :=
        if PyStr.contains "TrustAgentService" output then
          if PyStr.contains "FLAG_KEYGUARD_SECURE" output then
            let pattern_match := PyStr.contains "LockPatternUtils.Pattern" output in
            let pin_match := PyText.search_ignorecase "PIN" output
                             || PyText.search_ignorecase "PASSWORD" output in
            if pattern_match then Some "pattern"
            else if pin_match then Some "pin/password"
            else Some "secure"
          else None
        else None in
      match from_trust with
      | Some verdict => Some verdict
      | None =>
          if PyStr.contains "FLAG_KEYGUARD" output
             && negb (PyStr.contains "SECURE" output)
          then Some "swipe" else None
      end
    else None in
  match returned with
  | Some verdict => ret verdict
  | None =>
      result <- execute_command run_outcome ["-s"; serial; "shell"; "ls"; "/data/system/"] false ;;
      if success result && PyStr.contains "gesture.key" (output result)
      then ret "pattern"
      else if success result && PyStr.contains "password.key" (output result)
      then ret "password"
      else ret "unknown"
  end.

Definition _check_usb_debugging (serial : string) : M bool :=
  result <- execute_command run_outcome
              ["-s"; serial; "shell"; "settings"; "get"; "global"; "adb_enabled"] false ;;
  if success result
  then ret (String.eqb (PyStr.strip (output result)) "1")
  else ret false.

Definition _check_root_access (serial : string) : M bool :=
  result <- execute_command run_outcome
              ["-s"; serial; "shell"; "su"; "-c"; "echo root_test"] false ;;
  if success result && PyStr.contains "root_test" (output result)
  then ret true
  else ret false.

(** The dictionary literal reads [parts[1]] to [parts[4]] although the
    guard only asks for four fields: with exactly four, [parts[4]] raises
    [IndexError]. *)
Definition _get_storage_info (serial : string) : M (gmap string string) :=
  result <- execute_command run_outcome ["-s"; serial; "shell"; "df"; "/data"] false ;;
  if success result then
    let lines := PyText.split_on PyText.LFc (PyStr.strip (output result)) in
    match lines with
    | _ :: line1 :: _ =>
        match PyStr.split line1 with
        | _ :: p1 :: p2 :: p3 :: rest =>
            match rest with
            | p4 :: _ =>
                ret (<["usage_percent" := p4]>
                       (<["available" := p3]>
                          (<["used" := p2]> (<["total" := p1]> ∅))))
            | [] => raise (Exception "list index out of range")
            end
        | _ => ret ∅
        end
    | _ => ret ∅
    end
  else ret ∅.

Definition _get_battery_info (serial : string) : M (gmap string string) :=
  result <- execute_command run_outcome ["-s"; serial; "shell"; "dumpsys"; "battery"] false ;;
  if success result then
    let lines := PyText.split_on PyText.LFc (PyStr.strip (output result)) in
    for_fold lines (∅ : gmap string string)
      (fun battery_info line =>
         if PyStr.contains (String PyText.COLON "") line then
           match PyText.split_first PyText.COLON line with
           | [key; value] =>
               let key := PyText.replace_char PyText.SPACE PyText.UNDERSCORE
                            (PyText.lower (PyStr.strip key)) in
               let value := PyStr.strip value in
               ret (<[key := value]> battery_info)
           | _ => raise (Exception "not enough values to unpack (expected 2, got 1)")
           end
         else ret battery_info)
  else ret ∅.

Definition _get_device_details (serial : string) : M device :=
  scan_time <- datetime_now ;;
  props <- for_fold detail_commands (∅ : gmap string string)
             (fun props '(key, cmd) =>
                result <- execute_command run_outcome
                            (["-s"; serial] ++ PyStr.split cmd) false ;;
                if success result && PyStr.truthy (output result)
                then ret (<[key := PyStr.strip (output result)]> props)
                else ret props) ;;
  lock_status <- _check_lock_status serial ;;
  usb_debugging <- _check_usb_debugging serial ;;
  rooted <- _check_root_access serial ;;
  storage <- _get_storage_info serial ;;
  battery <- _get_battery_info serial ;;
  ret (mkDevice serial scan_time "connected" props lock_status usb_debugging rooted
                storage battery).

(** One turn of the loop of [_generate_summary]. *)
Definition count_device (summary : Summary) (d : device) : Summary :=
  let locked :=
    negb (String.eqb (dev_lock_status d) "swipe"
          || String.eqb (dev_lock_status d) "unknown") in
  let version := default "Unknown" (dev_props d !! "android_version") in
  let manufacturer := default "Unknown" (dev_props d !! "manufacturer") in
  mkSummary
    (if locked then locked_devices summary + 1 else locked_devices summary)
    (if locked then unlocked_devices summary else unlocked_devices summary + 1)
    (if dev_rooted d then rooted_devices summary + 1 else rooted_devices summary)
    (if dev_usb_debugging d then debugging_enabled summary + 1
     else debugging_enabled summary)
    (<[version := default 0 (android_versions summary !! version) + 1]>
       (android_versions summary))
    (<[manufacturer := default 0 (manufacturers summary !! manufacturer) + 1]>
       (manufacturers summary)).

Local Open Scope scan_scope.

Definition scanner_init : SM unit :=
  via_adb (__init__ run_outcome home) ;;
  set_results [].

Definition scan_devices : SM (list device) :=
  scan_print ScanStart ;;
  set_results [] ;;
  result <- via_adb (execute_command run_outcome ["devices"] false) ;;
  if negb (success result) then scan_print ScanFailed ;; sret []
  else
    let lines := PyText.split_on PyText.LFc (PyStr.strip (output result)) in
    if (length lines <=? 1)%nat then scan_print ScanNoDevices ;; sret []
    else
      sfor (drop 1 lines)
        (fun line =>
           if negb (PyStr.truthy (PyStr.strip line)) then sret tt
           else
             match PyText.split_on PyText.TABc line with
             | part0 :: part1 :: _ =>
                 let serial := PyStr.strip part0 in
                 let status := PyStr.strip part1 in
                 if String.eqb status "device" then
                   device_info <- via_adb (_get_device_details serial) ;;
                   append_result device_info
                 else sret tt
             | _ => sret tt
             end) ;;
      get_results.

Definition _generate_summary : SM Summary :=
  results <- get_results ;;
  sret (fold_left count_device results (mkSummary 0 0 0 0 ∅ ∅)).

Definition generate_report : SM (option Report) :=
  results <- get_results ;;
  match results with
  | [] => scan_print ScanNothingYet ;; sret None
  | _ :: _ =>
      scan_time <- via_adb datetime_now ;;
      results <- get_results ;;
      summary <- _generate_summary ;;
      sret (Some (mkReport scan_time (Z.of_nat (length results)) results summary))
  end.

Close Scope scan_scope.

End Scanner.

(** ** Vocabulary of the statements about the scanner *)

Section ScannerVocabulary.

(** The sum of the counts of a histogram. *)
Definition total_count (h : gmap string Z) : Z :=
  map_fold (fun _ n acc => n + acc) 0 h.

(** The serial that a line of the device list stands for, when the line
    names a device in the state [device]. *)
Definition ready_serial (line : string) : option string :=
  if negb (PyStr.truthy (PyStr.strip line)) then None
  else match PyText.split_on PyText.TABc line with
       | part0 :: part1 :: _ =>
           if String.eqb (PyStr.strip part1) "device"
           then Some (PyStr.strip part0) else None
       | _ => None
       end.

Definition listed_ready (lines : list string) : list string :=
  omap ready_serial lines.

(** A field of the device list: not empty, no TAB, no newline, no
    whitespace at either end. *)
Definition field (s : string) : Prop :=
  PyStr.truthy s = true
  /\ PyText.lacks PyText.TABc s = true
  /\ PyText.lacks PyText.LFc s = true
  /\ (forall c, PyStr.first_char s = Some c -> PyStr.isspace c = false)
  /\ (forall c, PyStr.last_char s = Some c -> PyStr.isspace c = false).

(** What [adb devices] prints for the attached devices: the header, one
    line [serial TAB state] for each, an empty line. *)
Fixpoint device_rows (entries : list (string * string)) : string :=
  match entries with
  | [] => EmptyString
  | (serial, state) :: rest =>
      serial +:+ PyStr.TAB +:+ state +:+ PyStr.LF +:+ device_rows rest
  end.

Definition device_list (entries : list (string * string)) : string :=
  "List of devices attached" +:+ PyStr.LF +:+ device_rows entries +:+ PyStr.LF.

(** The line of one device, and the lines of the devices each behind a
    newline: the device list without its header and its last two
    newlines. *)
Definition device_row (entry : string * string) : string :=
  fst entry +:+ PyStr.TAB +:+ snd entry.

Fixpoint rows_after (entries : list (string * string)) : string :=
  match entries with
  | [] => EmptyString
  | entry :: rest => PyStr.LF +:+ device_row entry +:+ rows_after rest
  end.

(** The serials of the entries whose state is [device]. *)
Definition ready_entries (entries : list (string * string)) : list string :=
  fst <$> filter (fun entry => snd entry = "device") entries.

(** The outcome [out] of a computation started on the object [m] in the
    world [w]: the object is unchanged, every process started selects the
    device [serial], and the computation ends in a value that satisfies
    [post] or in an exception that satisfies [fail]. *)
Definition addressed {A} (serial : string) (m : ADBManager) (w : World)
    (post : A -> Prop) (fail : exn -> Prop) (out : Res A * Sys) : Prop :=
  exists calls,
    snd out = mkSys m (after_calls w calls)
    /\ Forall (selects_device serial) calls
    /\ match fst out with
       | Ret a => post a
       | Raise e => fail e
       | Unfinished => False
       end.

Definition index_error : exn := Exception "list index out of range".

(** The fields of the second line of what [df] answered, as
    [_get_storage_info] splits them; none when there is no second line. *)
Definition df_fields (o : proc_outcome) : list string :=
  match PyText.split_on PyText.LFc (PyStr.strip (output (result_of o))) with
  | _ :: line1 :: _ => PyStr.split line1
  | _ => []
  end.

(** The answer of [df] sends [_get_storage_info] to the fifth field of a
    line that has four. *)
Definition df_short (o : proc_outcome) : bool :=
  success (result_of o) && (length (df_fields o) =? 4)%nat.

Definition lock_labels : list string :=
  ["pattern"; "pin/password"; "secure"; "swipe"; "password"; "unknown"].

Definition detail_keys : list string :=
  ["model"; "brand"; "manufacturer"; "device"; "android_version"; "api_level";
   "security_patch"; "build_id"; "build_type"].

(** The dictionary of the device [serial] as [_get_device_details] leaves
    it when started in the world [w]. *)
Definition details_post (now_iso : World -> string) (serial : string) (w : World)
    (d : device) : Prop :=
  dev_serial d = serial
  /\ dev_status d = "connected"
  /\ dev_scan_time d = now_iso w
  /\ dev_lock_status d ∈ lock_labels
  /\ forall key v, dev_props d !! key = Some v ->
        key ∈ detail_keys /\ PyStr.truthy v = true /\ PyStr.strip v = v.

(** How [_generate_summary] reads one device. *)
Definition is_locked (d : device) : bool :=
  negb (String.eqb (dev_lock_status d) "swipe"
        || String.eqb (dev_lock_status d) "unknown").

Definition version_of (d : device) : string :=
  default "Unknown" (dev_props d !! "android_version").

Definition maker_of (d : device) : string :=
  default "Unknown" (dev_props d !! "manufacturer").

(** The number of devices of the list that pass the test. *)
Fixpoint tally (test : device -> bool) (l : list device) : Z :=
  match l with
  | [] => 0
  | d :: rest => (if test d then 1 else 0) + tally test rest
  end.

(** The entry of a histogram for something seen [n] times. *)
Definition seen (n : Z) : option Z := if n =? 0 then None else Some n.

(** The summary [s] is the summary of the devices [l]. *)
Definition summary_of (s : Summary) (l : list device) : Prop :=
  locked_devices s = tally is_locked l
  /\ unlocked_devices s = tally (fun d => negb (is_locked d)) l
  /\ rooted_devices s = tally dev_rooted l
  /\ debugging_enabled s = tally dev_usb_debugging l
  /\ (forall v, android_versions s !! v
                = seen (tally (fun d => String.eqb (version_of d) v) l))
  /\ (forall v, manufacturers s !! v
                = seen (tally (fun d => String.eqb (maker_of d) v) l))
  /\ total_count (android_versions s) = Z.of_nat (length l)
  /\ total_count (manufacturers s) = Z.of_nat (length l).

End ScannerVocabulary.

(** ** Concrete environments for the scanner *)

Module ScanStub.

Definition clock (w : World) : string := "2024-05-01T12:00:00".

Definition attached : list (string * string) :=
  [ ("emulator-5554", "device"); ("0123456789ABCDEF", "offline") ].

Definition df_output (data_line : string) : string :=
  "Filesystem 1K-blocks Used Available Use% Mounted on" +:+ PyStr.LF
  +:+ data_line +:+ PyStr.LF.

Definition battery_output : string :=
  "Current Battery Service state:" +:+ PyStr.LF
  +:+ "  AC powered: false" +:+ PyStr.LF
  +:+ "  Max charging current: 0" +:+ PyStr.LF
  +:+ "  level: 85" +:+ PyStr.LF.

(** A phone behind [adb]; [data_line] is the line that [df /data] prints
    for the data partition. *)
Definition answer (data_line : string) (w : World) (i : invocation) : proc_outcome :=
  match argv i with
  | [_; "devices"] => Completed 0 (device_list attached) ""
  | _ :: "-s" :: _ :: "shell" :: rest =>
      match rest with
      | ["df"; "/data"] => Completed 0 (df_output data_line) ""
      | ["dumpsys"; "battery"] => Completed 0 battery_output ""
      | ["dumpsys"; "trust"] =>
          Completed 0 "TrustAgentService: FLAG_KEYGUARD_SECURE, pin" ""
      | ["getprop"; prop] => Completed 0 (prop +:+ PyStr.LF) ""
      | ["settings"; "get"; "global"; "adb_enabled"] =>
          Completed 0 ("1" +:+ PyStr.LF) ""
      | _ => Completed 1 "" "not found"
      end
  | _ => Completed 1 "" "unknown command"
  end.

Definition phone : World -> invocation -> proc_outcome :=
  answer "/dev/block/dm-0 1000 400 600 40% /data".

(** The same phone with a [df] that prints four fields only. *)
Definition short_df : World -> invocation -> proc_outcome :=
  answer "tmpfs 1000 400 600".

(** Always one device attached, in the state [device]. *)
Definition one_device (w : World) (i : invocation) : proc_outcome :=
  Completed 0 (device_list [("emulator-5554", "device")]) "".

Definition start : ScanSys := mkScanSys (mkSys Stub.session Stub.fresh) [] [].

Definition sample (serial lock version : string) (rooted usb : bool) : device :=
  mkDevice serial "2024-05-01T12:00:00" "connected"
           (if PyStr.truthy version then {[ "android_version" := version ]} else ∅)
           lock usb rooted ∅ ∅.

End ScanStub.
(** ** Facts about the string primitives *)

Section StringFacts.
Import PyStr.

Lemma append_cons (c : ascii) (l r : string) :
  String c l +:+ r = String c (l +:+ r).
Proof. reflexivity. Qed.

Lemma append_empty (r : string) : "" +:+ r = r.
Proof. reflexivity. Qed.

Lemma lstrip_decompose (s : string) :
  exists l, s = l +:+ lstrip s /\ all_space l = true.
Proof.
  induction s as [|c t [l [Hl Hs]]]; simpl.
  - exists ""; auto.
  - destruct (isspace c) eqn:Hc.
    + exists (String c l). rewrite append_cons, <- Hl. simpl.
      rewrite Hc, Hs. auto.
    + exists ""; auto.
Qed.

Lemma rstrip_decompose (s : string) :
  exists r, s = rstrip s +:+ r /\ all_space r = true.
Proof.
  induction s as [|c t [r [Hr Hs]]]; simpl.
  - exists ""; auto.
  - destruct (rstrip t) eqn:Ht.
    + rewrite append_empty in Hr. subst r. destruct (isspace c) eqn:Hc.
      * exists (String c t); simpl. rewrite Hc, Hs; auto.
      * exists t; auto.
    + exists r. rewrite append_cons, <- Hr. auto.
Qed.

Lemma strip_decompose (s : string) :
  exists l r, s = l +:+ strip s +:+ r
              /\ all_space l = true /\ all_space r = true.
Proof.
  destruct (lstrip_decompose s) as [l [Hl Hls]].
  destruct (rstrip_decompose (lstrip s)) as [r [Hr Hrs]].
  exists l, r. unfold strip. rewrite <- Hr. auto.
Qed.

Lemma lstrip_first (s : string) (c : ascii) :
  first_char (lstrip s) = Some c -> isspace c = false.
Proof.
  induction s as [|a t IH]; simpl; [discriminate|].
  destruct (isspace a) eqn:Ha; [assumption|].
  simpl. intros [= <-]. assumption.
Qed.

Lemma rstrip_first (s : string) (c : ascii) :
  first_char (rstrip s) = Some c -> first_char s = Some c.
Proof.
  destruct s as [|a t]; simpl; [discriminate|].
  destruct (rstrip t); [destruct (isspace a)|]; simpl; congruence.
Qed.

Lemma rstrip_last (s : string) (c : ascii) :
  last_char (rstrip s) = Some c -> isspace c = false.
Proof.
  induction s as [|a t IH]; simpl; [discriminate|].
  destruct (rstrip t) as [|b r] eqn:Ht.
  - destruct (isspace a) eqn:Ha; simpl; [discriminate|].
    intros [= <-]. assumption.
  - simpl. exact IH.
Qed.

Lemma strip_first (s : string) (c : ascii) :
  first_char (strip s) = Some c -> isspace c = false.
Proof. intros H. apply rstrip_first in H. eapply lstrip_first; eauto. Qed.

Lemma strip_last (s : string) (c : ascii) :
  last_char (strip s) = Some c -> isspace c = false.
Proof. apply rstrip_last. Qed.

Lemma lstrip_fixed (t : string) :
  (forall c, first_char t = Some c -> isspace c = false) -> lstrip t = t.
Proof.
  destruct t as [|a t]; simpl; [reflexivity|].
  intros H. rewrite (H a eq_refl). reflexivity.
Qed.

Lemma rstrip_idempotent (s : string) : rstrip (rstrip s) = rstrip s.
Proof.
  induction s as [|c t IH]; simpl; [reflexivity|].
  destruct (rstrip t) as [|b r] eqn:Ht.
  - destruct (isspace c) eqn:Hc; simpl; [reflexivity|]. rewrite Hc. reflexivity.
  - change (rstrip (String c (String b r))) with
      (match rstrip (String b r) with
       | EmptyString => if isspace c then EmptyString else String c EmptyString
       | String x y => String c (String x y)
       end).
    rewrite IH. reflexivity.
Qed.

Lemma strip_idempotent (s : string) : strip (strip s) = strip s.
Proof.
  unfold strip at 1. rewrite lstrip_fixed by apply strip_first.
  unfold strip. apply rstrip_idempotent.
Qed.

Lemma startswith_spec (p s : string) :
  startswith p s = true <-> exists r, s = p +:+ r.
Proof.
  revert s. induction p as [|a p IH]; intros s; simpl.
  - split; eauto.
  - destruct s as [|b s].
    + split; [discriminate | intros [r Hr]; discriminate].
    + destruct (Ascii.eqb_spec a b) as [->|Hne].
      * rewrite IH. split; intros [r Hr]; exists r;
          rewrite ?append_cons in *; congruence.
      * split; [discriminate | intros [r Hr]].
        rewrite append_cons in Hr. congruence.
Qed.

Lemma contains_spec (sub s : string) :
  contains sub s = true <-> exists l r, s = l +:+ sub +:+ r.
Proof.
  induction s as [|c t IH].
  - simpl. rewrite orb_false_r, startswith_spec. split.
    + intros [r Hr]. exists "", r. assumption.
    + intros [l [r Hr]]. destruct l; [eauto | discriminate].
  - cbn [contains]. rewrite orb_true_iff, startswith_spec, IH. split.
    + intros [[r Hr] | [l [r Hr]]].
      * exists "", r. assumption.
      * exists (String c l), r. rewrite append_cons. congruence.
    + intros [[|a l] [r Hr]].
      * left. exists r. assumption.
      * right. exists l, r. rewrite append_cons in Hr. congruence.
Qed.

End StringFacts.

Example split_getprop :
  PyStr.split "shell getprop ro.product.model" = ["shell"; "getprop"; "ro.product.model"].
Proof. reflexivity. Qed.

Example strip_ex :
  PyStr.strip ("  a b " +:+ PyStr.LF) = "a b".
Proof. reflexivity. Qed.

(** ** Running a command *)

Section Execution.

Variable run_outcome : World -> invocation -> proc_outcome.
Variable path_exists : World -> string -> bool.
Variable home : home_outcome.

Lemma bind_ext_l {A B} (c1 c2 : M A) (k : A -> M B) (s : Sys) :
  c1 s = c2 s -> bind c1 k s = bind c2 k s.
Proof. intros H. unfold bind. rewrite H. reflexivity. Qed.

Lemma bind_ext_r {A B} (c : M A) (k1 k2 : A -> M B) (s : Sys) :
  (forall a s', k1 a s' = k2 a s') -> bind c k1 s = bind c k2 s.
Proof. intros H. unfold bind. destruct (c s) as [[a| |] s']; auto. Qed.

Lemma try_except_ext {A} (b1 b2 : M A) (h : exn -> M A) (s : Sys) :
  b1 s = b2 s -> try_except b1 h s = try_except b2 h s.
Proof. intros H. unfold try_except. rewrite H. reflexivity. Qed.

Lemma for_each_ext {A B} (items : list A) (f g : A -> M (option B)) (s : Sys) :
  (forall x s', f x s' = g x s') ->
  for_each items f s = for_each items g s.
Proof.
  intros H. revert s. induction items as [|x rest IH]; intros s; simpl; [reflexivity|].
  rewrite (bind_ext_l _ _ _ _ (H x s)). apply bind_ext_r.
  intros [b|] s'; auto.
Qed.

Lemma wait_with_ext (e1 e2 : list string -> bool -> M CommandResult)
    (max_attempts : Z) (s : Sys) :
  (forall s', e1 ["devices"] false s' = e2 ["devices"] false s') ->
  wait_for_device_with e1 max_attempts s = wait_for_device_with e2 max_attempts s.
Proof.
  intros H. unfold wait_for_device_with.
  apply bind_ext_r. intros _ s1. apply bind_ext_l.
  apply for_each_ext. intros _ s2. unfold poll_once. apply bind_ext_l, H.
Qed.

Lemma execute_command_at_S (d : nat) (command : list string) (wf : bool) :
  execute_command_at run_outcome (S d) command wf =
    (m <- get_self ;;
     match adb_path_set m with
     | None => raise (Exception "ADB not found")
     | Some adb =>
         try_except
           ((if wf
             then wait_for_device_with (execute_command_at run_outcome d) 30 ;; ret tt
             else ret tt) ;;
            m' <- get_self ;;
            result <- subprocess_run run_outcome ([adb] ++ command) (timeout m') ;;
            ret (mkResult (proc_returncode result =? 0)
                          (PyStr.strip (proc_stdout result))
                          (PyStr.strip (proc_stderr result))
                          (proc_returncode result)))
           (fun e =>
              match e with
              | TimeoutExpired => ret timed_out_result
              | Exception d => ret (failed_result d)
              end)
     end).
Proof. reflexivity. Qed.

Lemma execute_unresolved (d : nat) (command : list string) (wf : bool) (s : Sys) :
  adb_path_set (self s) = None ->
  execute_command_at run_outcome (S d) command wf s
  = (Raise (Exception "ADB not found"), s).
Proof.
  intros H. rewrite execute_command_at_S.
  unfold bind, get_self. rewrite H. reflexivity.
Qed.

(** Without the wait flag a single process is started, whatever the depth. *)
Lemma execute_once (d : nat) (command : list string) (m : ADBManager) (w : World)
    (adb : string) :
  resolved m adb ->
  execute_command_at run_outcome (S d) command false (mkSys m w) =
    (Ret (result_of (run_outcome w (request m adb command))),
     mkSys m (log_spawn (request m adb command) w)).
Proof.
  intros H. unfold resolved in H. rewrite execute_command_at_S.
  unfold bind, get_self, try_except, subprocess_run, request. simpl. rewrite H. simpl.
  destruct (run_outcome w _); reflexivity.
Qed.

Lemma execute_nowait_depth (d : nat) (command : list string) (s : Sys) :
  execute_command_at run_outcome (S d) command false s
  = execute_command_at run_outcome 1 command false s.
Proof. reflexivity. Qed.

(** Two levels of nesting are enough: a deeper bound changes nothing. *)
Lemma execute_command_depth (d : nat) (command : list string) (wf : bool) (s : Sys) :
  (2 <= d)%nat ->
  execute_command_at run_outcome d command wf s = execute_command run_outcome command wf s.
Proof.
  intros Hd. destruct d as [|[|d]]; [lia | lia |].
  destruct wf; [|reflexivity].
  unfold execute_command, call_depth.
  rewrite (execute_command_at_S (S d)), (execute_command_at_S 1).
  apply bind_ext_r. intros m s1.
  destruct (adb_path_set m) as [adb|]; [|reflexivity].
  apply try_except_ext, bind_ext_l, bind_ext_l, wait_with_ext.
  intros s'. reflexivity.
Qed.

Lemma wait_for_device_depth (d : nat) (max_attempts : Z) (s : Sys) :
  (1 <= d)%nat ->
  wait_for_device_with (execute_command_at run_outcome d) max_attempts s
  = wait_for_device run_outcome max_attempts s.
Proof.
  intros Hd. destruct d as [|d]; [lia|].
  unfold wait_for_device. apply wait_with_ext. intros s'. reflexivity.
Qed.


(** *** The object is never assigned to *)

Lemma preserves_ret {A} (a : A) : preserves_self (ret a).
Proof. intros s. reflexivity. Qed.

Lemma preserves_raise {A} (e : exn) : preserves_self (@raise A e).
Proof. intros s. reflexivity. Qed.

Lemma preserves_unfinished {A} : preserves_self (@unfinished A).
Proof. intros s. reflexivity. Qed.

Lemma preserves_get_self : preserves_self get_self.
Proof. intros s. reflexivity. Qed.

Lemma preserves_on_world (f : World -> World) : preserves_self (on_world f).
Proof. intros s. reflexivity. Qed.

Lemma preserves_print (msg : message) : preserves_self (print msg).
Proof. apply preserves_on_world. Qed.

Lemma preserves_sleep (n : Z) : preserves_self (sleep n).
Proof. apply preserves_on_world. Qed.

Lemma preserves_local_exists (p : string) :
  preserves_self (local_exists path_exists p).
Proof. intros s. reflexivity. Qed.

Lemma preserves_subprocess_run (args : list string) (limit : Z) :
  preserves_self (subprocess_run run_outcome args limit).
Proof.
  intros s. unfold subprocess_run. destruct (run_outcome _ _); reflexivity.
Qed.

Lemma preserves_bind {A B} (c : M A) (k : A -> M B) :
  preserves_self c -> (forall a, preserves_self (k a)) -> preserves_self (bind c k).
Proof.
  intros Hc Hk s. unfold bind. specialize (Hc s).
  destruct (c s) as [[a| |] s']; simpl in *; auto.
  rewrite Hk. assumption.
Qed.

Lemma preserves_try_except {A} (body : M A) (handler : exn -> M A) :
  preserves_self body -> (forall e, preserves_self (handler e)) ->
  preserves_self (try_except body handler).
Proof.
  intros Hb Hh s. unfold try_except. specialize (Hb s).
  destruct (body s) as [[a| |] s']; simpl in *; auto.
  rewrite Hh. assumption.
Qed.

Lemma preserves_for_each {A B} (items : list A) (body : A -> M (option B)) :
  (forall x, preserves_self (body x)) -> preserves_self (for_each items body).
Proof.
  intros H. induction items as [|x rest IH]; simpl.
  - apply preserves_ret.
  - apply preserves_bind; [apply H|]. intros [b|]; [apply preserves_ret | apply IH].
Qed.

Lemma preserves_for_fold {A S} (items : list A) (body : S -> A -> M S) (acc : S) :
  (forall a x, preserves_self (body a x)) -> preserves_self (for_fold items acc body).
Proof.
  intros H. revert acc. induction items as [|x rest IH]; intros acc; simpl.
  - apply preserves_ret.
  - apply preserves_bind; [apply H | intros a; apply IH].
Qed.

Create HintDb session discriminated.
Hint Resolve preserves_ret preserves_raise preserves_unfinished preserves_get_self
  preserves_print preserves_sleep preserves_local_exists preserves_subprocess_run
  : session.

Ltac preserve :=
  repeat first
    [ apply preserves_bind; [|intros ?]
    | apply preserves_try_except; [|intros ?]
    | apply preserves_for_each; intros ?
    | apply preserves_for_fold; intros ? ?
    | match goal with
      | |- preserves_self (if ?b then _ else _) => destruct b
      | |- preserves_self (match ?x with _ => _ end) => destruct x
      | |- preserves_self (let '(_, _) := ?x in _) => destruct x
      end
    | solve [auto with session] ].

Lemma preserves_poll_once (e : list string -> bool -> M CommandResult) :
  (forall c f, preserves_self (e c f)) -> preserves_self (poll_once e).
Proof. intros H. unfold poll_once. preserve. Qed.

Lemma preserves_wait_with (e : list string -> bool -> M CommandResult) (n : Z) :
  (forall c f, preserves_self (e c f)) -> preserves_self (wait_for_device_with e n).
Proof.
  intros H. unfold wait_for_device_with. preserve.
Qed.

Lemma preserves_execute_at (d : nat) (command : list string) (wf : bool) :
  preserves_self (execute_command_at run_outcome d command wf).
Proof.
  revert command wf. induction d as [|d IH]; intros command wf.
  - apply preserves_unfinished.
  - rewrite execute_command_at_S. preserve.
Qed.

Lemma preserves_execute (command : list string) (wf : bool) :
  preserves_self (execute_command run_outcome command wf).
Proof. apply preserves_execute_at. Qed.

Hint Resolve preserves_execute : session.

(** *** The polling loop *)

Lemma polled_zero (q : invocation) (w : World) : polled q w 0 = w.
Proof.
  destruct w as [sp el co]. unfold polled. simpl.
  rewrite !app_nil_r, Z.add_0_r. reflexivity.
Qed.

Lemma polled_shift (q : invocation) (w : World) (k : nat) :
  polled q (polled q w 1) k = polled q w (S k).
Proof.
  unfold polled. simpl spawned. simpl elapsed. simpl console.
  rewrite <- !app_assoc. f_equal. lia.
Qed.

Lemma poll_once_step (d : nat) (m : ADBManager) (w : World) (adb : string) :
  resolved m adb ->
  let q := request m adb ["devices"] in
  poll_once (execute_command_at run_outcome (S d)) (mkSys m w) =
    if reports_ready (run_outcome w q)
    then (Ret (Some true), mkSys m (connected q w))
    else (Ret None, mkSys m (polled q w 1)).
Proof.
  intros H q. unfold poll_once, bind at 1.
  rewrite (execute_once d _ m w adb H). fold q. unfold reports_ready.
  destruct (PyStr.contains _ _); reflexivity.
Qed.

Lemma for_each_step {A B} (x : A) (rest : list A) (body : A -> M (option B))
    (s s' : Sys) (r : option B) :
  body x s = (Ret r, s') ->
  for_each (x :: rest) body s =
    match r with
    | Some b => (Ret (Some b), s')
    | None => for_each rest body s'
    end.
Proof. intros H. simpl. unfold bind. rewrite H. destruct r; reflexivity. Qed.

Lemma poll_loop_exhausted (d : nat) (m : ADBManager) (adb : string) (items : list Z) :
  resolved m adb ->
  let q := request m adb ["devices"] in
  forall w,
    (forall k, (k < length items)%nat ->
               reports_ready (run_outcome (polled q w k) q) = false) ->
    for_each items (fun _ => poll_once (execute_command_at run_outcome (S d))) (mkSys m w)
    = (Ret None, mkSys m (polled q w (length items))).
Proof.
  intros H q. induction items as [|x rest IH]; intros w Hno.
  - simpl. rewrite polled_zero. reflexivity.
  - pose proof (poll_once_step d m w adb H) as Hp. cbv zeta in Hp. fold q in Hp.
    pose proof (Hno 0%nat ltac:(simpl; lia)) as H0. rewrite polled_zero in H0.
    rewrite H0 in Hp.
    rewrite (for_each_step x rest _ _ _ _ Hp). rewrite IH.
    + rewrite polled_shift. reflexivity.
    + intros k Hk. rewrite polled_shift. apply Hno. simpl. lia.
Qed.

Lemma poll_loop_found (d : nat) (m : ADBManager) (adb : string) (items : list Z) :
  resolved m adb ->
  let q := request m adb ["devices"] in
  forall w j,
    (j < length items)%nat ->
    (forall k, (k < j)%nat -> reports_ready (run_outcome (polled q w k) q) = false) ->
    reports_ready (run_outcome (polled q w j) q) = true ->
    for_each items (fun _ => poll_once (execute_command_at run_outcome (S d))) (mkSys m w)
    = (Ret (Some true), mkSys m (connected q (polled q w j))).
Proof.
  intros H q. induction items as [|x rest IH]; intros w j Hj Hno Hyes; simpl in Hj.
  - lia.
  - pose proof (poll_once_step d m w adb H) as Hp. cbv zeta in Hp. fold q in Hp.
    destruct j as [|j].
    + rewrite polled_zero in *. rewrite Hyes in Hp.
      rewrite (for_each_step x rest _ _ _ _ Hp). reflexivity.
    + pose proof (Hno 0%nat ltac:(lia)) as H0. rewrite polled_zero in H0.
      rewrite H0 in Hp.
      rewrite (for_each_step x rest _ _ _ _ Hp). rewrite (IH (polled q w 1) j).
      * rewrite polled_shift. reflexivity.
      * lia.
      * intros k Hk. rewrite polled_shift. apply Hno. lia.
      * rewrite polled_shift. assumption.
Qed.

Lemma poll_loop_bound (d : nat) (m : ADBManager) (adb : string) (items : list Z) :
  resolved m adb ->
  let q := request m adb ["devices"] in
  forall w, exists r k w',
    for_each items (fun _ => poll_once (execute_command_at run_outcome (S d))) (mkSys m w)
    = (Ret r, mkSys m w')
    /\ (k <= length items)%nat
    /\ spawned w' = spawned w ++ replicate k q.
Proof.
  intros H q. induction items as [|x rest IH]; intros w.
  - exists None, 0%nat, w. simpl. rewrite app_nil_r. auto.
  - pose proof (poll_once_step d m w adb H) as Hp. cbv zeta in Hp. fold q in Hp.
    destruct (reports_ready _).
    + exists (Some true), 1%nat, (connected q w).
      rewrite (for_each_step x rest _ _ _ _ Hp). simpl.
      split; [reflexivity|]. split; [lia | reflexivity].
    + destruct (IH (polled q w 1)) as (r & k & w' & Hrun & Hk & Hsp).
      exists r, (S k), w'. rewrite (for_each_step x rest _ _ _ _ Hp), Hrun.
      split; [reflexivity|]. split; [simpl; lia|].
      rewrite Hsp. simpl. rewrite <- app_assoc. reflexivity.
Qed.

Lemma length_range (n : Z) : length (range n) = Z.to_nat n.
Proof. unfold range. rewrite length_fmap, length_seq. reflexivity. Qed.


Lemma wait_with_unfold (e : list string -> bool -> M CommandResult) (n : Z)
    (m : ADBManager) (w : World) :
  wait_for_device_with e n (mkSys m w) =
    match for_each (range n) (fun _ => poll_once e) (mkSys m (announced w)) with
    | (Ret (Some b), s') => (Ret b, s')
    | (Ret None, s') => (Ret false, mkSys (self s') (gave_up (world s')))
    | (Raise x, s') => (Raise x, s')
    | (Unfinished, s') => (Unfinished, s')
    end.
Proof.
  unfold wait_for_device_with, bind, print, on_world, announced. simpl.
  destruct (for_each _ _ _) as [[[b|]| |] s']; reflexivity.
Qed.

Lemma wait_exhausted (n : Z) (m : ADBManager) (w : World) (adb : string) :
  resolved m adb ->
  let q := request m adb ["devices"] in
  (forall k, (k < Z.to_nat n)%nat ->
             reports_ready (run_outcome (polled q (announced w) k) q) = false) ->
  wait_for_device run_outcome n (mkSys m w)
  = (Ret false, mkSys m (gave_up (polled q (announced w) (Z.to_nat n)))).
Proof.
  intros H q Hno. unfold wait_for_device, execute_command, call_depth.
  rewrite wait_with_unfold.
  rewrite (poll_loop_exhausted 1 m adb (range n) H (announced w)).
  - rewrite length_range. reflexivity.
  - rewrite length_range. exact Hno.
Qed.

Lemma wait_found (n : Z) (m : ADBManager) (w : World) (adb : string) (j : nat) :
  resolved m adb ->
  let q := request m adb ["devices"] in
  (j < Z.to_nat n)%nat ->
  (forall k, (k < j)%nat ->
             reports_ready (run_outcome (polled q (announced w) k) q) = false) ->
  reports_ready (run_outcome (polled q (announced w) j) q) = true ->
  wait_for_device run_outcome n (mkSys m w)
  = (Ret true, mkSys m (connected q (polled q (announced w) j))).
Proof.
  intros H q Hj Hno Hyes. unfold wait_for_device, execute_command, call_depth.
  rewrite wait_with_unfold.
  rewrite (poll_loop_found 1 m adb (range n) H (announced w) j); auto.
  rewrite length_range. exact Hj.
Qed.

Lemma wait_bound (n : Z) (m : ADBManager) (w : World) (adb : string) :
  resolved m adb ->
  exists b k w',
    wait_for_device run_outcome n (mkSys m w) = (Ret b, mkSys m w')
    /\ (k <= Z.to_nat n)%nat
    /\ spawned w' = spawned w ++ replicate k (request m adb ["devices"]).
Proof.
  intros H. unfold wait_for_device, execute_command, call_depth.
  rewrite wait_with_unfold.
  destruct (poll_loop_bound 1 m adb (range n) H (announced w))
    as (r & k & w' & Hrun & Hk & Hsp).
  rewrite Hrun. rewrite length_range in Hk.
  destruct r as [b|].
  - exists b, k, w'. auto.
  - exists false, k, (gave_up w'). auto.
Qed.

Lemma for_each_raise {A B} (x : A) (rest : list A) (body : A -> M (option B))
    (s s' : Sys) (e : exn) :
  body x s = (Raise e, s') -> for_each (x :: rest) body s = (Raise e, s').
Proof. intros H. simpl. unfold bind. rewrite H. reflexivity. Qed.

Lemma poll_once_unresolved (d : nat) (s : Sys) :
  adb_path_set (self s) = None ->
  poll_once (execute_command_at run_outcome (S d)) s
  = (Raise (Exception "ADB not found"), s).
Proof.
  intros H. unfold poll_once, bind.
  rewrite execute_unresolved by exact H. reflexivity.
Qed.

Lemma wait_unresolved (n : Z) (m : ADBManager) (w : World) :
  adb_path_set m = None ->
  exists res w',
    wait_for_device run_outcome n (mkSys m w) = (res, mkSys m w')
    /\ res <> Unfinished
    /\ spawned w' = spawned w.
Proof.
  intros H. unfold wait_for_device, execute_command, call_depth.
  rewrite wait_with_unfold.
  destruct (range n) as [|x rest].
  - exists (Ret false), (gave_up (announced w)). simpl. repeat split. discriminate.
  - exists (Raise (Exception "ADB not found")), (announced w).
    rewrite (for_each_raise x rest _ _ _ _
               (poll_once_unresolved 1 (mkSys m (announced w)) H)).
    repeat split. discriminate.
Qed.


(** *** One request, with or without the wait *)

Lemma before_run_self (wf : bool) (m : ADBManager) (w : World) (adb : string) :
  resolved m adb ->
  self (before_run run_outcome wf (mkSys m w)) = m.
Proof.
  intros H. unfold before_run. destruct wf; [|reflexivity].
  destruct (wait_bound 30 m w adb H) as (b & k & w' & Hw & _).
  rewrite Hw. reflexivity.
Qed.

Lemma execute_resolved (command : list string) (wf : bool) (m : ADBManager)
    (w : World) (adb : string) :
  resolved m adb ->
  let pre := world (before_run run_outcome wf (mkSys m w)) in
  let i := request m adb command in
  execute_command run_outcome command wf (mkSys m w)
  = (Ret (result_of (run_outcome pre i)), mkSys m (log_spawn i pre)).
Proof.
  intros H. destruct wf.
  - unfold before_run.
    destruct (wait_bound 30 m w adb H) as (b & k & w' & Hw & _).
    rewrite Hw. simpl snd. simpl world.
    unfold execute_command, call_depth. rewrite execute_command_at_S.
    unfold bind at 1. unfold get_self at 1. cbn [self].
    unfold resolved in H. rewrite H.
    unfold try_except. unfold bind at 1. unfold bind at 1.
    rewrite (wait_for_device_depth 1 30 (mkSys m w)) by lia. rewrite Hw.
    unfold ret at 1. unfold bind, get_self, subprocess_run, request. simpl.
    destruct (run_outcome w' _); reflexivity.
  - apply execute_once. exact H.
Qed.

(** *** Probing the candidate paths *)

Lemma check_adb_path_run (p : string) (m : ADBManager) (w : World) :
  _check_adb_path run_outcome p (mkSys m w)
  = (Ret (exits_zero (run_outcome w (probe p))), mkSys m (log_spawn (probe p) w)).
Proof.
  unfold _check_adb_path, try_except, bind, subprocess_run, probe. simpl.
  destruct (run_outcome w _); reflexivity.
Qed.

Lemma after_calls_nil (w : World) : after_calls w [] = w.
Proof. destruct w. unfold after_calls. simpl. rewrite app_nil_r. reflexivity. Qed.

Lemma after_calls_cons (w : World) (i : invocation) (l : list invocation) :
  after_calls (log_spawn i w) l = after_calls w (i :: l).
Proof. unfold after_calls, log_spawn. simpl. rewrite <- app_assoc. reflexivity. Qed.

Lemma probing_shift (w : World) (p : string) (rest : list string) (k : nat) :
  probing (log_spawn (probe p) w) rest k = probing w (p :: rest) (S k).
Proof. unfold probing. simpl. apply after_calls_cons. Qed.

Lemma find_loop (m : ADBManager) (paths : list string) :
  forall w, exists r w',
    for_each paths
      (fun path =>
         ok <- _check_adb_path run_outcome path ;;
         if ok then ret (Some path) else ret None) (mkSys m w)
    = (Ret r, mkSys m w')
    /\ match r with
       | Some p =>
           exists k, paths !! k = Some p
             /\ candidate_works run_outcome w paths k p = true
             /\ (forall j q, (j < k)%nat -> paths !! j = Some q ->
                             candidate_works run_outcome w paths j q = false)
             /\ w' = probing w paths (S k)
       | None =>
           (forall j q, paths !! j = Some q ->
                        candidate_works run_outcome w paths j q = false)
           /\ w' = probing w paths (length paths)
       end.
Proof.
  induction paths as [|p rest IH]; intros w.
  - exists None, w. simpl. split; [reflexivity|]. split.
    + intros j q Hj. rewrite lookup_nil in Hj. discriminate.
    + unfold probing. simpl. rewrite after_calls_nil. reflexivity.
  - assert (Hw0 : probing w (p :: rest) 0 = w)
      by (unfold probing; simpl; apply after_calls_nil).
    destruct (exits_zero (run_outcome w (probe p))) eqn:Hp.
    + exists (Some p), (log_spawn (probe p) w). split.
      * apply for_each_step with (r := Some p).
        unfold bind. rewrite check_adb_path_run, Hp. reflexivity.
      * exists 0%nat. split; [reflexivity|]. split.
        { unfold candidate_works. rewrite Hw0. exact Hp. }
        split; [intros j q Hj; lia|].
        unfold probing. simpl. rewrite <- after_calls_cons, after_calls_nil.
        reflexivity.
    + destruct (IH (log_spawn (probe p) w)) as (r & w' & Hrun & Hr).
      exists r, w'. split.
      * rewrite <- Hrun. apply for_each_step with (r := None).
        unfold bind. rewrite check_adb_path_run, Hp. reflexivity.
      * destruct r as [p'|].
        -- destruct Hr as (k & Hk & Hworks & Hbefore & Hw').
           exists (S k). split; [exact Hk|]. split.
           { unfold candidate_works in *. rewrite <- probing_shift. exact Hworks. }
           split.
           { intros [|j] q Hj Hq.
             - simpl in Hq. injection Hq as <-.
               unfold candidate_works. rewrite Hw0. exact Hp.
             - unfold candidate_works. rewrite <- probing_shift.
               apply Hbefore; [lia | exact Hq]. }
           rewrite Hw'. apply probing_shift.
        -- destruct Hr as (Hall & Hw'). split.
           { intros [|j] q Hq.
             - simpl in Hq. injection Hq as <-.
               unfold candidate_works. rewrite Hw0. exact Hp.
             - unfold candidate_works. rewrite <- probing_shift.
               apply Hall. exact Hq. }
           rewrite Hw'. apply probing_shift.
Qed.

Lemma joinpath_nonempty (p : Pathlib.Path) (rel : string) :
  PyStr.truthy rel = true ->
  PyStr.truthy (Pathlib.str (Pathlib.joinpath p rel)) = true.
Proof.
  intros Hrel. destruct rel as [|c rel]; [discriminate|].
  destruct p as [text|text]; unfold Pathlib.joinpath, Pathlib.str, Pathlib.below;
    destruct (String.eqb text "."); try reflexivity;
    destruct (Pathlib.anchor_only _); destruct text; reflexivity.
Qed.

Lemma candidates_nonempty (h : Pathlib.Path) (p : string) :
  p ∈ candidates h -> PyStr.truthy p = true.
Proof.
  unfold candidates. intros Hin.
  repeat (apply elem_of_cons in Hin as [-> | Hin];
          [first [reflexivity | apply joinpath_nonempty; reflexivity] |]).
  apply elem_of_nil in Hin. contradiction.
Qed.

(** With a home directory the list display is the six candidates. *)
Lemma find_adb_known (h : Pathlib.Path) (s : Sys) :
  find_adb run_outcome (HomeIs h) s
  = for_each (candidates h)
      (fun path =>
         ok <- _check_adb_path run_outcome path ;;
         if ok then ret (Some path) else ret None) s.
Proof. reflexivity. Qed.

(** Without one the error of [Path.home()] leaves [find_adb], and the
    constructor with it, before anything is probed or assigned. *)
Lemma find_adb_unknown (description : string) (s : Sys) :
  find_adb run_outcome (HomeUnknown description) s
  = (Raise (Exception description), s).
Proof. reflexivity. Qed.

Lemma init_unknown (description : string) (s : Sys) :
  __init__ run_outcome (HomeUnknown description) s
  = (Raise (Exception description), s).
Proof. reflexivity. Qed.

Lemma init_run (h : Pathlib.Path) (s0 : Sys) :
  exists r w',
    find_adb run_outcome (HomeIs h) s0 = (Ret r, mkSys (self s0) w')
    /\ __init__ run_outcome (HomeIs h) s0
       = (Ret tt, mkSys (mkADBManager r [] 30) w').
Proof.
  destruct s0 as [m w].
  destruct (find_loop m (candidates h) w) as (r & w' & Hrun & _).
  exists r, w'. rewrite find_adb_known. split; [exact Hrun|].
  unfold __init__, bind at 1. rewrite find_adb_known, Hrun. reflexivity.
Qed.

(** The constructor leaves [adb_path] at [None] or at a non-empty path. *)
Lemma constructed_path (m : ADBManager) :
  constructed run_outcome home m -> adb_path_set m = adb_path m.
Proof.
  intros (s0 & s1 & Hinit & <-).
  destruct home as [h|description];
    [|rewrite init_unknown in Hinit; discriminate].
  destruct (init_run h s0) as (r & w' & Hfind & Hinit').
  rewrite Hinit' in Hinit. injection Hinit as <-.
  unfold adb_path_set. simpl.
  destruct r as [p|]; [|reflexivity].
  destruct s0 as [m w].
  destruct (find_loop m (candidates h) w) as (r & w2 & Hrun & Hr).
  rewrite find_adb_known, Hrun in Hfind. injection Hfind as -> ->.
  destruct Hr as (k & Hk & _).
  rewrite (candidates_nonempty h p); [reflexivity|].
  apply list_elem_of_lookup. eauto.
Qed.


(** ** The claims about [execute_command] *)

(** C1. For an object left by the constructor, [execute_command] raises if
    and only if [adb_path] is [None].  With a resolved path it returns a
    result dictionary whatever happens to the process: on a timeout the
    dictionary is (false, empty output, "Command timed out", -1), on any
    exception of the launch it is (false, empty output, the text of the
    exception, -1), and on a completed run it carries the exit code, with
    [success] false when that code is not 0. *)
Theorem execute_command_raises_iff_unresolved
    (command : list string) (wf : bool) (m : ADBManager) (w : World) :
  constructed run_outcome home m ->
  let s := mkSys m w in
  ((exists e s', execute_command run_outcome command wf s = (Raise e, s'))
   <-> adb_path m = None)
  /\ (forall adb, adb_path m = Some adb ->
        let pre := world (before_run run_outcome wf s) in
        let i := request m adb command in
        exists r,
          execute_command run_outcome command wf s = (Ret r, mkSys m (log_spawn i pre))
          /\ (run_outcome pre i = TimedOut ->
              r = mkResult false "" "Command timed out" (-1))
          /\ (forall d, run_outcome pre i = SpawnFailed d ->
                        r = mkResult false "" d (-1))
          /\ (forall code out err, run_outcome pre i = Completed code out err ->
                returncode r = code /\ (code <> 0 -> success r = false))).
Proof.
  intros Hc s. pose proof (constructed_path m Hc) as Hset. split.
  - split.
    + intros (e & s' & Hraise). destruct (adb_path m) as [adb|] eqn:Hp; [|reflexivity].
      unfold s in Hraise.
      rewrite (execute_resolved command wf m w adb Hset) in Hraise. discriminate.
    + intros Hnone. rewrite Hnone in Hset.
      exists (Exception "ADB not found"), s.
      apply (execute_unresolved 1 command wf s). exact Hset.
  - intros adb Hp pre i. rewrite Hp in Hset.
    exists (result_of (run_outcome pre i)). split.
    + apply (execute_resolved command wf m w adb Hset).
    + repeat split.
      * intros ->. reflexivity.
      * intros d ->. reflexivity.
      * match goal with Hrun : run_outcome _ _ = _ |- _ => rewrite Hrun end.
        reflexivity.
      * intros Hne.
        match goal with Hrun : run_outcome _ _ = _ |- _ => rewrite Hrun end.
        simpl. apply Z.eqb_neq. exact Hne.
Qed.

(** C2. When the process completes under the time limit, the dictionary
    returned by [execute_command] has [success] true exactly when the exit
    code is 0, carries that exit code, and its [output] and [error] are the
    captured streams without their leading and trailing whitespace. *)
Theorem execute_command_exit_code_mapping
    (command : list string) (wf : bool) (m : ADBManager) (w : World)
    (adb : string) (code : Z) (out err : string) :
  resolved m adb ->
  let pre := world (before_run run_outcome wf (mkSys m w)) in
  let i := request m adb command in
  run_outcome pre i = Completed code out err ->
  exists r s',
    execute_command run_outcome command wf (mkSys m w) = (Ret r, s')
    /\ (success r = true <-> code = 0)
    /\ returncode r = code
    /\ output r = PyStr.strip out /\ trimmed_of out (output r)
    /\ error r = PyStr.strip err /\ trimmed_of err (error r).
Proof.
  intros H pre i Hrun.
  exists (result_of (run_outcome pre i)), (mkSys m (log_spawn i pre)).
  split; [apply (execute_resolved command wf m w adb H)|].
  rewrite Hrun. simpl.
  repeat split; auto.
  - apply Z.eqb_eq.
  - apply Z.eqb_eq.
  - apply strip_decompose.
  - apply strip_first.
  - apply strip_last.
  - apply strip_decompose.
  - apply strip_first.
  - apply strip_last.
Qed.


(** ** The claims about [wait_for_device] *)

(** A bound of zero or less means no poll at all ([range] is empty). *)
Lemma wait_for_device_nonpositive (max_attempts : Z) (m : ADBManager) (w : World) :
  max_attempts <= 0 ->
  wait_for_device run_outcome max_attempts (mkSys m w)
  = (Ret false, mkSys m (gave_up (announced w))).
Proof.
  intros Hle. unfold wait_for_device. rewrite wait_with_unfold.
  unfold range. replace (Z.to_nat max_attempts) with 0%nat by lia. reflexivity.
Qed.

(** C4. For a bound [max_attempts] (a count, so not negative),
    [wait_for_device] ends, having started at most [max_attempts] processes,
    each of them the device-list query.  When the path is resolved and no
    poll sees a ready device it returns false after exactly [max_attempts]
    polls and [max_attempts] units of sleep.  The polls are requests without
    the wait flag: one level of nesting below [wait_for_device] is enough,
    whatever deeper bound is allowed. *)
Theorem wait_for_device_bounded (max_attempts : Z) (m : ADBManager) (w : World) :
  0 <= max_attempts ->
  (exists res w' calls,
      wait_for_device run_outcome max_attempts (mkSys m w) = (res, mkSys m w')
      /\ res <> Unfinished
      /\ spawned w' = spawned w ++ calls
      /\ Z.of_nat (length calls) <= max_attempts
      /\ Forall (fun i => exists adb, argv i = [adb; "devices"]) calls)
  /\ (forall adb, resolved m adb ->
        let q := request m adb ["devices"] in
        (forall k, Z.of_nat k < max_attempts ->
                   reports_ready (run_outcome (polled q (announced w) k) q) = false) ->
        exists w' calls,
          wait_for_device run_outcome max_attempts (mkSys m w) = (Ret false, mkSys m w')
          /\ spawned w' = spawned w ++ calls
          /\ calls = replicate (Z.to_nat max_attempts) q
          /\ Z.of_nat (length calls) = max_attempts
          /\ elapsed w' = elapsed w + max_attempts)
  /\ (forall d, (1 <= d)%nat ->
        wait_for_device_with (execute_command_at run_outcome d) max_attempts (mkSys m w)
        = wait_for_device run_outcome max_attempts (mkSys m w)).
Proof.
  intros Hpos. split; [|split].
  - destruct (adb_path_set m) as [adb|] eqn:Hset.
    + destruct (wait_bound max_attempts m w adb Hset) as (b & k & w' & Hw & Hk & Hsp).
      exists (Ret b), w', (replicate k (request m adb ["devices"])).
      rewrite length_replicate. repeat split; auto; try discriminate; try lia.
      apply Forall_replicate. exists adb. reflexivity.
    + destruct (wait_unresolved max_attempts m w Hset) as (res & w' & Hw & Hres & Hsp).
      exists res, w', []. rewrite app_nil_r. simpl. repeat split; auto.
  - intros adb H q Hno.
    exists (gave_up (polled q (announced w) (Z.to_nat max_attempts))),
           (replicate (Z.to_nat max_attempts) q).
    rewrite length_replicate. repeat split.
    + apply wait_exhausted; [exact H|]. intros k Hk. apply Hno. lia.
    + lia.
    + simpl. lia.
  - intros d Hd. apply wait_for_device_depth. exact Hd.
Qed.

(** ** The claim about the state of the object *)

(** C10. No public operation assigns to the object: after
    [execute_command], [wait_for_device], [get_device_info],
    [reboot_device], [is_device_rooted], [push_file], [pull_file] and
    [shell_command] the fields [adb_path], [devices] and [timeout] are what
    they were, also when the operation raises or reports a failure. *)
Theorem session_state_unchanged :
  (forall command wf, preserves_self (execute_command run_outcome command wf))
  /\ (forall n, preserves_self (wait_for_device run_outcome n))
  /\ (forall device_id, preserves_self (get_device_info run_outcome device_id))
  /\ (forall mode, preserves_self (reboot_device run_outcome mode))
  /\ preserves_self (is_device_rooted run_outcome)
  /\ (forall l d, preserves_self (push_file run_outcome path_exists l d))
  /\ (forall d l, preserves_self (pull_file run_outcome d l))
  /\ (forall c root, preserves_self (shell_command run_outcome c root)).
Proof.
  repeat split; intros.
  - apply preserves_execute.
  - apply preserves_wait_with. apply preserves_execute.
  - unfold get_device_info. preserve.
  - unfold reboot_device. preserve.
  - unfold is_device_rooted. preserve.
  - unfold push_file. preserve.
  - unfold pull_file. preserve.
  - unfold shell_command. preserve.
Qed.


(** ** The claims about the device operations *)

(** C7. A mode outside the six of the table makes [reboot_device] print
    the complaint and return false: no process is started and no time is
    slept.  For [fastboot] the process started is [reboot bootloader].  When
    the reboot command of a mode of the table exits with 0, [reboot_device]
    returns true after sleeping 5 units. *)
Theorem reboot_device_contract (m : ADBManager) (w : World) :
  (forall mode,
      mode ∉ ["system"; "recovery"; "bootloader"; "fastboot"; "download"; "sideload"] ->
      reboot_device run_outcome mode (mkSys m w)
      = (Ret false,
         mkSys m (mkWorld (spawned w) (elapsed w) (console w ++ [MsgInvalidMode mode]))))
  /\ (forall adb, resolved m adb ->
        exists b w',
          reboot_device run_outcome "fastboot" (mkSys m w) = (Ret b, mkSys m w')
          /\ spawned w' = spawned w ++ [request m adb ["reboot"; "bootloader"]])
  /\ (forall adb mode target out err,
        resolved m adb ->
        modes !! mode = Some target ->
        let i := request m adb
                   (["reboot"] ++ (if PyStr.truthy target then [target] else [])) in
        run_outcome w i = Completed 0 out err ->
        exists w',
          reboot_device run_outcome mode (mkSys m w) = (Ret true, mkSys m w')
          /\ spawned w' = spawned w ++ [i]
          /\ elapsed w' = elapsed w + 5).
Proof.
  split; [|split].
  - intros mode Hnot. unfold reboot_device.
    assert (Hnone : modes !! mode = None).
    { unfold modes. apply not_elem_of_list_to_map. exact Hnot. }
    rewrite Hnone. reflexivity.
  - intros adb H. unfold reboot_device.
    assert (Hfb : modes !! "fastboot" = Some "bootloader") by (vm_compute; reflexivity).
    rewrite Hfb. cbn [PyStr.truthy app].
    unfold bind at 1. rewrite (execute_resolved _ false m w adb H).
    cbn [before_run world].
    destruct (success _).
    + eexists true, _. split; reflexivity.
    + eexists false, _. split; reflexivity.
  - intros adb mode target out err H Hmode i Hrun. unfold reboot_device.
    rewrite Hmode. unfold bind at 1.
    rewrite (execute_resolved _ false m w adb H). cbn [before_run world].
    fold i. rewrite Hrun. cbn [result_of success Z.eqb].
    eexists. split; [reflexivity|]. split; reflexivity.
Qed.

(** C8. [is_device_rooted] returns true exactly when the elevated echo
    exits with 0 with the marker in its output or, that failing, the search
    for the [su] binary exits with 0 with [/su] in its output.  When the
    first check passes, the second command is never started: one process
    in all.  Otherwise both are started, in that order. *)
Theorem is_device_rooted_precedence (m : ADBManager) (w : World) (adb : string) :
  resolved m adb ->
  let p := request m adb ["shell"; "su"; "-c"; "echo root_check"] in
  let f := request m adb ["shell"; "which"; "su"] in
  let primary := marker_found "root_check" (run_outcome w p) in
  let fallback := marker_found "/su" (run_outcome (log_spawn p w) f) in
  exists b w',
    is_device_rooted run_outcome (mkSys m w) = (Ret b, mkSys m w')
    /\ (b = true <-> primary = true \/ (primary = false /\ fallback = true))
    /\ (primary = true -> spawned w' = spawned w ++ [p])
    /\ (primary = false -> spawned w' = spawned w ++ [p; f]).
Proof.
  intros H p f primary fallback. unfold is_device_rooted.
  unfold bind at 1. rewrite (execute_resolved _ false m w adb H).
  cbn [before_run world]. fold p. fold (marker_found "root_check" (run_outcome w p)).
  fold primary. destruct primary eqn:Hprim.
  - exists true, (log_spawn p w). repeat split; auto. discriminate.
  - unfold bind at 1. rewrite (execute_resolved _ false m (log_spawn p w) adb H).
    cbn [before_run world]. fold f.
    fold (marker_found "/su" (run_outcome (log_spawn p w) f)). fold fallback.
    exists fallback, (log_spawn f (log_spawn p w)). split; [reflexivity|].
    split; [|split].
    + split; [intros ->; right; auto | intros [Hx | [_ Hx]]; [discriminate | exact Hx]].
    + discriminate.
    + intros _. simpl. rewrite <- app_assoc. reflexivity.
Qed.


(** *** Gathering the properties *)

Local Abbreviation record_property :=
  (fun (info : gmap string string) '(cmd, key) =>
     result <- execute_command run_outcome (PyStr.split cmd) false ;;
     if success result && PyStr.truthy (output result)
     then ret (<[key := PyStr.strip (output result)]> info)
     else ret info).

Local Abbreviation query m adb :=
  (fun entry : string * string => request m adb (PyStr.split (fst entry))).

Lemma for_fold_step {A S} (x : A) (rest : list A) (body : S -> A -> M S)
    (acc acc' : S) (s s' : Sys) :
  body acc x s = (Ret acc', s') ->
  for_fold (x :: rest) acc body s = for_fold rest acc' body s'.
Proof. intros H. simpl. unfold bind. rewrite H. reflexivity. Qed.

Lemma record_property_step (m : ADBManager) (w : World) (adb cmd key : string)
    (info : gmap string string) :
  resolved m adb ->
  let q := request m adb (PyStr.split cmd) in
  record_property info (cmd, key) (mkSys m w)
  = (Ret (match property_value (run_outcome w q) with
          | Some v => <[key := v]> info
          | None => info
          end),
     mkSys m (log_spawn q w)).
Proof.
  intros H q. unfold bind at 1.
  rewrite (execute_resolved _ false m w adb H). cbn [before_run world]. fold q.
  destruct (run_outcome w q) as [code out err| |d]; simpl; [|reflexivity..].
  rewrite strip_idempotent.
  destruct ((code =? 0) && PyStr.truthy (PyStr.strip out)); reflexivity.
Qed.

Lemma gather_loop (m : ADBManager) (adb : string) (cs : list (string * string)) :
  resolved m adb ->
  NoDup cs.*2 ->
  forall w info0, exists info,
    for_fold cs info0 record_property (mkSys m w)
    = (Ret info, mkSys m (after_calls w (query m adb <$> cs)))
    /\ (forall k cmd key, cs !! k = Some (cmd, key) ->
          info !! key =
            match property_value
                    (run_outcome (after_calls w (take k (query m adb <$> cs)))
                                 (request m adb (PyStr.split cmd))) with
            | Some v => Some v
            | None => info0 !! key
            end)
    /\ (forall key, key ∉ cs.*2 -> info !! key = info0 !! key).
Proof.
  intros H. induction cs as [|[cmd key] rest IH]; intros Hnd w info0.
  - exists info0. simpl. rewrite after_calls_nil. split; [reflexivity|].
    split; [|reflexivity]. intros k c x Hk. rewrite lookup_nil in Hk. discriminate.
  - rewrite fmap_cons in Hnd. apply NoDup_cons in Hnd as [Hfresh Hnd].
    simpl in Hfresh.
    set (q := request m adb (PyStr.split cmd)).
    set (info1 := match property_value (run_outcome w q) with
                  | Some v => <[key := v]> info0
                  | None => info0
                  end).
    destruct (IH Hnd (log_spawn q w) info1) as (info & Hrun & Hkeys & Hother).
    exists info. split; [|split].
    + rewrite (for_fold_step (cmd, key) rest _ info0 info1 _ _
                 (record_property_step m w adb cmd key info0 H)).
      fold q. rewrite Hrun. rewrite after_calls_cons. reflexivity.
    + intros [|k] c x Hk.
      * simpl in Hk. injection Hk as <- <-. simpl take. rewrite after_calls_nil.
        rewrite (Hother key Hfresh). unfold info1. fold q.
        destruct (property_value (run_outcome w q)); [apply lookup_insert_eq | reflexivity].
      * simpl in Hk. rewrite fmap_cons. simpl take. rewrite <- after_calls_cons.
        fold q. rewrite (Hkeys k c x Hk).
        assert (Hne : key <> x).
        { intros ->. apply Hfresh. apply list_elem_of_fmap.
          exists (c, x). split; [reflexivity|]. apply list_elem_of_lookup. eauto. }
        assert (Hsame : info1 !! x = info0 !! x).
        { unfold info1. destruct (property_value (run_outcome w q)); [|reflexivity].
          apply lookup_insert_ne. exact Hne. }
        rewrite Hsame. reflexivity.
    + intros x Hx. rewrite fmap_cons in Hx. apply not_elem_of_cons in Hx as [Hne Hx].
      rewrite (Hother x Hx). unfold info1.
      destruct (property_value (run_outcome w q)); [|reflexivity].
      apply lookup_insert_ne. simpl in Hne. congruence.
Qed.

Lemma commands_keys_distinct : NoDup commands.*2.
Proof. apply (bool_decide_unpack _). vm_compute. exact I. Qed.

(** C6. With a resolved path [get_device_info] starts the seven property
    queries, in the order of the table, and returns a dictionary that holds,
    for each of the seven keys, the trimmed output of its query when that
    query exits with 0 and prints something, and no entry otherwise; it has
    no other key.  What is recorded for a key depends on the outcome of its
    own query only, so a failed or empty property leaves the others in. *)
Theorem get_device_info_keys (device_id : option string) (m : ADBManager)
    (w : World) (adb : string) :
  resolved m adb ->
  let queries := query m adb <$> commands in
  exists info,
    get_device_info run_outcome device_id (mkSys m w)
    = (Ret info, mkSys m (after_calls w queries))
    /\ argv <$> queries =
         [ [adb; "shell"; "getprop"; "ro.product.model"];
           [adb; "shell"; "getprop"; "ro.build.version.release"];
           [adb; "shell"; "getprop"; "ro.build.version.security_patch"];
           [adb; "shell"; "getprop"; "ro.product.manufacturer"];
           [adb; "shell"; "getprop"; "ro.serialno"];
           [adb; "shell"; "getprop"; "ro.bootloader"];
           [adb; "shell"; "getprop"; "ro.hardware"] ]
    /\ (forall k cmd key, commands !! k = Some (cmd, key) ->
          info !! key =
            property_value (run_outcome (after_calls w (take k queries))
                                        (request m adb (PyStr.split cmd))))
    /\ (forall key,
          key ∉ ["Model"; "Android Version"; "Security Patch"; "Manufacturer";
                 "Serial Number"; "Bootloader"; "Hardware"] ->
          info !! key = None).
Proof.
  intros H queries.
  destruct (gather_loop m adb commands H commands_keys_distinct w ∅)
    as (info & Hrun & Hkeys & Hother).
  exists info. split; [exact Hrun|]. split; [reflexivity|]. split.
  - intros k cmd key Hk. rewrite (Hkeys k cmd key Hk).
    destruct (property_value _); [reflexivity | apply lookup_empty].
  - intros key Hkey. rewrite (Hother key Hkey). apply lookup_empty.
Qed.

End Execution.

(** ** The claims on concrete environments *)

Example find_adb_picks_third :
  find_adb Stub.only_usr_local Stub.home (mkSys Stub.blank Stub.fresh)
  = (Ret (Some "/usr/local/bin/adb"),
     mkSys Stub.blank
       (mkWorld [probe "adb"; probe "/usr/bin/adb"; probe "/usr/local/bin/adb"] 0 [])).
Proof. reflexivity. Qed.

Example find_adb_none :
  fst (find_adb Stub.nothing_installed Stub.home (mkSys Stub.blank Stub.fresh)) = Ret None.
Proof. reflexivity. Qed.

Example joinpath_posix :
  Pathlib.str (Pathlib.joinpath (Pathlib.PosixPath "/home/user")
                 "Library/Android/sdk/platform-tools/adb")
  = "/home/user/Library/Android/sdk/platform-tools/adb"
  /\ Pathlib.str (Pathlib.joinpath (Pathlib.PosixPath "/") "Library/Android")
     = "/Library/Android"
  /\ Pathlib.str (Pathlib.joinpath (Pathlib.PosixPath ".") "Library/Android")
     = "Library/Android".
Proof. repeat split. Qed.

Example joinpath_windows :
  Pathlib.str (Pathlib.joinpath (Pathlib.WindowsPath "C:\Users\user")
                 "AppData/Local/Android/Sdk/platform-tools/adb.exe")
  = "C:\Users\user\AppData\Local\Android\Sdk\platform-tools\adb.exe"
  /\ Pathlib.str (Pathlib.joinpath (Pathlib.WindowsPath "C:\") "AppData/Local")
     = "C:\AppData\Local"
  /\ Pathlib.str (Pathlib.joinpath (Pathlib.WindowsPath "C:") "AppData/Local")
     = "C:AppData\Local".
Proof. repeat split. Qed.

Example find_adb_windows_sdk :
  find_adb Stub.windows_sdk_only Stub.windows_home (mkSys Stub.blank Stub.fresh)
  = (Ret (Some "C:\Users\user\AppData\Local\Android\Sdk\platform-tools\adb.exe"),
     mkSys Stub.blank
       (mkWorld
          [ probe "adb"; probe "/usr/bin/adb"; probe "/usr/local/bin/adb";
            probe "C:\Android\platform-tools\adb.exe";
            probe "C:\Users\user\AppData\Local\Android\Sdk\platform-tools\adb.exe" ]
          0 [])).
Proof. reflexivity. Qed.

Example init_ready :
  __init__ Stub.single_device Stub.home (mkSys Stub.blank Stub.fresh)
  = (Ret tt, mkSys Stub.session (mkWorld [probe "adb"] 0 [])).
Proof. reflexivity. Qed.

Example wait_for_device_two_devices :
  fst (wait_for_device Stub.late_pair 5 (mkSys Stub.session Stub.fresh)) = Ret true.
Proof. vm_compute. reflexivity. Qed.

(** C9, on the code.  [find_adb] builds its list of candidates before it
    probes any of them, and the list calls [Path.home()] twice, outside any
    [try].  When no home directory can be determined that call raises, and
    [find_adb] raises with it although [adb] on the search path, the first
    candidate, answers the version query: nothing is probed, and the
    constructor raises as well, for any object and any [adb].  With a home
    directory the same [adb] is found at the first probe. *)
Lemma find_adb_raises_without_home :
  find_adb Stub.adb_on_path Stub.no_home (mkSys Stub.blank Stub.fresh)
  = (Raise (Exception "Could not determine home directory."),
     mkSys Stub.blank Stub.fresh)
  /\ find_adb Stub.adb_on_path Stub.home (mkSys Stub.blank Stub.fresh)
     = (Ret (Some "adb"), mkSys Stub.blank (mkWorld [probe "adb"] 0 []))
  /\ (forall run_outcome description s,
        find_adb run_outcome (HomeUnknown description) s
        = (Raise (Exception description), s)
        /\ __init__ run_outcome (HomeUnknown description) s
           = (Raise (Exception description), s)).
Proof.
  split; [reflexivity|]. split; [reflexivity|].
  intros run_outcome description s. split; reflexivity.
Qed.

(** C3, on the code.  The device list of a single ready device ends in the
    line of that device; [execute_command] strips the text, the line loses
    its newline, and the test for [device] followed by a newline fails.  With
    nothing attached for two polls and one ready device from the third on,
    [wait_for_device] with five attempts polls five times and returns false. *)
Lemma wait_for_device_misses_last_line :
  ready_line_in Stub.device_list_one = true
  /\ reports_ready (Completed 0 Stub.device_list_one "") = false
  /\ wait_for_device Stub.late_device 5 (mkSys Stub.session Stub.fresh)
     = (Ret false,
        mkSys Stub.session
          (mkWorld (replicate 5 (Invocation ["adb"; "devices"] 30)) 5
                   ([MsgWaiting] ++ replicate 5 MsgDot ++ [MsgDeviceNotFound]))).
Proof. vm_compute. repeat split. Qed.

Lemma execute_command_raises_iff_unresolved_witness :
  constructed Stub.hangs_after_probe Stub.home Stub.session
  /\ execute_command Stub.hangs_after_probe ["shell"; "id"] false
       (mkSys Stub.session Stub.fresh)
     = (Ret (mkResult false "" "Command timed out" (-1)),
        mkSys Stub.session (mkWorld [Invocation ["adb"; "shell"; "id"] 30] 0 [])).
Proof.
  assert (Hc : constructed Stub.hangs_after_probe Stub.home Stub.session).
  { exists (mkSys Stub.blank Stub.fresh). eexists. split; reflexivity. }
  split; [exact Hc|].
  destruct (proj2 (execute_command_raises_iff_unresolved
                     Stub.hangs_after_probe Stub.home ["shell"; "id"] false
                     Stub.session Stub.fresh Hc) "adb" eq_refl)
    as (r & Hrun & Htimeout & _).
  rewrite Hrun, (Htimeout eq_refl). reflexivity.
Defined.

Lemma execute_command_exit_code_mapping_witness :
  resolved Stub.session "adb"
  /\ Stub.su_on_path Stub.fresh (request Stub.session "adb" ["shell"; "which"; "su"])
     = Completed 0 ("/system/xbin/su" +:+ PyStr.LF) ""
  /\ exists r s',
       execute_command Stub.su_on_path ["shell"; "which"; "su"] false
         (mkSys Stub.session Stub.fresh) = (Ret r, s')
       /\ (success r = true <-> 0 = 0)
       /\ returncode r = 0
       /\ output r = "/system/xbin/su".
Proof.
  split; [reflexivity|]. split; [reflexivity|].
  destruct (execute_command_exit_code_mapping Stub.su_on_path
              ["shell"; "which"; "su"] false Stub.session Stub.fresh "adb"
              0 ("/system/xbin/su" +:+ PyStr.LF) "" eq_refl eq_refl)
    as (r & s' & Hrun & Hok & Hcode & Hout & _).
  exists r, s'. repeat split; try assumption; try apply Hok; auto.
Defined.

Lemma wait_for_device_bounded_witness :
  0 <= 5
  /\ resolved Stub.session "adb"
  /\ exists w' calls,
       wait_for_device Stub.no_device 5 (mkSys Stub.session Stub.fresh)
       = (Ret false, mkSys Stub.session w')
       /\ spawned w' = [] ++ calls
       /\ calls = replicate 5 (Invocation ["adb"; "devices"] 30)
       /\ Z.of_nat (length calls) = 5
       /\ elapsed w' = 0 + 5.
Proof.
  split; [lia|]. split; [reflexivity|].
  apply (proj1 (proj2 (wait_for_device_bounded Stub.no_device 5 Stub.session
                         Stub.fresh ltac:(lia))) "adb" eq_refl).
  intros k Hk. reflexivity.
Defined.

(** C5, on the code.  Two devices are attached, so [adb] refuses a command
    that selects neither of them.  Asked for the information of the device
    [emulator-5554], [get_device_info] never reads the identifier: it starts
    its seven queries without a selector, exactly as it does when no device
    is named, each of them is refused and the dictionary comes back empty.
    [_get_device_details] of the scanner, asked about the same device in the
    same world, puts [-s emulator-5554] in front of every query and reads
    the model. *)
Lemma get_device_info_ignores_device_id :
  get_device_info Stub.two_attached (Some "emulator-5554")
    (mkSys Stub.session Stub.fresh)
  = (Ret ∅,
     mkSys Stub.session
       (mkWorld
          [ Invocation ["adb"; "shell"; "getprop"; "ro.product.model"] 30;
            Invocation ["adb"; "shell"; "getprop"; "ro.build.version.release"] 30;
            Invocation ["adb"; "shell"; "getprop"; "ro.build.version.security_patch"] 30;
            Invocation ["adb"; "shell"; "getprop"; "ro.product.manufacturer"] 30;
            Invocation ["adb"; "shell"; "getprop"; "ro.serialno"] 30;
            Invocation ["adb"; "shell"; "getprop"; "ro.bootloader"] 30;
            Invocation ["adb"; "shell"; "getprop"; "ro.hardware"] 30 ]
          0 []))
  /\ Forall (fun i => ~ selects_device "emulator-5554" i)
       (spawned (world (snd (get_device_info Stub.two_attached (Some "emulator-5554")
                               (mkSys Stub.session Stub.fresh)))))
  /\ get_device_info Stub.two_attached (Some "emulator-5554")
       (mkSys Stub.session Stub.fresh)
     = get_device_info Stub.two_attached None (mkSys Stub.session Stub.fresh)
  /\ exists d s',
       _get_device_details Stub.two_attached ScanStub.clock "emulator-5554"
         (mkSys Stub.session Stub.fresh) = (Ret d, s')
       /\ dev_props d !! "model" = Some "ro.product.model"
       /\ Forall (selects_device "emulator-5554") (spawned (world s')).
Proof.
  assert (Hrun : get_device_info Stub.two_attached (Some "emulator-5554")
                   (mkSys Stub.session Stub.fresh)
                 = (Ret ∅,
                    mkSys Stub.session
                      (mkWorld
                         ((fun prop => Invocation ["adb"; "shell"; "getprop"; prop] 30)
                            <$> ["ro.product.model"; "ro.build.version.release";
                                 "ro.build.version.security_patch";
                                 "ro.product.manufacturer"; "ro.serialno";
                                 "ro.bootloader"; "ro.hardware"])
                         0 [])))
    by (vm_compute; reflexivity).
  split; [exact Hrun|]. split; [|split; [unfold get_device_info; reflexivity|]].
  - rewrite Hrun. cbn [snd world spawned fmap list_fmap].
    repeat (constructor; [intros (adb & rest & Hargv); discriminate Hargv|]).
    constructor.
  - destruct (_get_device_details Stub.two_attached ScanStub.clock "emulator-5554"
                (mkSys Stub.session Stub.fresh)) as [res s'] eqn:Hdetails.
    vm_compute in Hdetails. injection Hdetails as <- <-.
    eexists _, _. split; [reflexivity|]. split; [vm_compute; reflexivity|].
    cbn [world spawned].
    repeat (constructor; [eexists _, _; reflexivity|]).
    constructor.
Qed.

Lemma get_device_info_keys_witness :
  resolved Stub.session "adb"
  /\ exists info s',
       get_device_info Stub.properties None (mkSys Stub.session Stub.fresh)
       = (Ret info, s')
       /\ info !! "Model" = Some "ro.product.model"
       /\ info !! "Serial Number" = None
       /\ info !! "Bootloader" = None
       /\ info !! "Hardware" = Some "ro.hardware"
       /\ info !! "IMEI" = None.
Proof.
  split; [reflexivity|].
  destruct (get_device_info_keys Stub.properties None Stub.session Stub.fresh "adb"
              eq_refl) as (info & Hrun & _ & Hkeys & Hother).
  exists info. eexists. split; [exact Hrun|].
  rewrite (Hkeys 0%nat "shell getprop ro.product.model" "Model" eq_refl).
  rewrite (Hkeys 4%nat "shell getprop ro.serialno" "Serial Number" eq_refl).
  rewrite (Hkeys 5%nat "shell getprop ro.bootloader" "Bootloader" eq_refl).
  rewrite (Hkeys 6%nat "shell getprop ro.hardware" "Hardware" eq_refl).
  repeat split.
  apply Hother. apply (bool_decide_unpack _). vm_compute. exact I.
Defined.

Example get_device_info_five_of_seven :
  fst (get_device_info Stub.properties None (mkSys Stub.session Stub.fresh))
  = Ret (list_to_map
           [ ("Model", "ro.product.model");
             ("Android Version", "ro.build.version.release");
             ("Security Patch", "ro.build.version.security_patch");
             ("Manufacturer", "ro.product.manufacturer");
             ("Hardware", "ro.hardware") ]).
Proof. vm_compute. reflexivity. Qed.

Lemma reboot_device_contract_witness :
  ("not-a-real-mode"
   ∉ ["system"; "recovery"; "bootloader"; "fastboot"; "download"; "sideload"])
  /\ reboot_device Stub.single_device "not-a-real-mode" (mkSys Stub.session Stub.fresh)
     = (Ret false,
        mkSys Stub.session (mkWorld [] 0 ([] ++ [MsgInvalidMode "not-a-real-mode"])))
  /\ resolved Stub.session "adb"
  /\ (exists b w',
        reboot_device Stub.single_device "fastboot" (mkSys Stub.session Stub.fresh)
        = (Ret b, mkSys Stub.session w')
        /\ spawned w' = [] ++ [Invocation ["adb"; "reboot"; "bootloader"] 30])
  /\ modes !! "system" = Some ""
  /\ (exists w',
        reboot_device Stub.single_device "system" (mkSys Stub.session Stub.fresh)
        = (Ret true, mkSys Stub.session w')
        /\ spawned w' = [] ++ [Invocation ["adb"; "reboot"] 30]
        /\ elapsed w' = 0 + 5).
Proof.
  assert (Hbad : "not-a-real-mode"
                 ∉ ["system"; "recovery"; "bootloader"; "fastboot"; "download"; "sideload"]).
  { apply (bool_decide_unpack _). vm_compute. exact I. }
  assert (Hsys : modes !! "system" = Some "") by (vm_compute; reflexivity).
  pose proof (reboot_device_contract Stub.single_device Stub.session Stub.fresh)
    as (Hinvalid & Hfastboot & Hdelay).
  split; [exact Hbad|]. split; [exact (Hinvalid _ Hbad)|].
  split; [reflexivity|]. split; [exact (Hfastboot "adb" eq_refl)|].
  split; [exact Hsys|].
  exact (Hdelay "adb" "system" "" Stub.device_list_one "" eq_refl Hsys eq_refl).
Defined.

Lemma is_device_rooted_precedence_witness :
  resolved Stub.session "adb"
  /\ exists b w',
       is_device_rooted Stub.rooted (mkSys Stub.session Stub.fresh)
       = (Ret b, mkSys Stub.session w')
       /\ b = true
       /\ spawned w' = [] ++ [Invocation ["adb"; "shell"; "su"; "-c"; "echo root_check"] 30].
Proof.
  split; [reflexivity|].
  destruct (is_device_rooted_precedence Stub.rooted Stub.session Stub.fresh "adb" eq_refl)
    as (b & w' & Hrun & Hiff & Hone & _).
  exists b, w'. split; [exact Hrun|]. split.
  - apply Hiff. left. reflexivity.
  - apply Hone. reflexivity.
Defined.

Example is_device_rooted_fallback :
  is_device_rooted Stub.su_on_path (mkSys Stub.session Stub.fresh)
  = (Ret true,
     mkSys Stub.session
       (mkWorld [ Invocation ["adb"; "shell"; "su"; "-c"; "echo root_check"] 30;
                  Invocation ["adb"; "shell"; "which"; "su"] 30 ] 0 [])).
Proof. reflexivity. Qed.

Example execute_command_empty_path_raises :
  execute_command Stub.single_device ["devices"] false
    (mkSys (mkADBManager (Some "") [] 30) Stub.fresh)
  = (Raise (Exception "ADB not found"), mkSys (mkADBManager (Some "") [] 30) Stub.fresh).
Proof. reflexivity. Qed.

Example execute_command_times_out :
  execute_command Stub.hanging ["shell"; "id"] true (mkSys Stub.session Stub.fresh)
  = (Ret timed_out_result,
     mkSys Stub.session
       (mkWorld (replicate 30 (Invocation ["adb"; "devices"] 30)
                 ++ [Invocation ["adb"; "shell"; "id"] 30])
                30
                ([MsgWaiting] ++ replicate 30 MsgDot ++ [MsgDeviceNotFound]))).
Proof. vm_compute. reflexivity. Qed.

Example push_file_missing_local :
  push_file Stub.single_device Stub.no_files "boot.img" "/sdcard/boot.img"
    (mkSys Stub.session Stub.fresh)
  = (Ret false, mkSys Stub.session (mkWorld [] 0 [MsgLocalMissing "boot.img"])).
Proof. reflexivity. Qed.

Example shell_command_root :
  snd (shell_command Stub.single_device "id" true (mkSys Stub.session Stub.fresh))
  = mkSys Stub.session
      (mkWorld [Invocation ["adb"; "shell"; "su -c " +:+ DQUOTE +:+ "id" +:+ DQUOTE] 30] 0 []).
Proof. reflexivity. Qed.

(** ** More about the class [ADBManager] *)

Section Manager.

Variable run_outcome : World -> invocation -> proc_outcome.
Variable path_exists : World -> string -> bool.
Variable home : home_outcome.

Lemma bind_ret_eq {A B} (c : M A) (k : A -> M B) (s s' : Sys) (a : A) :
  c s = (Ret a, s') -> bind c k s = k a s'.
Proof. intros H. unfold bind. rewrite H. reflexivity. Qed.

Lemma bind_raise_eq {A B} (c : M A) (k : A -> M B) (s s' : Sys) (e : exn) :
  c s = (Raise e, s') -> bind c k s = (Raise e, s').
Proof. intros H. unfold bind. rewrite H. reflexivity. Qed.

Lemma local_exists_run (p : string) (m : ADBManager) (w : World) :
  local_exists path_exists p (mkSys m w) = (Ret (path_exists w p), mkSys m w).
Proof. reflexivity. Qed.

Lemma execute_plain (command : list string) (m : ADBManager) (w : World)
    (adb : string) :
  resolved m adb ->
  execute_command run_outcome command false (mkSys m w)
  = (Ret (result_of (run_outcome w (request m adb command))),
     mkSys m (log_spawn (request m adb command) w)).
Proof. intros H. apply (execute_resolved run_outcome command false m w adb H). Qed.

Lemma execute_plain_unresolved (command : list string) (m : ADBManager) (w : World) :
  adb_path_set m = None ->
  execute_command run_outcome command false (mkSys m w)
  = (Raise (Exception "ADB not found"), mkSys m w).
Proof. intros H. apply (execute_unresolved run_outcome 1 command false (mkSys m w) H). Qed.

(** X1. [wait_for_device] returns true at the first poll whose stripped
    output contains [device] followed by a newline: after [j] polls that
    did not, it has started [j + 1] processes, slept [j] units and printed
    the dots and the connection line. *)
Theorem wait_for_device_first_ready (max_attempts : Z) (m : ADBManager) (w : World)
    (adb : string) (j : nat) :
  resolved m adb ->
  let q := request m adb ["devices"] in
  Z.of_nat j < max_attempts ->
  (forall k, (k < j)%nat ->
             reports_ready (run_outcome (polled q (announced w) k) q) = false) ->
  reports_ready (run_outcome (polled q (announced w) j) q) = true ->
  wait_for_device run_outcome max_attempts (mkSys m w)
  = (Ret true,
     mkSys m (mkWorld (spawned w ++ replicate (S j) q)
                      (elapsed w + Z.of_nat j)
                      (console w ++ [MsgWaiting] ++ replicate j MsgDot ++ [MsgConnected]))).
Proof.
  intros H q Hj Hno Hyes.
  rewrite (wait_found run_outcome max_attempts m w adb j H); [|lia|exact Hno|exact Hyes].
  fold q. unfold connected, polled, announced. simpl.
  f_equal. f_equal. f_equal.
  - rewrite <- app_assoc. f_equal.
    change (q :: replicate j q) with (replicate (S j) q).
    rewrite replicate_S_end. reflexivity.
  - rewrite <- !app_assoc. reflexivity.
Qed.

(** X2. With the wait flag, [execute_command] runs the command whatever
    the wait returned: at most 30 device-list polls are started first, then
    the command itself, and the result is built from the way that last
    process ended. *)
Theorem execute_command_waits_then_runs (command : list string) (m : ADBManager)
    (w : World) (adb : string) :
  resolved m adb ->
  exists k w_pre,
    (k <= 30)%nat
    /\ spawned w_pre = spawned w ++ replicate k (request m adb ["devices"])
    /\ execute_command run_outcome command true (mkSys m w)
       = (Ret (result_of (run_outcome w_pre (request m adb command))),
          mkSys m (log_spawn (request m adb command) w_pre)).
Proof.
  intros H.
  destruct (wait_bound run_outcome 30 m w adb H) as (b & k & w' & Hw & Hk & Hsp).
  exists k, w'. split; [exact Hk|]. split; [exact Hsp|].
  rewrite (execute_resolved run_outcome command true m w adb H).
  unfold before_run. rewrite Hw. reflexivity.
Qed.

(** X3. Called on an object without a usable path, [wait_for_device] with
    at least one attempt prints its first line and lets the error of
    [execute_command] escape: no process is started and nothing is slept. *)
Theorem wait_for_device_unresolved_raises (max_attempts : Z) (m : ADBManager)
    (w : World) :
  adb_path_set m = None ->
  0 < max_attempts ->
  wait_for_device run_outcome max_attempts (mkSys m w)
  = (Raise (Exception "ADB not found"), mkSys m (announced w)).
Proof.
  intros H Hpos. unfold wait_for_device, execute_command, call_depth.
  rewrite wait_with_unfold.
  destruct (range max_attempts) as [|x rest] eqn:Hr.
  - apply (f_equal length) in Hr. rewrite length_range in Hr. simpl in Hr. lia.
  - rewrite (for_each_raise x rest _ _ _ _
               (poll_once_unresolved run_outcome 1 (mkSys m (announced w)) H)).
    reflexivity.
Qed.


(** X4. The constructor first lets [find_adb] build its list, which asks
    for the home directory.  When [Path.home()] raises, that error leaves
    the constructor: nothing is probed and nothing is assigned.  When it
    answers, the constructor returns, whatever the object held before: it
    leaves [timeout] at 30, [devices] empty and [adb_path] at the answer of
    [find_adb], and it has started [k] processes, at most six, the version
    queries of the first [k] candidates of the list below, in that order.
    The answer is [None] after all six, or the candidate probed last,
    which is not the empty string. *)
Theorem init_postcondition (s0 : Sys) :
  match home with
  | HomeUnknown description =>
      __init__ run_outcome home s0 = (Raise (Exception description), s0)
  | HomeIs h =>
      let paths :=
        [ "adb";
          "/usr/bin/adb";
          "/usr/local/bin/adb";
          "C:\Android\platform-tools\adb.exe";
          Pathlib.str (Pathlib.joinpath h
                         "AppData/Local/Android/Sdk/platform-tools/adb.exe");
          Pathlib.str (Pathlib.joinpath h "Library/Android/sdk/platform-tools/adb") ] in
      exists found w' k,
        __init__ run_outcome home s0 = (Ret tt, mkSys (mkADBManager found [] 30) w')
        /\ find_adb run_outcome home s0 = (Ret found, mkSys (self s0) w')
        /\ match found with
           | Some p =>
               PyStr.truthy p = true
               /\ exists j, k = S j /\ paths !! j = Some p
           | None => k = 6%nat
           end
        /\ (k <= 6)%nat
        /\ w' = probing (world s0) paths k
  end.
Proof.
  destruct home as [h|description]; [|apply init_unknown].
  intros paths.
  assert (Hpaths : paths = candidates h) by reflexivity.
  clearbody paths. subst paths.
  destruct s0 as [m w].
  destruct (find_loop run_outcome m (candidates h) w) as (r & w' & Hrun & Hr).
  assert (Hfind : find_adb run_outcome (HomeIs h) (mkSys m w) = (Ret r, mkSys m w'))
    by (rewrite find_adb_known; exact Hrun).
  assert (Hinit : __init__ run_outcome (HomeIs h) (mkSys m w)
                  = (Ret tt, mkSys (mkADBManager r [] 30) w')).
  { unfold __init__, bind at 1. rewrite Hfind. reflexivity. }
  destruct r as [p|].
  - destruct Hr as (k & Hk & _ & _ & Hw').
    exists (Some p), w', (S k).
    split; [exact Hinit|]. split; [exact Hfind|]. split; [|split].
    + split; [|exists k; split; [reflexivity | exact Hk]].
      apply (candidates_nonempty h). apply list_elem_of_lookup. eauto.
    + apply lookup_lt_Some in Hk. simpl in Hk. lia.
    + exact Hw'.
  - destruct Hr as (_ & Hw'). exists None, w', 6%nat.
    split; [exact Hinit|]. split; [exact Hfind|]. split; [|split].
    + reflexivity.
    + lia.
    + exact Hw'.
Qed.

(** X21. With a home directory, [find_adb] returns and does not raise.  It
    probes the six candidates of the list below in that order and answers
    the first one whose version query exits with code 0, having probed no
    later candidate; when no candidate does, it answers [None] after
    probing all six.  A probe that times out or cannot be started counts
    as a failed candidate: [_check_adb_path] answers false for it and lets
    no exception out. *)
Theorem find_adb_first_working (h : Pathlib.Path) (s : Sys) :
  let paths :=
    [ "adb";
      "/usr/bin/adb";
      "/usr/local/bin/adb";
      "C:\Android\platform-tools\adb.exe";
      Pathlib.str (Pathlib.joinpath h
                     "AppData/Local/Android/Sdk/platform-tools/adb.exe");
      Pathlib.str (Pathlib.joinpath h "Library/Android/sdk/platform-tools/adb") ] in
  (forall p s0, exists b,
      _check_adb_path run_outcome p s0
      = (Ret b, mkSys (self s0) (log_spawn (probe p) (world s0)))
      /\ (b = true <-> exists out err,
                         run_outcome (world s0) (probe p) = Completed 0 out err))
  /\ exists r w',
      find_adb run_outcome (HomeIs h) s = (Ret r, mkSys (self s) w')
      /\ match r with
         | Some p =>
             exists k, paths !! k = Some p
               /\ candidate_works run_outcome (world s) paths k p = true
               /\ (forall j q, (j < k)%nat -> paths !! j = Some q ->
                     candidate_works run_outcome (world s) paths j q = false)
               /\ w' = probing (world s) paths (S k)
         | None =>
             (forall j q, paths !! j = Some q ->
                candidate_works run_outcome (world s) paths j q = false)
             /\ w' = probing (world s) paths 6
         end.
Proof.
  intros paths.
  assert (Hpaths : paths = candidates h) by reflexivity.
  clearbody paths. subst paths.
  split.
  - intros p [m0 w0]. exists (exits_zero (run_outcome w0 (probe p))).
    split; [apply check_adb_path_run|]. simpl.
    destruct (run_outcome w0 (probe p)) as [code out err| |d]; simpl.
    + rewrite Z.eqb_eq. split.
      * intros ->. eauto.
      * intros (o & e & [= -> _ _]). reflexivity.
    + split; [discriminate | intros (o & e & Hx); discriminate].
    + split; [discriminate | intros (o & e & Hx); discriminate].
  - destruct s as [m w]. rewrite find_adb_known.
    apply (find_loop run_outcome m (candidates h) w).
Qed.

(** X5. [push_file] looks for the local file first.  When it is missing the
    call prints the complaint and returns false without starting a process,
    even on an object without a usable path.  When it is there and the path
    is resolved, exactly one process is started, [push] with the two paths,
    and the call returns true exactly when that process exits with 0.  When
    it is there and the path is unresolved, the error of [execute_command]
    escapes. *)
Theorem push_file_contract (local_path device_path : string) (m : ADBManager)
    (w : World) :
  (path_exists w local_path = false ->
     push_file run_outcome path_exists local_path device_path (mkSys m w)
     = (Ret false,
        mkSys m (mkWorld (spawned w) (elapsed w)
                         (console w ++ [MsgLocalMissing local_path]))))
  /\ (forall adb, path_exists w local_path = true -> resolved m adb ->
        let i := request m adb ["push"; local_path; device_path] in
        exists w',
          push_file run_outcome path_exists local_path device_path (mkSys m w)
          = (Ret (exits_zero (run_outcome w i)), mkSys m w')
          /\ spawned w' = spawned w ++ [i])
  /\ (path_exists w local_path = true -> adb_path_set m = None ->
        push_file run_outcome path_exists local_path device_path (mkSys m w)
        = (Raise (Exception "ADB not found"), mkSys m w)).
Proof.
  split; [|split].
  - intros Hno. unfold push_file.
    rewrite (bind_ret_eq _ _ _ _ _ (local_exists_run local_path m w)), Hno.
    reflexivity.
  - intros adb Hyes H i. unfold push_file.
    rewrite (bind_ret_eq _ _ _ _ _ (local_exists_run local_path m w)), Hyes.
    cbn [negb].
    rewrite (bind_ret_eq _ _ _ _ _ (execute_plain _ m w adb H)). fold i.
    destruct (run_outcome w i) as [code out err| |d]; simpl;
      try destruct (code =? 0); eexists; split; reflexivity.
  - intros Hyes Hnone. unfold push_file.
    rewrite (bind_ret_eq _ _ _ _ _ (local_exists_run local_path m w)), Hyes.
    cbn [negb].
    apply bind_raise_eq, execute_plain_unresolved, Hnone.
Qed.

(** X6. [pull_file] does not look at the local side.  With a resolved path
    it starts exactly one process, [pull] with the two paths, returns true
    exactly when it exits with 0, and otherwise prints the error text of
    the result: the stripped standard error, the timeout line or the text
    of the launch error. *)
Theorem pull_file_contract (device_path local_path : string) (m : ADBManager)
    (w : World) (adb : string) :
  resolved m adb ->
  let i := request m adb ["pull"; device_path; local_path] in
  let r := result_of (run_outcome w i) in
  pull_file run_outcome device_path local_path (mkSys m w)
  = (Ret (exits_zero (run_outcome w i)),
     mkSys m (mkWorld (spawned w ++ [i]) (elapsed w)
                      (console w ++ [if exits_zero (run_outcome w i)
                                     then MsgPulled device_path local_path
                                     else MsgPullFailed (error r)]))).
Proof.
  intros H i r. unfold pull_file.
  rewrite (bind_ret_eq _ _ _ _ _ (execute_plain _ m w adb H)). fold i. unfold r.
  destruct (run_outcome w i) as [code out err| |d]; simpl;
    try destruct (code =? 0); reflexivity.
Qed.


(** X7. The table of [reboot_device] has exactly six modes; [system] has no
    target and [fastboot] shares the target of [bootloader].  When the
    reboot command of a mode of the table does not exit with 0 (another
    code, a timeout, a launch error), [reboot_device] returns false at
    once: one process started, nothing printed, nothing slept. *)
Theorem reboot_device_failure (m : ADBManager) (w : World) (adb : string) :
  resolved m adb ->
  (forall mode target,
      modes !! mode = Some target <->
      (mode, target) ∈ [ ("system", ""); ("recovery", "recovery");
                         ("bootloader", "bootloader"); ("fastboot", "bootloader");
                         ("download", "download"); ("sideload", "sideload") ])
  /\ (forall mode target,
        modes !! mode = Some target ->
        let i := request m adb
                   (["reboot"] ++ (if PyStr.truthy target then [target] else [])) in
        exits_zero (run_outcome w i) = false ->
        reboot_device run_outcome mode (mkSys m w)
        = (Ret false, mkSys m (log_spawn i w))).
Proof.
  intros H. split.
  - intros mode target. unfold modes. symmetry. apply elem_of_list_to_map.
    apply (bool_decide_unpack _). vm_compute. exact I.
  - intros mode target Hmode i Hfail. unfold reboot_device. rewrite Hmode.
    rewrite (bind_ret_eq _ _ _ _ _ (execute_plain _ m w adb H)). fold i.
    destruct (run_outcome w i) as [code out err| |d]; simpl in *;
      [rewrite Hfail|..]; reflexivity.
Qed.

Lemma for_fold_raise {A S} (x : A) (rest : list A) (body : S -> A -> M S)
    (acc : S) (s s' : Sys) (e : exn) :
  body acc x s = (Raise e, s') -> for_fold (x :: rest) acc body s = (Raise e, s').
Proof. intros H. simpl. apply bind_raise_eq. exact H. Qed.

Local Abbreviation not_found m w :=
  (Raise (Exception "ADB not found"), mkSys m w).

(** X8. The device operations do not catch the error of a missing
    executable.  On an object without a usable path, [execute_command],
    [get_device_info], [is_device_rooted], [pull_file], [shell_command] and,
    for a mode of its table, [reboot_device] all raise "ADB not found"
    before starting a process or printing anything. *)
Theorem operations_raise_when_unresolved (m : ADBManager) (w : World) :
  adb_path_set m = None ->
  (forall command wf,
      execute_command run_outcome command wf (mkSys m w) = not_found m w)
  /\ (forall device_id,
        get_device_info run_outcome device_id (mkSys m w) = not_found m w)
  /\ is_device_rooted run_outcome (mkSys m w) = not_found m w
  /\ (forall d l, pull_file run_outcome d l (mkSys m w) = not_found m w)
  /\ (forall c root, shell_command run_outcome c root (mkSys m w) = not_found m w)
  /\ (forall mode target, modes !! mode = Some target ->
        reboot_device run_outcome mode (mkSys m w) = not_found m w).
Proof.
  intros H. repeat split.
  - intros command wf.
    apply (execute_unresolved run_outcome 1 command wf (mkSys m w) H).
  - intros device_id. unfold get_device_info, commands.
    apply for_fold_raise. apply bind_raise_eq, execute_plain_unresolved, H.
  - unfold is_device_rooted. apply bind_raise_eq, execute_plain_unresolved, H.
  - intros d l. unfold pull_file. apply bind_raise_eq, execute_plain_unresolved, H.
  - intros c root. unfold shell_command.
    apply bind_raise_eq, execute_plain_unresolved, H.
  - intros mode target Hmode. unfold reboot_device. rewrite Hmode.
    apply bind_raise_eq, execute_plain_unresolved, H.
Qed.

(** X9. [check_adb_installed] starts no process and never raises.  It
    answers true exactly when the path is usable, that is, exactly when
    [execute_command] does not raise; when it answers false it prints the
    two lines of advice. *)
Theorem check_adb_installed_agrees (m : ADBManager) (w : World) :
  exists b : bool,
    check_adb_installed (mkSys m w)
    = (Ret b,
       mkSys m (if b then w
                else mkWorld (spawned w) (elapsed w)
                             (console w ++ [MsgAdbNotFound; MsgDownloadHint])))
    /\ (b = true <-> exists adb, resolved m adb)
    /\ (b = true <->
        forall command wf w0, exists r s',
          execute_command run_outcome command wf (mkSys m w0) = (Ret r, s')).
Proof.
  unfold check_adb_installed, resolved.
  rewrite (bind_ret_eq _ _ _ _ _ (eq_refl : get_self (mkSys m w) = (Ret m, mkSys m w))).
  destruct (adb_path_set m) as [adb|] eqn:Hset.
  - exists true. split; [reflexivity|]. split.
    + split; eauto.
    + split; [|reflexivity]. intros _ command wf w0.
      rewrite (execute_resolved run_outcome command wf m w0 adb Hset). eauto.
  - exists false. split.
    + unfold bind, print, on_world. simpl. rewrite <- app_assoc. reflexivity.
    + split.
      * split; [discriminate | intros [adb Hx]; discriminate].
      * split; [discriminate|]. intros Hall.
        destruct (Hall [] false w) as (r & s' & Hrun).
        rewrite (execute_plain_unresolved [] m w Hset) in Hrun.
        discriminate.
Qed.

(** X10. Every value in the dictionary of [get_device_info] is a non-empty
    string without leading or trailing whitespace, stored under one of the
    seven keys of the table; the call starts seven processes. *)
Theorem get_device_info_values (device_id : option string) (m : ADBManager)
    (w : World) (adb : string) :
  resolved m adb ->
  exists info w',
    get_device_info run_outcome device_id (mkSys m w) = (Ret info, mkSys m w')
    /\ length (spawned w') = (length (spawned w) + 7)%nat
    /\ (forall key v, info !! key = Some v ->
          key ∈ ["Model"; "Android Version"; "Security Patch"; "Manufacturer";
                 "Serial Number"; "Bootloader"; "Hardware"]
          /\ PyStr.truthy v = true
          /\ PyStr.strip v = v).
Proof.
  intros H.
  destruct (gather_loop run_outcome m adb commands H commands_keys_distinct w ∅)
    as (info & Hrun & Hkeys & Hother).
  exists info. eexists. split; [exact Hrun|]. split.
  { simpl. rewrite length_app. reflexivity. }
  intros key v Hv.
  destruct (decide (key ∈ commands.*2)) as [Hin|Hout].
  - split; [exact Hin|].
    apply list_elem_of_fmap in Hin as ([cmd key'] & -> & Hin).
    apply list_elem_of_lookup in Hin as (k & Hk). simpl in Hv.
    rewrite (Hkeys k cmd key' Hk) in Hv.
    destruct (run_outcome _ _) as [code out err| |d]; simpl in Hv;
      try (rewrite lookup_empty in Hv; discriminate).
    destruct (code =? 0); simpl in Hv;
      [|rewrite lookup_empty in Hv; discriminate].
    destruct (PyStr.truthy (PyStr.strip out)) eqn:Ht;
      [|rewrite lookup_empty in Hv; discriminate].
    injection Hv as <-. split; [exact Ht | apply strip_idempotent].
  - rewrite (Hother key Hout), lookup_empty in Hv. discriminate.
Qed.

End Manager.

(** ** The device scanner *)

Section ScannerFacts.

Variable run_outcome : World -> invocation -> proc_outcome.
Variable now_iso : World -> string.
Variable home : home_outcome.

Lemma after_calls_app (w : World) (l1 l2 : list invocation) :
  after_calls (after_calls w l1) l2 = after_calls w (l1 ++ l2).
Proof. unfold after_calls. simpl. rewrite <- app_assoc. reflexivity. Qed.

Lemma after_calls_empty (w : World) : after_calls w [] = w.
Proof. destruct w. unfold after_calls. simpl. rewrite app_nil_r. reflexivity. Qed.

(** *** Every process of a helper selects the device *)

Lemma addressed_ret {A} (serial : string) (m : ADBManager) (w : World)
    (post : A -> Prop) (fail : exn -> Prop) (a : A) :
  post a -> addressed serial m w post fail (ret a (mkSys m w)).
Proof.
  intros H. exists []. simpl. rewrite after_calls_empty. auto.
Qed.

Lemma addressed_raise {A} (serial : string) (m : ADBManager) (w : World)
    (post : A -> Prop) (fail : exn -> Prop) (e : exn) :
  fail e -> addressed serial m w post fail (@raise A e (mkSys m w)).
Proof.
  intros H. exists []. simpl. rewrite after_calls_empty. auto.
Qed.

Lemma addressed_eq {A} (serial : string) (m : ADBManager) (w : World)
    (post : A -> Prop) (fail : exn -> Prop) (out out' : Res A * Sys) :
  out = out' -> addressed serial m w post fail out' ->
  addressed serial m w post fail out.
Proof. intros ->. auto. Qed.

Lemma addressed_bind {A B} (serial : string) (m : ADBManager) (w : World)
    (c : M A) (k : A -> M B) (mid : A -> Prop)
    (post : B -> Prop) (fail : exn -> Prop) :
  addressed serial m w mid fail (c (mkSys m w)) ->
  (forall a w', mid a -> addressed serial m w' post fail (k a (mkSys m w'))) ->
  addressed serial m w post fail (bind c k (mkSys m w)).
Proof.
  intros (calls & Hs & Hall & Hres) Hk. unfold bind.
  destruct (c (mkSys m w)) as [[a|e|] s']; simpl in *; subst s'.
  - destruct (Hk a (after_calls w calls) Hres) as (calls2 & Hs2 & Hall2 & Hres2).
    exists (calls ++ calls2). rewrite Hs2, after_calls_app.
    split; [reflexivity|]. split; [apply Forall_app; auto | exact Hres2].
  - exists calls. auto.
  - contradiction.
Qed.

Lemma addressed_weaken {A} (serial : string) (m : ADBManager) (w : World)
    (post post' : A -> Prop) (fail fail' : exn -> Prop) (out : Res A * Sys) :
  addressed serial m w post fail out ->
  (forall a, post a -> post' a) -> (forall e, fail e -> fail' e) ->
  addressed serial m w post' fail' out.
Proof.
  intros (calls & Hs & Hall & Hres) Hp Hf. exists calls.
  split; [exact Hs|]. split; [exact Hall|].
  destruct (fst out); auto.
Qed.

Lemma result_output_stripped (o : proc_outcome) :
  PyStr.strip (output (result_of o)) = output (result_of o).
Proof. destruct o; simpl; [apply strip_idempotent | reflexivity..]. Qed.

Lemma addressed_execute (serial : string) (rest : list string) (m : ADBManager)
    (w : World) (adb : string) (fail : exn -> Prop) :
  resolved m adb ->
  addressed serial m w (fun r => PyStr.strip (output r) = output r) fail
    (execute_command run_outcome ("-s" :: serial :: rest) false (mkSys m w)).
Proof.
  intros H.
  rewrite (execute_resolved run_outcome _ false m w adb H). cbn [before_run world].
  exists [request m adb ("-s" :: serial :: rest)]. simpl.
  split; [reflexivity|]. split; [|apply result_output_stripped].
  apply Forall_singleton. exists adb, rest. reflexivity.
Qed.

Lemma addressed_execute_exact (serial : string) (rest : list string)
    (m : ADBManager) (w : World) (adb : string) (fail : exn -> Prop) :
  resolved m adb ->
  addressed serial m w
    (fun r => r = result_of (run_outcome w (request m adb ("-s" :: serial :: rest))))
    fail
    (execute_command run_outcome ("-s" :: serial :: rest) false (mkSys m w)).
Proof.
  intros H.
  rewrite (execute_resolved run_outcome _ false m w adb H). cbn [before_run world].
  exists [request m adb ("-s" :: serial :: rest)]. simpl.
  split; [reflexivity|]. split; [|reflexivity].
  apply Forall_singleton. exists adb, rest. reflexivity.
Qed.

Lemma addressed_for_fold {A S} (serial : string) (m : ADBManager)
    (items : list A) (body : S -> A -> M S) (inv : S -> Prop) (fail : exn -> Prop) :
  (forall acc x w, x ∈ items -> inv acc ->
                   addressed serial m w inv fail (body acc x (mkSys m w))) ->
  forall acc w, inv acc ->
    addressed serial m w inv fail (for_fold items acc body (mkSys m w)).
Proof.
  induction items as [|x rest IH]; intros Hbody acc w Hacc; simpl.
  - apply addressed_ret. exact Hacc.
  - eapply addressed_bind; [apply Hbody; [apply list_elem_of_here | exact Hacc]|].
    intros a w' Ha. apply IH; [|exact Ha].
    intros acc' y w'' Hy. apply Hbody. apply list_elem_of_further. exact Hy.
Qed.

(** *** Pieces of text *)

Lemma split_on_cons (sep : ascii) (s : string) :
  exists piece pieces, PyText.split_on sep s = piece :: pieces.
Proof.
  induction s as [|a t (piece & pieces & IH)]; simpl; [eauto|].
  destruct (Ascii.eqb a sep); [eauto|]. rewrite IH. eauto.
Qed.

Lemma contains_char (c : ascii) (s : string) :
  PyStr.contains (String c "") s = negb (PyText.lacks c s).
Proof.
  induction s as [|a t IH]; [reflexivity|].
  cbn [PyStr.contains PyText.lacks PyStr.startswith]. rewrite IH.
  rewrite (Ascii.eqb_sym c a).
  destruct (Ascii.eqb a c); simpl; [|reflexivity].
  destruct t; reflexivity.
Qed.

Lemma split_first_pair (c : ascii) (s : string) :
  PyText.lacks c s = false ->
  exists key value, PyText.split_first c s = [key; value].
Proof.
  induction s as [|a t IH]; simpl; [discriminate|].
  destruct (Ascii.eqb a c); simpl; [eauto|].
  intros H. destruct (IH H) as (key & value & ->). eauto.
Qed.

Lemma lower_char_normal (c : ascii) :
  let n := if Ascii.eqb (PyText.lower_char c) PyText.SPACE
           then PyText.UNDERSCORE else PyText.lower_char c in
  PyText.lower_char n = n /\ Ascii.eqb n PyText.SPACE = false.
Proof.
  destruct c as [[] [] [] [] [] [] [] []]; vm_compute; split; reflexivity.
Qed.

Lemma normal_key (k : string) :
  let key := PyText.replace_char PyText.SPACE PyText.UNDERSCORE (PyText.lower k) in
  PyText.lower key = key /\ PyText.lacks PyText.SPACE key = true.
Proof.
  induction k as [|c t [IH1 IH2]]; [split; reflexivity|].
  destruct (lower_char_normal c) as [Hl Hs].
  split.
  - cbn [PyText.lower PyText.replace_char PyText.map_chars] in *.
    f_equal; [exact Hl | exact IH1].
  - cbn [PyText.lower PyText.replace_char PyText.map_chars PyText.lacks] in *.
    rewrite Hs. exact IH2.
Qed.


(** *** The helpers of [_get_device_details] *)

Ltac in_list := apply (bool_decide_unpack _); vm_compute; exact I.

Ltac not_in_list H :=
  exfalso;
  repeat (apply elem_of_cons in H as [H|H]; [discriminate H|]);
  apply elem_of_nil in H; exact H.

(** X11. [_get_storage_info] starts one process, [df /data] on the device.
    It returns the empty dictionary when the command fails or when the
    second line of its output has fewer than four fields, the four entries
    read from the fields 1 to 4 of that line when it has five fields or
    more, and raises [IndexError] when it has exactly four. *)
Theorem get_storage_info_edge (serial : string) (m : ADBManager) (w : World)
    (adb : string) :
  resolved m adb ->
  let q := request m adb ["-s"; serial; "shell"; "df"; "/data"] in
  let r := result_of (run_outcome w q) in
  let fields :=
    match PyText.split_on PyText.LFc (PyStr.strip (output r)) with
    | _ :: line1 :: _ => PyStr.split line1
    | _ => []
    end in
  exists res,
    _get_storage_info run_outcome serial (mkSys m w) = (res, mkSys m (log_spawn q w))
    /\ match res with
       | Ret d =>
           (d = ∅ /\ (success r = false \/ (length fields < 4)%nat))
           \/ (success r = true
               /\ exists p0 p1 p2 p3 p4 rest,
                    fields = p0 :: p1 :: p2 :: p3 :: p4 :: rest
                    /\ d = <["usage_percent" := p4]>
                             (<["available" := p3]>
                                (<["used" := p2]> (<["total" := p1]> ∅))))
       | Raise e => e = index_error /\ success r = true /\ length fields = 4%nat
       | Unfinished => False
       end.
Proof.
  intros H q r fields. unfold _get_storage_info.
  rewrite (bind_ret_eq _ _ _ _ _ (execute_plain run_outcome _ m w adb H)).
  fold q. fold r. unfold fields. clear fields.
  destruct (success r).
  - destruct (PyText.split_on PyText.LFc (PyStr.strip (output r)))
      as [|line0 [|line1 more]].
    + eexists. split; [reflexivity|]. left. split; [reflexivity|]. right. simpl. lia.
    + eexists. split; [reflexivity|]. left. split; [reflexivity|]. right. simpl. lia.
    + destruct (PyStr.split line1) as [|p0 [|p1 [|p2 [|p3 [|p4 rest]]]]];
        try (eexists; split; [reflexivity|]; left; split; [reflexivity|];
             right; simpl; lia).
      * eexists. split; [reflexivity|]. repeat split.
      * eexists. split; [reflexivity|]. right. split; [reflexivity|].
        exists p0, p1, p2, p3, p4, rest. split; reflexivity.
  - eexists. split; [reflexivity|]. left. split; [reflexivity|]. left. reflexivity.
Qed.

(** X12. [_check_lock_status] never raises on a resolved path and answers
    one of six labels.  It starts one or two processes, both on the device:
    [pin/password], [secure] and [swipe] are only answered from a trust
    dump that succeeded, without a second process; [password] and
    [unknown] only after the listing of [/data/system/] was run as well. *)
Theorem check_lock_status_range (serial : string) (m : ADBManager) (w : World)
    (adb : string) :
  resolved m adb ->
  let q1 := request m adb ["-s"; serial; "shell"; "dumpsys"; "trust"] in
  let q2 := request m adb ["-s"; serial; "shell"; "ls"; "/data/system/"] in
  exists verdict w',
    _check_lock_status run_outcome serial (mkSys m w) = (Ret verdict, mkSys m w')
    /\ verdict ∈ lock_labels
    /\ (verdict ∈ ["pin/password"; "secure"; "swipe"] ->
          w' = log_spawn q1 w /\ success (result_of (run_outcome w q1)) = true)
    /\ (verdict ∈ ["password"; "unknown"] -> w' = log_spawn q2 (log_spawn q1 w))
    /\ (w' = log_spawn q1 w \/ w' = log_spawn q2 (log_spawn q1 w)).
Proof.
  intros H q1 q2. unfold _check_lock_status.
  rewrite (bind_ret_eq _ _ _ _ _ (execute_plain run_outcome _ m w adb H)).
  fold q1. cbv zeta.
  destruct (success (result_of (run_outcome w q1))) eqn:Hs1;
    repeat match goal with
           | |- context [if ?b then _ else _] => destruct b eqn:?
           end;
    cbn [andb orb negb];
    try (eexists _, _; split; [reflexivity|];
         split; [unfold lock_labels; in_list|];
         split; [intros _; split; reflexivity|];
         split; [intros Hv; not_in_list Hv | left; reflexivity]);
    try (rewrite (bind_ret_eq _ _ _ _ _
                    (execute_plain run_outcome _ m (log_spawn q1 w) adb H));
         fold q2;
         destruct (success (result_of (run_outcome (log_spawn q1 w) q2)));
         cbn [andb];
         repeat match goal with
                | |- context [if ?b then _ else _] => destruct b eqn:?
                end;
         eexists _, _; (split; [reflexivity|]);
         (split; [unfold lock_labels; in_list|]);
         (split; [intros Hv; not_in_list Hv|]);
         (split; [intros _; reflexivity | right; reflexivity])).
Qed.


Local Abbreviation battery_line :=
  (fun (battery_info : gmap string string) (line : string) =>
     if PyStr.contains (String PyText.COLON "") line then
       match PyText.split_first PyText.COLON line with
       | [key; value] =>
           let key := PyText.replace_char PyText.SPACE PyText.UNDERSCORE
                        (PyText.lower (PyStr.strip key)) in
           let value := PyStr.strip value in
           ret (<[key := value]> battery_info)
       | _ => raise (Exception "not enough values to unpack (expected 2, got 1)")
       end
     else ret battery_info).

Lemma battery_loop (lines : list string) :
  forall (acc : gmap string string) (s : Sys),
  exists info,
    for_fold lines acc battery_line s = (Ret info, s)
    /\ forall key v, info !! key = Some v ->
          acc !! key = Some v
          \/ exists line k0 v0,
               line ∈ lines
               /\ PyText.split_first PyText.COLON line = [k0; v0]
               /\ key = PyText.replace_char PyText.SPACE PyText.UNDERSCORE
                          (PyText.lower (PyStr.strip k0))
               /\ v = PyStr.strip v0.
Proof.
  induction lines as [|line rest IH]; intros acc s.
  - exists acc. split; [reflexivity|]. auto.
  - destruct (PyStr.contains (String PyText.COLON "") line) eqn:Hc.
    + rewrite contains_char in Hc. apply negb_true_iff in Hc.
      destruct (split_first_pair _ _ Hc) as (k0 & v0 & Hsplit).
      set (key := PyText.replace_char PyText.SPACE PyText.UNDERSCORE
                    (PyText.lower (PyStr.strip k0))).
      destruct (IH (<[key := PyStr.strip v0]> acc) s) as (info & Hrun & Hinfo).
      exists info. split.
      * rewrite <- Hrun. apply for_fold_step.
        rewrite contains_char, Hc, Hsplit. reflexivity.
      * intros key' v Hv. destruct (Hinfo key' v Hv) as [Hacc | Hline].
        -- destruct (decide (key = key')) as [<-|Hne].
           ++ rewrite lookup_insert_eq in Hacc. injection Hacc as <-.
              right. exists line, k0, v0. split; [apply list_elem_of_here|].
              auto.
           ++ rewrite lookup_insert_ne in Hacc by exact Hne. left. exact Hacc.
        -- right. destruct Hline as (l & k' & v' & Hin & Hrest).
           exists l, k', v'. split; [apply list_elem_of_further; exact Hin | exact Hrest].
    + destruct (IH acc s) as (info & Hrun & Hinfo).
      exists info. split.
      * rewrite <- Hrun. apply for_fold_step. rewrite Hc. reflexivity.
      * intros key v Hv. destruct (Hinfo key v Hv) as [Hacc | Hline];
          [left; exact Hacc|].
        right. destruct Hline as (l & k' & v' & Hin & Hrest).
        exists l, k', v'. split; [apply list_elem_of_further; exact Hin | exact Hrest].
Qed.

(** X13. [_get_battery_info] starts one process and never raises on a
    resolved path: the unpacking of a line is guarded by the test for a
    colon.  It returns the empty dictionary when the command fails.  Every
    entry comes from a line of the stripped output cut at its first colon:
    the key is the left part stripped, lowered, with its spaces replaced by
    underscores (so it holds no space and no capital), the value is the
    right part stripped. *)
Theorem get_battery_info_keys (serial : string) (m : ADBManager) (w : World)
    (adb : string) :
  resolved m adb ->
  let q := request m adb ["-s"; serial; "shell"; "dumpsys"; "battery"] in
  let r := result_of (run_outcome w q) in
  exists info,
    _get_battery_info run_outcome serial (mkSys m w) = (Ret info, mkSys m (log_spawn q w))
    /\ (success r = false -> info = ∅)
    /\ forall key v, info !! key = Some v ->
          PyText.lacks PyText.SPACE key = true
          /\ PyText.lower key = key
          /\ PyStr.strip v = v
          /\ exists line k0 v0,
               line ∈ PyText.split_on PyText.LFc (PyStr.strip (output r))
               /\ PyText.split_first PyText.COLON line = [k0; v0]
               /\ key = PyText.replace_char PyText.SPACE PyText.UNDERSCORE
                          (PyText.lower (PyStr.strip k0))
               /\ v = PyStr.strip v0.
Proof.
  intros H q r. unfold _get_battery_info.
  rewrite (bind_ret_eq _ _ _ _ _ (execute_plain run_outcome _ m w adb H)).
  fold q. fold r. destruct (success r).
  - destruct (battery_loop (PyText.split_on PyText.LFc (PyStr.strip (output r)))
                ∅ (mkSys m (log_spawn q w))) as (info & Hrun & Hinfo).
    exists info. split; [exact Hrun|]. split; [discriminate|].
    intros key v Hv. destruct (Hinfo key v Hv) as [Hempty | Hline].
    + rewrite lookup_empty in Hempty. discriminate.
    + destruct Hline as (line & k0 & v0 & Hin & Hsplit & -> & ->).
      destruct (normal_key (PyStr.strip k0)) as [Hlow Hsp].
      split; [exact Hsp|]. split; [exact Hlow|].
      split; [apply strip_idempotent|]. exists line, k0, v0. auto.
  - exists ∅. split; [reflexivity|]. split; [reflexivity|].
    intros key v Hv. rewrite lookup_empty in Hv. discriminate.
Qed.


(** *** All the details of one device *)

Lemma addressed_lock (serial : string) (m : ADBManager) (w : World) (adb : string)
    (fail : exn -> Prop) :
  resolved m adb ->
  addressed serial m w (fun v => v ∈ lock_labels) fail
    (_check_lock_status run_outcome serial (mkSys m w)).
Proof.
  intros H. unfold _check_lock_status.
  eapply addressed_bind; [apply (addressed_execute _ _ _ _ adb _ H)|].
  intros result w' _. cbv zeta.
  repeat match goal with
         | |- context [if ?b then _ else _] => destruct b
         end;
    cbn [andb orb negb];
    try (apply addressed_ret; unfold lock_labels; in_list);
    (eapply addressed_bind; [apply (addressed_execute _ _ _ _ adb _ H)|]);
    intros result2 w2 _;
    repeat match goal with
           | |- context [if ?b then _ else _] => destruct b
           end;
    apply addressed_ret; unfold lock_labels; in_list.
Qed.

Lemma addressed_usb (serial : string) (m : ADBManager) (w : World) (adb : string)
    (fail : exn -> Prop) :
  resolved m adb ->
  addressed serial m w (fun _ => True) fail
    (_check_usb_debugging run_outcome serial (mkSys m w)).
Proof.
  intros H. unfold _check_usb_debugging.
  eapply addressed_bind; [apply (addressed_execute _ _ _ _ adb _ H)|].
  intros result w' _. destruct (success result); apply addressed_ret; exact I.
Qed.

Lemma addressed_root (serial : string) (m : ADBManager) (w : World) (adb : string)
    (fail : exn -> Prop) :
  resolved m adb ->
  addressed serial m w (fun _ => True) fail
    (_check_root_access run_outcome serial (mkSys m w)).
Proof.
  intros H. unfold _check_root_access.
  eapply addressed_bind; [apply (addressed_execute _ _ _ _ adb _ H)|].
  intros result w' _.
  destruct (success result && _); apply addressed_ret; exact I.
Qed.

Lemma addressed_storage (serial : string) (m : ADBManager) (w : World) (adb : string) :
  resolved m adb ->
  addressed serial m w (fun _ => True) (fun e => e = index_error)
    (_get_storage_info run_outcome serial (mkSys m w)).
Proof.
  intros H. unfold _get_storage_info.
  eapply addressed_bind; [apply (addressed_execute _ _ _ _ adb _ H)|].
  intros result w' _. destruct (success result); [|apply addressed_ret; exact I].
  destruct (PyText.split_on _ _) as [|line0 [|line1 more]];
    try (apply addressed_ret; exact I).
  destruct (PyStr.split line1) as [|p0 [|p1 [|p2 [|p3 [|p4 rest]]]]];
    try (apply addressed_ret; exact I).
  apply addressed_raise. reflexivity.
Qed.

(** Short of a [df] line of four fields, [_get_storage_info] returns. *)
Lemma addressed_storage_safe (serial : string) (m : ADBManager) (w : World)
    (adb : string) (fail : exn -> Prop) :
  resolved m adb ->
  df_short (run_outcome w (request m adb ["-s"; serial; "shell"; "df"; "/data"]))
  = false ->
  addressed serial m w (fun _ => True) fail
    (_get_storage_info run_outcome serial (mkSys m w)).
Proof.
  intros H Hdf. unfold _get_storage_info.
  eapply addressed_bind; [apply (addressed_execute_exact _ _ _ _ adb _ H)|].
  intros result w' ->. unfold df_short, df_fields in Hdf.
  destruct (success (result_of _)); [|apply addressed_ret; exact I].
  destruct (PyText.split_on _ _) as [|line0 [|line1 more]];
    try (apply addressed_ret; exact I).
  destruct (PyStr.split line1) as [|p0 [|p1 [|p2 [|p3 [|p4 rest]]]]];
    try (apply addressed_ret; exact I).
  discriminate Hdf.
Qed.

Lemma addressed_battery (serial : string) (m : ADBManager) (w : World) (adb : string)
    (fail : exn -> Prop) :
  resolved m adb ->
  addressed serial m w (fun _ => True) fail
    (_get_battery_info run_outcome serial (mkSys m w)).
Proof.
  intros H. unfold _get_battery_info.
  eapply addressed_bind; [apply (addressed_execute _ _ _ _ adb _ H)|].
  intros result w' _. destruct (success result); [|apply addressed_ret; exact I].
  destruct (battery_loop (PyText.split_on PyText.LFc (PyStr.strip (output result)))
              ∅ (mkSys m w')) as (info & Hrun & _).
  apply (addressed_eq _ _ _ _ _ _ _ Hrun). apply addressed_ret. exact I.
Qed.

(** [_get_device_details] fails only the way [_get_storage_info] does. *)
Lemma details_run_with (fail : exn -> Prop) (serial : string) (m : ADBManager)
    (w : World) (adb : string) :
  resolved m adb ->
  (forall w', addressed serial m w' (fun _ => True) fail
                (_get_storage_info run_outcome serial (mkSys m w'))) ->
  addressed serial m w (details_post now_iso serial w) fail
    (_get_device_details run_outcome now_iso serial (mkSys m w)).
Proof.
  intros H Hstorage. unfold _get_device_details.
  rewrite (bind_ret_eq _ _ _ _ _
             (eq_refl : datetime_now now_iso (mkSys m w) = (Ret (now_iso w), mkSys m w))).
  eapply addressed_bind.
  { apply (addressed_for_fold serial m detail_commands _
             (fun props : gmap string string =>
                forall key v, props !! key = Some v ->
                  key ∈ detail_keys /\ PyStr.truthy v = true /\ PyStr.strip v = v)).
    - intros props [key cmd] w0 Hin Hinv.
      eapply addressed_bind; [apply (addressed_execute _ _ _ _ adb _ H)|].
      intros result w1 Hstripped. cbv beta in Hstripped.
      destruct (success result && PyStr.truthy (output result)) eqn:Hok;
        apply addressed_ret; [|exact Hinv].
      intros key' v Hv. destruct (decide (key = key')) as [<-|Hne].
      + rewrite lookup_insert_eq in Hv. injection Hv as <-.
        apply andb_true_iff in Hok as [_ Htruthy].
        rewrite Hstripped. split; [|split; [exact Htruthy | exact Hstripped]].
        apply (list_elem_of_fmap_2 fst) in Hin. exact Hin.
      + rewrite lookup_insert_ne in Hv by exact Hne. apply Hinv. exact Hv.
    - intros key v Hv. rewrite lookup_empty in Hv. discriminate. }
  intros props w1 Hprops.
  eapply addressed_bind; [apply (addressed_lock _ _ _ adb _ H)|].
  intros lock w2 Hlock.
  eapply addressed_bind; [apply (addressed_usb _ _ _ adb _ H)|].
  intros usb w3 _.
  eapply addressed_bind; [apply (addressed_root _ _ _ adb _ H)|].
  intros rooted w4 _.
  eapply addressed_bind; [apply Hstorage|].
  intros storage w5 _.
  eapply addressed_bind; [apply (addressed_battery _ _ _ adb _ H)|].
  intros battery w6 _.
  apply addressed_ret. unfold details_post. simpl. auto.
Qed.

Lemma details_run (serial : string) (m : ADBManager) (w : World) (adb : string) :
  resolved m adb ->
  addressed serial m w (details_post now_iso serial w) (fun e => e = index_error)
    (_get_device_details run_outcome now_iso serial (mkSys m w)).
Proof.
  intros H. apply (details_run_with _ serial m w adb H).
  intros w'. apply (addressed_storage serial m w' adb H).
Qed.


(** X14. On a resolved path every process that [_get_device_details]
    starts selects the device it was asked about ([adb -s serial ...]), and
    the object is left as it was.  The call returns a dictionary with that
    serial, the status [connected], the time read at the start, a lock
    label of the table and only non-empty, trimmed properties under the
    nine keys; the one exception that can escape is the [IndexError] of
    [_get_storage_info]. *)
Theorem get_device_details_addressed (serial : string) (m : ADBManager) (w : World)
    (adb : string) :
  resolved m adb ->
  addressed serial m w (details_post now_iso serial w) (fun e => e = index_error)
    (_get_device_details run_outcome now_iso serial (mkSys m w)).
Proof. apply details_run. Qed.

(** *** The scan *)

Lemma sbind_ret_eq {A B} (c : SM A) (k : A -> SM B) (st st' : ScanSys) (a : A) :
  c st = (Ret a, st') -> sbind c k st = k a st'.
Proof. intros H. unfold sbind. rewrite H. reflexivity. Qed.

Lemma sbind_raise_eq {A B} (c : SM A) (k : A -> SM B) (st st' : ScanSys) (e : exn) :
  c st = (Raise e, st') -> sbind c k st = (Raise e, st').
Proof. intros H. unfold sbind. rewrite H. reflexivity. Qed.

Lemma via_adb_run {A} (c : M A) (s s' : Sys) (r : Res A)
    (results : list device) (lines : list scan_message) :
  c s = (r, s') ->
  via_adb c (mkScanSys s results lines) = (r, mkScanSys s' results lines).
Proof. intros H. unfold via_adb. simpl. rewrite H. reflexivity. Qed.

Local Abbreviation scan_line :=
  (fun line : string =>
     if negb (PyStr.truthy (PyStr.strip line)) then sret tt
     else
       match PyText.split_on PyText.TABc line with
       | part0 :: part1 :: _ =>
           let serial := PyStr.strip part0 in
           let status := PyStr.strip part1 in
           if String.eqb status "device" then
             sbind (via_adb (_get_device_details run_outcome now_iso serial))
                   (fun device_info => append_result device_info)
           else sret tt
       | _ => sret tt
       end).

Lemma scan_line_skip (line : string) (st : ScanSys) :
  ready_serial line = None -> scan_line line st = (Ret tt, st).
Proof.
  unfold ready_serial. destruct (negb _); [reflexivity|].
  destruct (PyText.split_on PyText.TABc line) as [|part0 [|part1 more]];
    try reflexivity.
  destruct (String.eqb _ _); [discriminate | reflexivity].
Qed.

Lemma scan_line_ready (line serial : string) (st : ScanSys) :
  ready_serial line = Some serial ->
  scan_line line st
  = sbind (via_adb (_get_device_details run_outcome now_iso serial))
          (fun device_info => append_result device_info) st.
Proof.
  unfold ready_serial. destruct (negb _); [discriminate|].
  destruct (PyText.split_on PyText.TABc line) as [|part0 [|part1 more]];
    try discriminate.
  cbv zeta. destruct (String.eqb _ _); [|discriminate].
  intros [= <-]. reflexivity.
Qed.

Lemma scan_line_result (fail : exn -> Prop) (m : ADBManager) (adb line : string)
    (w : World) (found : list device) (printed : list scan_message) :
  resolved m adb ->
  (forall serial w', ready_serial line = Some serial ->
     addressed serial m w' (fun _ => True) fail
       (_get_storage_info run_outcome serial (mkSys m w'))) ->
  let st := mkScanSys (mkSys m w) found printed in
  match ready_serial line with
  | None => scan_line line st = (Ret tt, st)
  | Some serial =>
      exists calls,
        Forall (selects_device serial) calls
        /\ ((exists d,
               scan_line line st
               = (Ret tt, mkScanSys (mkSys m (after_calls w calls)) (found ++ [d]) printed)
               /\ details_post now_iso serial w d)
            \/ exists e,
                 fail e
                 /\ scan_line line st
                    = (Raise e,
                       mkScanSys (mkSys m (after_calls w calls)) found printed))
  end.
Proof.
  intros H Hstorage st. destruct (ready_serial line) as [serial|] eqn:Hline.
  - rewrite (scan_line_ready line serial st Hline).
    destruct (details_run_with fail serial m w adb H
                (fun w' => Hstorage serial w' eq_refl))
      as (calls & Hs & Hall & Hres).
    destruct (_get_device_details run_outcome now_iso serial (mkSys m w))
      as [res s1] eqn:Hrun.
    simpl in Hs, Hres. subst s1. exists calls. split; [exact Hall|].
    destruct res as [d|e|]; [| |contradiction].
    + left. exists d. split; [|exact Hres].
      unfold st.
      rewrite (sbind_ret_eq _ _ _ _ _ (via_adb_run _ _ _ _ found printed Hrun)).
      reflexivity.
    + right. exists e. split; [exact Hres|]. unfold st.
      apply sbind_raise_eq. apply (via_adb_run _ _ _ _ found printed Hrun).
  - apply scan_line_skip. exact Hline.
Qed.

Lemma sfor_cons_ret {A} (x : A) (rest : list A) (body : A -> SM unit)
    (st st' : ScanSys) :
  body x st = (Ret tt, st') -> sfor (x :: rest) body st = sfor rest body st'.
Proof. intros H. simpl. rewrite (sbind_ret_eq _ _ _ _ _ H). reflexivity. Qed.

Lemma sfor_cons_raise {A} (x : A) (rest : list A) (body : A -> SM unit)
    (st st' : ScanSys) (e : exn) :
  body x st = (Raise e, st') -> sfor (x :: rest) body st = (Raise e, st').
Proof. intros H. simpl. rewrite (sbind_raise_eq _ _ _ _ _ H). reflexivity. Qed.

Lemma listed_ready_cons (line : string) (rest : list string) :
  listed_ready (line :: rest)
  = match ready_serial line with
    | Some serial => serial :: listed_ready rest
    | None => listed_ready rest
    end.
Proof. reflexivity. Qed.

Lemma scan_loop_with (fail : exn -> Prop) (m : ADBManager) (adb : string)
    (lines : list string) :
  resolved m adb ->
  (forall serial w', serial ∈ listed_ready lines ->
     addressed serial m w' (fun _ => True) fail
       (_get_storage_info run_outcome serial (mkSys m w'))) ->
  forall (w : World) (found : list device) (printed : list scan_message),
  exists res calls ds,
    sfor lines scan_line (mkScanSys (mkSys m w) found printed)
    = (res, mkScanSys (mkSys m (after_calls w calls)) (found ++ ds) printed)
    /\ Forall (fun i => exists serial,
                         serial ∈ listed_ready lines /\ selects_device serial i) calls
    /\ Forall (fun d => dev_status d = "connected"
                        /\ dev_lock_status d ∈ lock_labels) ds
    /\ match res with
       | Ret _ => dev_serial <$> ds = listed_ready lines
       | Raise e =>
           fail e
           /\ exists later, listed_ready lines = (dev_serial <$> ds) ++ later
                            /\ later <> []
       | Unfinished => False
       end.
Proof.
  intros H. induction lines as [|line rest IH]; intros Hstorage w found printed.
  - exists (Ret tt), [], []. simpl. rewrite after_calls_empty, app_nil_r.
    repeat split; constructor.
  - assert (Hrest : forall serial w', serial ∈ listed_ready rest ->
              addressed serial m w' (fun _ => True) fail
                (_get_storage_info run_outcome serial (mkSys m w'))).
    { intros serial w' Hin. apply Hstorage. rewrite listed_ready_cons.
      destruct (ready_serial line); [apply list_elem_of_further|]; exact Hin. }
    assert (Hhere : forall serial w', ready_serial line = Some serial ->
              addressed serial m w' (fun _ => True) fail
                (_get_storage_info run_outcome serial (mkSys m w'))).
    { intros serial w' Heq. apply Hstorage. rewrite listed_ready_cons, Heq.
      apply list_elem_of_here. }
    specialize (IH Hrest).
    pose proof (scan_line_result fail m adb line w found printed H Hhere) as Hline.
    cbv zeta in Hline. clear Hstorage Hrest Hhere. rewrite !listed_ready_cons.
    destruct (ready_serial line) as [serial|].
    + destruct Hline as (calls1 & Hall1 & [(d & Hrun & Hpost) | (e & He & Hrun)]).
      * destruct (IH (after_calls w calls1) (found ++ [d]) printed)
          as (res & calls & ds & Hloop & Hsel & Hds & Hres).
        exists res, (calls1 ++ calls), (d :: ds).
        split; [|split; [|split]].
        -- rewrite (sfor_cons_ret line rest scan_line _ _ Hrun), Hloop.
           rewrite after_calls_app, <- app_assoc. reflexivity.
        -- apply Forall_app. split.
           ++ eapply Forall_impl; [exact Hall1|]. intros i Hi. exists serial.
              split; [apply list_elem_of_here | exact Hi].
           ++ eapply Forall_impl; [exact Hsel|]. intros i (s0 & Hin & Hi).
              exists s0. split; [apply list_elem_of_further; exact Hin | exact Hi].
        -- constructor; [|exact Hds].
           destruct Hpost as (_ & Hst & _ & Hlock & _). auto.
        -- destruct Hpost as (Hser & _). destruct res as [u|e|]; [| |exact Hres].
           ++ rewrite fmap_cons, Hser, Hres. reflexivity.
           ++ destruct Hres as (He & later & Hlater & Hne).
              split; [exact He|]. exists later.
              rewrite fmap_cons, Hser, Hlater. split; [reflexivity | exact Hne].
      * exists (Raise e), calls1, [].
        split; [|split; [|split]].
        -- rewrite (sfor_cons_raise line rest scan_line _ _ _ Hrun), app_nil_r. reflexivity.
        -- eapply Forall_impl; [exact Hall1|]. intros i Hi. exists serial.
           split; [apply list_elem_of_here | exact Hi].
        -- constructor.
        -- split; [exact He|]. exists (serial :: listed_ready rest).
           split; [reflexivity | discriminate].
    + destruct (IH w found printed) as (res & calls & ds & Hloop & Hrest).
      exists res, calls, ds. split; [|exact Hrest].
      rewrite (sfor_cons_ret line rest scan_line _ _ Hline). exact Hloop.
Qed.

Lemma scan_loop (m : ADBManager) (adb : string) (lines : list string) :
  resolved m adb ->
  forall (w : World) (found : list device) (printed : list scan_message),
  exists res calls ds,
    sfor lines scan_line (mkScanSys (mkSys m w) found printed)
    = (res, mkScanSys (mkSys m (after_calls w calls)) (found ++ ds) printed)
    /\ Forall (fun i => exists serial,
                         serial ∈ listed_ready lines /\ selects_device serial i) calls
    /\ Forall (fun d => dev_status d = "connected"
                        /\ dev_lock_status d ∈ lock_labels) ds
    /\ match res with
       | Ret _ => dev_serial <$> ds = listed_ready lines
       | Raise e =>
           e = index_error
           /\ exists later, listed_ready lines = (dev_serial <$> ds) ++ later
                            /\ later <> []
       | Unfinished => False
       end.
Proof.
  intros H.
  apply (scan_loop_with (fun e => e = index_error) m adb lines H).
  intros serial w' _. apply (addressed_storage serial m w' adb H).
Qed.


Lemma scan_print_run (msg : scan_message) (s : Sys) (results : list device)
    (printed : list scan_message) :
  scan_print msg (mkScanSys s results printed)
  = (Ret tt, mkScanSys s results (printed ++ [msg])).
Proof. reflexivity. Qed.

Lemma set_results_run (l : list device) (s : Sys) (results : list device)
    (printed : list scan_message) :
  set_results l (mkScanSys s results printed) = (Ret tt, mkScanSys s l printed).
Proof. reflexivity. Qed.

Lemma scan_devices_start (m : ADBManager) (w : World) (adb : string)
    (old : list device) (printed : list scan_message) :
  resolved m adb ->
  let q := request m adb ["devices"] in
  let r := result_of (run_outcome w q) in
  let lines := PyText.split_on PyText.LFc (PyStr.strip (output r)) in
  let st := mkScanSys (mkSys m (log_spawn q w)) [] (printed ++ [ScanStart]) in
  scan_devices run_outcome now_iso (mkScanSys (mkSys m w) old printed)
  = (if negb (success r) then sbind (scan_print ScanFailed) (fun _ => sret [])
     else if (length lines <=? 1)%nat
          then sbind (scan_print ScanNoDevices) (fun _ => sret [])
          else sbind (sfor (drop 1 lines) scan_line) (fun _ => get_results)) st.
Proof.
  intros H q r lines st. unfold scan_devices.
  rewrite (sbind_ret_eq _ _ _ _ _ (scan_print_run ScanStart _ _ _)).
  rewrite (sbind_ret_eq _ _ _ _ _ (set_results_run [] _ _ _)).
  rewrite (sbind_ret_eq _ _ _ _ _
             (via_adb_run _ _ _ _ [] (printed ++ [ScanStart])
                (execute_plain run_outcome ["devices"] m w adb H))).
  reflexivity.
Qed.

(** X15. [scan_devices] forgets the results of the previous scan and starts
    the device-list command.  When that command fails, or when its stripped
    output has a single line, the scan returns the empty list: one process
    in all, [scan_results] empty, one line of explanation printed.  On an
    object without a usable path the error of [execute_command] escapes,
    after the results have been emptied. *)
Theorem scan_devices_nothing (m : ADBManager) (w : World)
    (old : list device) (printed : list scan_message) :
  (forall adb, resolved m adb ->
     let q := request m adb ["devices"] in
     let r := result_of (run_outcome w q) in
     let lines := PyText.split_on PyText.LFc (PyStr.strip (output r)) in
     success r = false \/ (length lines <= 1)%nat ->
     scan_devices run_outcome now_iso (mkScanSys (mkSys m w) old printed)
     = (Ret [],
        mkScanSys (mkSys m (log_spawn q w)) []
          (printed ++ [ScanStart; if success r then ScanNoDevices else ScanFailed])))
  /\ (adb_path_set m = None ->
        scan_devices run_outcome now_iso (mkScanSys (mkSys m w) old printed)
        = (Raise (Exception "ADB not found"),
           mkScanSys (mkSys m w) [] (printed ++ [ScanStart]))).
Proof.
  split.
  - intros adb H q r lines Hcase.
    rewrite (scan_devices_start m w adb old printed H). fold q. fold r. fold lines.
    destruct (success r).
    + destruct Hcase as [Hx | Hlen]; [discriminate|].
      apply Nat.leb_le in Hlen. cbn [negb]. rewrite Hlen.
      unfold sbind, scan_print, sret. simpl. rewrite <- app_assoc. reflexivity.
    + unfold sbind, scan_print, sret. simpl. rewrite <- app_assoc. reflexivity.
  - intros Hnone. unfold scan_devices.
    rewrite (sbind_ret_eq _ _ _ _ _ (scan_print_run ScanStart _ _ _)).
    rewrite (sbind_ret_eq _ _ _ _ _ (set_results_run [] _ _ _)).
    apply sbind_raise_eq.
    apply (via_adb_run _ _ _ _ [] (printed ++ [ScanStart])
             (execute_plain_unresolved run_outcome ["devices"] m w Hnone)).
Qed.

(** X16. When the device list has more than one line, [scan_devices]
    gathers the details of the devices of the lines after the first that
    name the state [device], in the order of the lines, skipping blank
    lines, lines without a TAB and other states.  Every process after the
    list command selects one of those serials.  The list returned is the
    new [scan_results], one dictionary for each such line.  The scan can
    only be cut short by the [IndexError] of [_get_storage_info]:
    [scan_results] then holds the devices gathered before it. *)
Theorem scan_devices_ready (m : ADBManager) (w : World) (adb : string)
    (old : list device) (printed : list scan_message) :
  resolved m adb ->
  let q := request m adb ["devices"] in
  let r := result_of (run_outcome w q) in
  let lines := PyText.split_on PyText.LFc (PyStr.strip (output r)) in
  success r = true ->
  (1 < length lines)%nat ->
  exists res calls ds,
    scan_devices run_outcome now_iso (mkScanSys (mkSys m w) old printed)
    = (res,
       mkScanSys (mkSys m (after_calls (log_spawn q w) calls)) ds
                 (printed ++ [ScanStart]))
    /\ Forall (fun i => exists serial,
                         serial ∈ listed_ready (drop 1 lines)
                         /\ selects_device serial i) calls
    /\ Forall (fun d => dev_status d = "connected"
                        /\ dev_lock_status d ∈ lock_labels) ds
    /\ match res with
       | Ret found => found = ds /\ dev_serial <$> ds = listed_ready (drop 1 lines)
       | Raise e =>
           e = index_error
           /\ exists later,
                listed_ready (drop 1 lines) = (dev_serial <$> ds) ++ later
                /\ later <> []
       | Unfinished => False
       end.
Proof.
  intros H q r lines Hok Hlen.
  rewrite (scan_devices_start m w adb old printed H). fold q. fold r. fold lines.
  rewrite Hok. cbn [negb].
  assert (Hleb : (length lines <=? 1)%nat = false) by (apply Nat.leb_gt; exact Hlen).
  rewrite Hleb.
  destruct (scan_loop m adb (drop 1 lines) H (log_spawn q w) [] (printed ++ [ScanStart]))
    as (res & calls & ds & Hloop & Hsel & Hds & Hres).
  simpl app in Hloop.
  destruct res as [u|e|]; [| |contradiction].
  - exists (Ret ds), calls, ds. split; [|auto].
    rewrite (sbind_ret_eq _ _ _ _ _ Hloop). reflexivity.
  - exists (Raise e), calls, ds. split; [|auto].
    apply sbind_raise_eq. exact Hloop.
Qed.


(** *** The summary and the report *)

Lemma tally_app (test : device -> bool) (l1 l2 : list device) :
  tally test (l1 ++ l2) = tally test l1 + tally test l2.
Proof. induction l1 as [|d rest IH]; simpl; [reflexivity|]. rewrite IH. lia. Qed.

Lemma tally_bounds (test : device -> bool) (l : list device) :
  0 <= tally test l <= Z.of_nat (length l).
Proof. induction l as [|d rest IH]; simpl; [lia|]. destruct (test d); lia. Qed.

Lemma tally_split (test : device -> bool) (l : list device) :
  tally test l + tally (fun d => negb (test d)) l = Z.of_nat (length l).
Proof. induction l as [|d rest IH]; simpl; [lia|]. destruct (test d); simpl; lia. Qed.

Lemma total_count_comm (j1 j2 : string) (z1 z2 y : Z) :
  z1 + (z2 + y) = z2 + (z1 + y).
Proof. lia. Qed.

Lemma total_count_bump (h : gmap string Z) (k : string) :
  total_count (<[k := default 0 (h !! k) + 1]> h) = total_count h + 1.
Proof.
  unfold total_count. destruct (h !! k) as [v|] eqn:Hk; simpl.
  - rewrite <- (insert_delete_eq h k (v + 1)).
    rewrite map_fold_insert_L;
      [|intros; apply total_count_comm; assumption | apply lookup_delete_eq].
    rewrite (map_fold_delete_L _ _ k v h);
      [|intros; apply total_count_comm; assumption | exact Hk].
    lia.
  - rewrite map_fold_insert_L;
      [|intros; apply total_count_comm; assumption | exact Hk].
    lia.
Qed.

Lemma seen_bump (h : gmap string Z) (key_of : device -> string)
    (before : list device) (d : device) :
  (forall v, h !! v = seen (tally (fun x => String.eqb (key_of x) v) before)) ->
  forall v,
    <[key_of d := default 0 (h !! key_of d) + 1]> h !! v
    = seen (tally (fun x => String.eqb (key_of x) v) (before ++ [d])).
Proof.
  intros Hh v. rewrite tally_app. simpl.
  pose proof (tally_bounds (fun x => String.eqb (key_of x) v) before) as Hb.
  destruct (String.eqb_spec (key_of d) v) as [<-|Hne].
  - rewrite lookup_insert_eq, Hh. unfold seen.
    destruct (tally _ before =? 0) eqn:Hz; simpl.
    + apply Z.eqb_eq in Hz. rewrite Hz. reflexivity.
    + apply Z.eqb_neq in Hz.
      replace (tally _ before + (1 + 0) =? 0) with false
        by (symmetry; apply Z.eqb_neq; lia).
      f_equal; lia.
  - rewrite lookup_insert_ne by exact Hne. rewrite Hh. f_equal; lia.
Qed.

Lemma count_device_step (s : Summary) (before : list device) (d : device) :
  summary_of s before -> summary_of (count_device s d) (before ++ [d]).
Proof.
  intros (Hl & Hu & Hr & Hdbg & Hv & Hm & Htv & Htm).
  unfold summary_of, count_device. cbn [locked_devices unlocked_devices rooted_devices
    debugging_enabled android_versions manufacturers].
  rewrite !tally_app, length_app. cbn [tally length]. fold (is_locked d).
  repeat split.
  - destruct (is_locked d); lia.
  - destruct (is_locked d); simpl; lia.
  - destruct (dev_rooted d); lia.
  - destruct (dev_usb_debugging d); lia.
  - intros v. apply (seen_bump _ version_of). exact Hv.
  - intros v. apply (seen_bump _ maker_of). exact Hm.
  - rewrite total_count_bump. lia.
  - rewrite total_count_bump. lia.
Qed.

Lemma summary_fold (l : list device) :
  forall s before, summary_of s before ->
                   summary_of (fold_left count_device l s) (before ++ l).
Proof.
  induction l as [|d rest IH]; intros s before Hs; simpl.
  - rewrite app_nil_r. exact Hs.
  - rewrite (cons_middle d before rest), app_assoc. apply IH.
    apply count_device_step. exact Hs.
Qed.

Lemma summary_start : summary_of (mkSummary 0 0 0 0 ∅ ∅) [].
Proof.
  unfold summary_of. simpl. repeat split; try reflexivity;
    intros v; apply lookup_empty.
Qed.

(** X17. [_generate_summary] counts every scanned device once.  The locked
    and the unlocked counts add up to the number of devices, a device being
    unlocked when its lock status is [swipe] or [unknown]; the rooted and
    debugging counts are the numbers of devices with those flags; each
    histogram has an entry for exactly the versions (manufacturers) that
    occur, [Unknown] standing for a missing property, with the number of
    devices that have it, and its counts add up to the number of devices.
    Nothing is started or changed. *)
Theorem generate_summary_counts (st : ScanSys) :
  exists s,
    _generate_summary st = (Ret s, st)
    /\ summary_of s (scan_results st)
    /\ locked_devices s + unlocked_devices s = Z.of_nat (length (scan_results st))
    /\ 0 <= rooted_devices s <= Z.of_nat (length (scan_results st))
    /\ 0 <= debugging_enabled s <= Z.of_nat (length (scan_results st)).
Proof.
  eexists. split; [reflexivity|].
  pose proof (summary_fold (scan_results st) _ [] summary_start) as Hs.
  rewrite app_nil_l in Hs. split; [exact Hs|].
  destruct Hs as (Hl & Hu & Hr & Hdbg & _).
  rewrite Hl, Hu, Hr, Hdbg. split; [apply tally_split|].
  split; apply tally_bounds.
Qed.

(** X18. [generate_report] starts no process and leaves the scanner as it
    is.  Without scan results it prints its complaint and returns [None].
    Otherwise it returns a report that carries the results themselves,
    their number as [total_devices], which is positive and equals the sum
    of the locked and unlocked counts of its summary, and the current
    time. *)
Theorem generate_report_contract (s : Sys) (results : list device)
    (printed : list scan_message) :
  let st := mkScanSys s results printed in
  (results = [] ->
     generate_report now_iso st
     = (Ret None, mkScanSys s [] (printed ++ [ScanNothingYet])))
  /\ (results <> [] ->
        exists report,
          generate_report now_iso st = (Ret (Some report), st)
          /\ report_devices report = results
          /\ report_scan_time report = now_iso (world s)
          /\ total_devices report = Z.of_nat (length results)
          /\ 0 < total_devices report
          /\ total_devices report
             = locked_devices (report_summary report)
               + unlocked_devices (report_summary report)
          /\ summary_of (report_summary report) results).
Proof.
  intros st. split.
  - intros ->. reflexivity.
  - intros Hne. destruct results as [|d rest]; [contradiction|].
    pose proof (summary_fold (d :: rest) _ [] summary_start) as Hs.
    rewrite app_nil_l in Hs.
    eexists. split; [reflexivity|]. cbn [report_devices report_scan_time
      total_devices report_summary].
    split; [reflexivity|]. split; [reflexivity|]. split; [reflexivity|].
    split; [simpl; lia|]. split; [|exact Hs].
    destruct Hs as (Hl & Hu & _).
    transitivity (tally is_locked (d :: rest)
                  + tally (fun x => negb (is_locked x)) (d :: rest)).
    + symmetry. apply tally_split.
    + f_equal; symmetry; [exact Hl | exact Hu].
Qed.


(** *** Reading the device list back *)

Lemma append_assoc (a b c : string) : (a +:+ b) +:+ c = a +:+ b +:+ c.
Proof.
  induction a as [|x a IH]; [reflexivity|].
  rewrite !append_cons, IH. reflexivity.
Qed.

Lemma append_nil_r (a : string) : a +:+ "" = a.
Proof. induction a as [|x a IH]; [reflexivity|]. rewrite append_cons, IH. reflexivity. Qed.

Lemma rstrip_fixed (t : string) :
  (forall c, PyStr.last_char t = Some c -> PyStr.isspace c = false) ->
  PyStr.rstrip t = t.
Proof.
  induction t as [|a t IH]; [reflexivity|]. intros H.
  destruct t as [|b t].
  - simpl. rewrite (H a eq_refl). reflexivity.
  - change (PyStr.rstrip (String a (String b t))) with
      (match PyStr.rstrip (String b t) with
       | EmptyString => if PyStr.isspace a then EmptyString else String a EmptyString
       | String x y => String a (String x y)
       end).
    rewrite IH; [reflexivity|]. intros c Hc. apply H. exact Hc.
Qed.

Lemma rstrip_all_space (r : string) :
  PyStr.all_space r = true -> PyStr.rstrip r = "".
Proof.
  induction r as [|a r IH]; [reflexivity|]. simpl.
  intros H. apply andb_true_iff in H as [Ha Hr]. rewrite (IH Hr), Ha. reflexivity.
Qed.

Lemma rstrip_app_space (a r : string) :
  PyStr.all_space r = true -> PyStr.rstrip (a +:+ r) = PyStr.rstrip a.
Proof.
  intros Hr. induction a as [|x a IH].
  - rewrite append_empty. apply rstrip_all_space. exact Hr.
  - rewrite append_cons. simpl. rewrite IH. reflexivity.
Qed.

Lemma strip_fixed (t : string) :
  (forall c, PyStr.first_char t = Some c -> PyStr.isspace c = false) ->
  (forall c, PyStr.last_char t = Some c -> PyStr.isspace c = false) ->
  PyStr.strip t = t.
Proof.
  intros Hf Hl. unfold PyStr.strip. rewrite (lstrip_fixed t Hf). apply rstrip_fixed, Hl.
Qed.

Lemma last_char_app (a b : string) :
  b <> "" -> PyStr.last_char (a +:+ b) = PyStr.last_char b.
Proof.
  intros Hb. induction a as [|x a IH]; [reflexivity|].
  rewrite append_cons.
  destruct (a +:+ b) as [|y t] eqn:Hab.
  - destruct a; [rewrite append_empty in Hab; contradiction | discriminate].
  - exact IH.
Qed.

Lemma first_char_app (a b : string) :
  a <> "" -> PyStr.first_char (a +:+ b) = PyStr.first_char a.
Proof. destruct a; [contradiction | reflexivity]. Qed.

Lemma lacks_app (c : ascii) (a b : string) :
  PyText.lacks c (a +:+ b) = PyText.lacks c a && PyText.lacks c b.
Proof.
  induction a as [|x a IH]; [reflexivity|].
  rewrite append_cons. simpl. rewrite IH. apply andb_assoc.
Qed.

Lemma split_on_lacks (c : ascii) (a : string) :
  PyText.lacks c a = true -> PyText.split_on c a = [a].
Proof.
  induction a as [|x a IH]; [reflexivity|]. simpl.
  intros H. apply andb_true_iff in H as [Hx Ha].
  apply negb_true_iff in Hx. rewrite Hx, (IH Ha). reflexivity.
Qed.

Lemma split_on_app (c : ascii) (a b : string) :
  PyText.lacks c a = true ->
  PyText.split_on c (a +:+ String c b) = a :: PyText.split_on c b.
Proof.
  induction a as [|x a IH]; intros H.
  - rewrite append_empty. simpl. rewrite Ascii.eqb_refl. reflexivity.
  - simpl in H. apply andb_true_iff in H as [Hx Ha]. apply negb_true_iff in Hx.
    rewrite append_cons. simpl. rewrite Hx, (IH Ha). reflexivity.
Qed.

Lemma field_nonempty (s : string) : field s -> s <> "".
Proof. intros (Ht & _) ->. discriminate. Qed.

Lemma field_strip (s : string) : field s -> PyStr.strip s = s.
Proof. intros (_ & _ & _ & Hf & Hl). apply strip_fixed; assumption. Qed.

Lemma row_ready (serial state : string) :
  field serial -> field state ->
  ready_serial (device_row (serial, state))
  = if String.eqb state "device" then Some serial else None.
Proof.
  intros Hs Ht. unfold ready_serial, device_row. cbn [fst snd].
  assert (Hrow : PyStr.strip (serial +:+ PyStr.TAB +:+ state)
                 = serial +:+ PyStr.TAB +:+ state).
  { apply strip_fixed.
    - intros c. rewrite first_char_app by (apply field_nonempty, Hs).
      apply Hs.
    - intros c. rewrite last_char_app.
      + rewrite last_char_app by (apply field_nonempty, Ht). apply Ht.
      + destruct state; discriminate. }
  rewrite Hrow.
  assert (Hne : PyStr.truthy (serial +:+ PyStr.TAB +:+ state) = true).
  { destruct serial; [exfalso; apply (field_nonempty _ Hs); reflexivity | reflexivity]. }
  rewrite Hne. cbn [negb].
  change (serial +:+ PyStr.TAB +:+ state) with (serial +:+ String PyText.TABc state).
  rewrite split_on_app by apply Hs.
  rewrite split_on_lacks by apply Ht.
  rewrite (field_strip _ Hs), (field_strip _ Ht). reflexivity.
Qed.

Lemma row_lacks_newline (serial state : string) :
  field serial -> field state ->
  PyText.lacks PyText.LFc (device_row (serial, state)) = true.
Proof.
  intros (_ & _ & Hs & _) (_ & _ & Ht & _). unfold device_row. cbn [fst snd].
  rewrite !lacks_app, Hs, Ht. reflexivity.
Qed.

Lemma split_rows (entries : list (string * string)) :
  Forall (fun entry => field (fst entry) /\ field (snd entry)) entries ->
  forall first_line, PyText.lacks PyText.LFc first_line = true ->
    PyText.split_on PyText.LFc (first_line +:+ rows_after entries)
    = first_line :: (device_row <$> entries).
Proof.
  induction 1 as [|[serial state] rest [Hs Ht] Hrest IH]; intros first_line Hl.
  - simpl. rewrite append_nil_r. apply split_on_lacks, Hl.
  - cbn [rows_after].
    change (PyStr.LF +:+ device_row (serial, state) +:+ rows_after rest)
      with (String PyText.LFc (device_row (serial, state) +:+ rows_after rest)).
    rewrite split_on_app by exact Hl.
    rewrite IH by (apply row_lacks_newline; assumption).
    reflexivity.
Qed.

Lemma rows_after_last (entries : list (string * string)) :
  Forall (fun entry => field (fst entry) /\ field (snd entry)) entries ->
  entries <> [] ->
  rows_after entries <> ""
  /\ forall c, PyStr.last_char (rows_after entries) = Some c -> PyStr.isspace c = false.
Proof.
  induction 1 as [|[serial state] rest [Hs Ht] Hrest IH]; intros Hne;
    [contradiction|].
  split; [discriminate|]. intros c. cbn [rows_after].
  destruct rest as [|next rest].
  - simpl rows_after. rewrite append_nil_r.
    rewrite last_char_app.
    + unfold device_row. cbn [fst snd]. rewrite last_char_app.
      * rewrite last_char_app by (apply field_nonempty, Ht). apply Ht.
      * destruct state; discriminate.
    + unfold device_row. cbn [fst snd].
      intros Hx. destruct serial; [apply (field_nonempty _ Hs); reflexivity | discriminate].
  - destruct (IH ltac:(discriminate)) as [Hne' Hlast].
    rewrite last_char_app.
    + rewrite last_char_app by exact Hne'. apply Hlast.
    + intros Hx. destruct (device_row (serial, state)); [|discriminate].
      rewrite append_empty in Hx. contradiction.
Qed.

Lemma rows_shift (entries : list (string * string)) :
  PyStr.LF +:+ device_rows entries = rows_after entries +:+ PyStr.LF.
Proof.
  induction entries as [|[serial state] rest IH]; [reflexivity|].
  cbn [device_rows rows_after]. unfold device_row. cbn [fst snd].
  rewrite IH, ?append_assoc. reflexivity.
Qed.

Lemma device_list_shape (entries : list (string * string)) :
  device_list entries
  = ("List of devices attached" +:+ rows_after entries) +:+ PyStr.LF +:+ PyStr.LF.
Proof.
  unfold device_list.
  rewrite <- (append_assoc PyStr.LF (device_rows entries) PyStr.LF), rows_shift.
  rewrite ?append_assoc. reflexivity.
Qed.

Lemma device_list_lines (entries : list (string * string)) :
  Forall (fun entry => field (fst entry) /\ field (snd entry)) entries ->
  PyText.split_on PyText.LFc (PyStr.strip (device_list entries))
  = "List of devices attached" :: (device_row <$> entries).
Proof.
  intros Hall. rewrite device_list_shape.
  assert (Hstrip : PyStr.strip (("List of devices attached" +:+ rows_after entries)
                                +:+ PyStr.LF +:+ PyStr.LF)
                   = "List of devices attached" +:+ rows_after entries).
  { unfold PyStr.strip. rewrite lstrip_fixed.
    - rewrite rstrip_app_space by reflexivity. apply rstrip_fixed.
      intros c. destruct entries as [|entry rest].
      + simpl. intros [= <-]. reflexivity.
      + destruct (rows_after_last (entry :: rest) Hall ltac:(discriminate))
          as [Hne Hlast].
        rewrite last_char_app by exact Hne. apply Hlast.
    - intros c. rewrite append_assoc. intros [= <-]. reflexivity. }
  rewrite Hstrip. apply split_rows; [exact Hall | reflexivity].
Qed.

Lemma listed_rows (entries : list (string * string)) :
  Forall (fun entry => field (fst entry) /\ field (snd entry)) entries ->
  listed_ready (device_row <$> entries) = ready_entries entries.
Proof.
  unfold ready_entries.
  induction 1 as [|[serial state] rest [Hs Ht] Hrest IH]; [reflexivity|].
  rewrite fmap_cons, listed_ready_cons, (row_ready serial state Hs Ht), IH.
  rewrite filter_cons. cbn [snd].
  destruct (String.eqb_spec state "device") as [->|Hne].
  - rewrite decide_True by reflexivity. reflexivity.
  - rewrite decide_False by exact Hne. reflexivity.
Qed.


(** X19. [scan_devices] reads the device list of [adb] back.  When the list
    command exits with 0 and prints the header, one line [serial TAB state]
    for each attached device and an empty line, and no [df] answer of a
    device in the state [device] is one of those that make
    [_get_storage_info] raise (a second line of exactly four fields), the
    scan returns: it gathers the details of exactly the devices whose state
    is [device], in the order of the list, a single one included, the list
    returned is the new [scan_results], and every later process selects
    one of those devices.  Serials and states are any fields: non-empty,
    trimmed, without TAB or newline. *)
Theorem scan_devices_reads_device_list (m : ADBManager) (w : World) (adb : string)
    (old : list device) (printed : list scan_message)
    (entries : list (string * string)) (err : string) :
  resolved m adb ->
  Forall (fun entry => field (fst entry) /\ field (snd entry)) entries ->
  let q := request m adb ["devices"] in
  run_outcome w q = Completed 0 (device_list entries) err ->
  (forall serial w', serial ∈ ready_entries entries ->
     df_short (run_outcome w' (request m adb ["-s"; serial; "shell"; "df"; "/data"]))
     = false) ->
  exists found calls st',
    scan_devices run_outcome now_iso (mkScanSys (mkSys m w) old printed)
    = (Ret found, st')
    /\ adb_sys st' = mkSys m (after_calls (log_spawn q w) calls)
    /\ scan_results st' = found
    /\ dev_serial <$> found = ready_entries entries
    /\ Forall (fun d => dev_status d = "connected"
                        /\ dev_lock_status d ∈ lock_labels) found
    /\ Forall (fun i => exists serial,
                         serial ∈ ready_entries entries /\ selects_device serial i) calls.
Proof.
  intros H Hall q Hrun Hdf.
  rewrite (scan_devices_start m w adb old printed H). fold q. rewrite Hrun.
  cbn [result_of success output Z.eqb negb].
  rewrite strip_idempotent, (device_list_lines entries Hall).
  destruct entries as [|entry rest].
  - exists [], [], (mkScanSys (mkSys m (log_spawn q w)) []
                      ((printed ++ [ScanStart]) ++ [ScanNoDevices])).
    simpl. rewrite after_calls_empty. repeat split; constructor.
  - cbn [fmap list_fmap length Nat.leb drop].
    destruct (scan_loop_with (fun _ => False) m adb (device_row <$> entry :: rest) H)
      with (w := log_spawn q w) (found := @nil device)
           (printed := printed ++ [ScanStart])
      as (res & calls & ds & Hloop & Hsel & Hds & Hres).
    { intros serial w' Hin. rewrite (listed_rows (entry :: rest) Hall) in Hin.
      apply (addressed_storage_safe serial m w' adb _ H). apply Hdf. exact Hin. }
    rewrite (listed_rows (entry :: rest) Hall) in Hsel, Hres.
    simpl app in Hloop.
    destruct res as [u|e|]; [|destruct Hres as [[] _]|contradiction].
    exists ds, calls,
      (mkScanSys (mkSys m (after_calls (log_spawn q w) calls)) ds
                 (printed ++ [ScanStart])).
    split.
    + rewrite (sbind_ret_eq _ _ _ _ _ Hloop). reflexivity.
    + simpl. auto.
Qed.


(** *** The same list, seen by [wait_for_device] *)

Lemma lacks_no_newline_word (s : string) :
  PyText.lacks PyText.LFc s = true ->
  PyStr.contains ("device" +:+ PyStr.LF) s = false.
Proof.
  intros Hl. destruct (PyStr.contains ("device" +:+ PyStr.LF) s) eqn:Hc; [|reflexivity].
  apply contains_spec in Hc as (l & r & ->).
  rewrite !lacks_app in Hl. apply andb_true_iff in Hl as [_ Hl].
  apply andb_true_iff in Hl as [Hl _]. discriminate.
Qed.

Lemma single_device_not_seen (serial state : string) (code : Z) (err : string) :
  field serial -> field state ->
  reports_ready (Completed code (device_list [(serial, state)]) err) = false.
Proof.
  intros Hs Ht. unfold reports_ready. cbn [result_of output].
  assert (Hall : Forall (fun entry : string * string =>
                           field (fst entry) /\ field (snd entry)) [(serial, state)])
    by (constructor; [split; assumption | constructor]).
  assert (Hstrip : PyStr.strip (device_list [(serial, state)])
                   = "List of devices attached" +:+ rows_after [(serial, state)]).
  { rewrite device_list_shape. unfold PyStr.strip. rewrite lstrip_fixed.
    - rewrite rstrip_app_space by reflexivity. apply rstrip_fixed.
      destruct (rows_after_last [(serial, state)] Hall ltac:(discriminate))
        as [Hne Hlast].
      intros c. rewrite last_char_app by exact Hne. apply Hlast.
    - intros c. rewrite append_assoc. intros [= <-]. reflexivity. }
  rewrite Hstrip. cbn [rows_after]. rewrite append_nil_r.
  transitivity (PyStr.contains ("device" +:+ PyStr.LF) (device_row (serial, state))).
  - reflexivity.
  - apply lacks_no_newline_word, row_lacks_newline; assumption.
Qed.

(** X20. With exactly one device attached, whatever its serial and its
    state, no poll of [wait_for_device] sees a ready device: the stripped
    list ends in the line of that device, without the newline the test
    looks for.  So when every poll answers with such a list,
    [wait_for_device] uses all its attempts, sleeps as many units and
    returns false, for the state [device] as for any other. *)
Theorem wait_for_device_single_device (max_attempts : Z) (m : ADBManager)
    (w : World) (adb : string) :
  resolved m adb ->
  0 <= max_attempts ->
  let q := request m adb ["devices"] in
  (forall w', exists serial state code err,
      field serial /\ field state
      /\ run_outcome w' q = Completed code (device_list [(serial, state)]) err) ->
  exists w',
    wait_for_device run_outcome max_attempts (mkSys m w) = (Ret false, mkSys m w')
    /\ spawned w' = spawned w ++ replicate (Z.to_nat max_attempts) q
    /\ elapsed w' = elapsed w + max_attempts.
Proof.
  intros H Hpos q Hone.
  eexists. split; [|split].
  - apply (wait_exhausted run_outcome max_attempts m w adb H).
    intros k _. fold q.
    destruct (Hone (polled q (announced w) k))
      as (serial & state & code & err & Hs & Ht & ->).
    apply single_device_not_seen; assumption.
  - reflexivity.
  - simpl. lia.
Qed.

End ScannerFacts.

(** ** The further properties on concrete environments *)

Lemma wait_for_device_first_ready_witness :
  resolved Stub.session "adb"
  /\ 2 < 5
  /\ wait_for_device Stub.late_pair 5 (mkSys Stub.session Stub.fresh)
     = (Ret true,
        mkSys Stub.session
          (mkWorld ([] ++ replicate 3 (request Stub.session "adb" ["devices"]))
                   (0 + Z.of_nat 2)
                   ([] ++ [MsgWaiting] ++ replicate 2 MsgDot ++ [MsgConnected]))).
Proof.
  split; [reflexivity|]. split; [lia|].
  apply (wait_for_device_first_ready Stub.late_pair 5 Stub.session Stub.fresh "adb" 2
           eq_refl ltac:(lia)).
  - intros k Hk. destruct k as [|[|k]]; [reflexivity | reflexivity | lia].
  - reflexivity.
Defined.

Lemma execute_command_waits_then_runs_witness :
  resolved Stub.session "adb"
  /\ exists k w_pre,
       (k <= 30)%nat
       /\ spawned w_pre = spawned Stub.fresh ++ replicate k (request Stub.session "adb" ["devices"])
       /\ execute_command Stub.hanging ["shell"; "id"] true (mkSys Stub.session Stub.fresh)
          = (Ret (result_of (Stub.hanging w_pre (request Stub.session "adb" ["shell"; "id"]))),
             mkSys Stub.session (log_spawn (request Stub.session "adb" ["shell"; "id"]) w_pre)).
Proof.
  split; [reflexivity|].
  exact (execute_command_waits_then_runs Stub.hanging ["shell"; "id"] Stub.session
           Stub.fresh "adb" eq_refl).
Defined.

Lemma wait_for_device_unresolved_raises_witness :
  adb_path_set Stub.blank = None
  /\ 0 < 3
  /\ wait_for_device Stub.single_device 3 (mkSys Stub.blank Stub.fresh)
     = (Raise (Exception "ADB not found"), mkSys Stub.blank (announced Stub.fresh)).
Proof.
  split; [reflexivity|]. split; [lia|].
  exact (wait_for_device_unresolved_raises Stub.single_device 3 Stub.blank Stub.fresh
           eq_refl ltac:(lia)).
Defined.

Lemma push_file_contract_witness :
  Stub.no_files Stub.fresh "boot.img" = false
  /\ push_file Stub.single_device Stub.no_files "boot.img" "/sdcard/boot.img"
       (mkSys Stub.blank Stub.fresh)
     = (Ret false,
        mkSys Stub.blank (mkWorld [] 0 ([] ++ [MsgLocalMissing "boot.img"]))).
Proof.
  split; [reflexivity|].
  exact (proj1 (push_file_contract Stub.single_device Stub.no_files
                  "boot.img" "/sdcard/boot.img" Stub.blank Stub.fresh) eq_refl).
Defined.

Lemma pull_file_contract_witness :
  resolved Stub.session "adb"
  /\ pull_file Stub.hanging "/sdcard/a.db" "a.db" (mkSys Stub.session Stub.fresh)
     = (Ret false,
        mkSys Stub.session
          (mkWorld ([] ++ [request Stub.session "adb" ["pull"; "/sdcard/a.db"; "a.db"]]) 0
                   ([] ++ [MsgPullFailed "Command timed out"]))).
Proof.
  split; [reflexivity|].
  exact (pull_file_contract Stub.hanging "/sdcard/a.db" "a.db" Stub.session Stub.fresh
           "adb" eq_refl).
Defined.

Lemma reboot_device_failure_witness :
  resolved Stub.session "adb"
  /\ modes !! "recovery" = Some "recovery"
  /\ reboot_device Stub.hanging "recovery" (mkSys Stub.session Stub.fresh)
     = (Ret false,
        mkSys Stub.session
          (log_spawn (request Stub.session "adb" ["reboot"; "recovery"]) Stub.fresh)).
Proof.
  assert (Hmode : modes !! "recovery" = Some "recovery") by (vm_compute; reflexivity).
  split; [reflexivity|]. split; [exact Hmode|].
  exact (proj2 (reboot_device_failure Stub.hanging Stub.session Stub.fresh "adb" eq_refl)
           "recovery" "recovery" Hmode eq_refl).
Defined.

Lemma operations_raise_when_unresolved_witness :
  adb_path_set Stub.blank = None
  /\ is_device_rooted Stub.rooted (mkSys Stub.blank Stub.fresh)
     = (Raise (Exception "ADB not found"), mkSys Stub.blank Stub.fresh).
Proof.
  split; [reflexivity|].
  exact (proj1 (proj2 (proj2 (operations_raise_when_unresolved Stub.rooted Stub.blank
                                 Stub.fresh eq_refl)))).
Defined.

Lemma get_device_info_values_witness :
  resolved Stub.session "adb"
  /\ exists info w',
       get_device_info Stub.properties None (mkSys Stub.session Stub.fresh)
       = (Ret info, mkSys Stub.session w')
       /\ length (spawned w') = (length (spawned Stub.fresh) + 7)%nat
       /\ (forall key v, info !! key = Some v ->
             key ∈ ["Model"; "Android Version"; "Security Patch"; "Manufacturer";
                    "Serial Number"; "Bootloader"; "Hardware"]
             /\ PyStr.truthy v = true
             /\ PyStr.strip v = v).
Proof.
  split; [reflexivity|].
  exact (get_device_info_values Stub.properties None Stub.session Stub.fresh "adb" eq_refl).
Defined.

Ltac field_holds :=
  repeat split;
  try reflexivity;
  intros c Hc; vm_compute in Hc; injection Hc as <-; reflexivity.

Lemma get_storage_info_edge_witness :
  resolved Stub.session "adb"
  /\ exists res,
       _get_storage_info ScanStub.short_df "emulator-5554" (mkSys Stub.session Stub.fresh)
       = (res, mkSys Stub.session
                 (log_spawn (request Stub.session "adb"
                               ["-s"; "emulator-5554"; "shell"; "df"; "/data"]) Stub.fresh))
       /\ res = Raise index_error.
Proof.
  split; [reflexivity|].
  destruct (get_storage_info_edge ScanStub.short_df "emulator-5554" Stub.session
              Stub.fresh "adb" eq_refl) as (res & Hrun & Hres).
  exists res. split; [exact Hrun|].
  destruct res as [d|e|]; [|destruct Hres as [-> _]; reflexivity | contradiction].
  exfalso. destruct Hres as [[_ [Hfail | Hshort]] | [_ Hlong]].
  - vm_compute in Hfail. discriminate.
  - vm_compute in Hshort. lia.
  - destruct Hlong as (p0 & p1 & p2 & p3 & p4 & rest & Hfields & _).
    vm_compute in Hfields. discriminate.
Defined.

Example get_storage_info_five_fields :
  fst (_get_storage_info ScanStub.phone "emulator-5554" (mkSys Stub.session Stub.fresh))
  = Ret (<["usage_percent" := "40%"]>
           (<["available" := "600"]> (<["used" := "400"]> (<["total" := "1000"]> ∅)))).
Proof. vm_compute. reflexivity. Qed.

Lemma check_lock_status_range_witness :
  resolved Stub.session "adb"
  /\ exists verdict w',
       _check_lock_status ScanStub.phone "emulator-5554" (mkSys Stub.session Stub.fresh)
       = (Ret verdict, mkSys Stub.session w')
       /\ verdict ∈ lock_labels.
Proof.
  split; [reflexivity|].
  destruct (check_lock_status_range ScanStub.phone "emulator-5554" Stub.session
              Stub.fresh "adb" eq_refl) as (verdict & w' & Hrun & Hin & _).
  exists verdict, w'. split; assumption.
Defined.

Example check_lock_status_pin :
  fst (_check_lock_status ScanStub.phone "emulator-5554" (mkSys Stub.session Stub.fresh))
  = Ret "pin/password".
Proof. vm_compute. reflexivity. Qed.

Lemma get_battery_info_keys_witness :
  resolved Stub.session "adb"
  /\ exists info,
       _get_battery_info ScanStub.phone "emulator-5554" (mkSys Stub.session Stub.fresh)
       = (Ret info,
          mkSys Stub.session
            (log_spawn (request Stub.session "adb"
                          ["-s"; "emulator-5554"; "shell"; "dumpsys"; "battery"])
                       Stub.fresh))
       /\ forall key v, info !! key = Some v ->
            PyText.lacks PyText.SPACE key = true /\ PyText.lower key = key.
Proof.
  split; [reflexivity|].
  destruct (get_battery_info_keys ScanStub.phone "emulator-5554" Stub.session
              Stub.fresh "adb" eq_refl) as (info & Hrun & _ & Hkeys).
  exists info. split; [exact Hrun|].
  intros key v Hv. destruct (Hkeys key v Hv) as (Hspace & Hlower & _).
  split; assumption.
Defined.

Example get_battery_info_phone :
  fst (_get_battery_info ScanStub.phone "emulator-5554" (mkSys Stub.session Stub.fresh))
  = Ret (list_to_map
           [ ("current_battery_service_state", "");
             ("ac_powered", "false");
             ("max_charging_current", "0");
             ("level", "85") ]).
Proof. vm_compute. reflexivity. Qed.

Lemma get_device_details_addressed_witness :
  resolved Stub.session "adb"
  /\ addressed "emulator-5554" Stub.session Stub.fresh
       (details_post ScanStub.clock "emulator-5554" Stub.fresh)
       (fun e => e = index_error)
       (_get_device_details ScanStub.phone ScanStub.clock "emulator-5554"
          (mkSys Stub.session Stub.fresh)).
Proof.
  split; [reflexivity|].
  exact (get_device_details_addressed ScanStub.phone ScanStub.clock "emulator-5554"
           Stub.session Stub.fresh "adb" eq_refl).
Defined.

Lemma scan_devices_nothing_witness :
  resolved Stub.session "adb"
  /\ scan_devices Stub.hanging ScanStub.clock ScanStub.start
     = (Ret [],
        mkScanSys
          (mkSys Stub.session
             (log_spawn (request Stub.session "adb" ["devices"]) Stub.fresh))
          [] ([] ++ [ScanStart; ScanFailed])).
Proof.
  split; [reflexivity|].
  exact (proj1 (scan_devices_nothing Stub.hanging ScanStub.clock Stub.session Stub.fresh
                  [] []) "adb" eq_refl (or_introl eq_refl)).
Defined.

Lemma scan_devices_ready_witness :
  resolved Stub.session "adb"
  /\ exists res calls ds,
       scan_devices ScanStub.phone ScanStub.clock ScanStub.start
       = (res,
          mkScanSys
            (mkSys Stub.session
               (after_calls (log_spawn (request Stub.session "adb" ["devices"]) Stub.fresh)
                            calls))
            ds ([] ++ [ScanStart]))
       /\ match res with
          | Ret found => found = ds /\ length ds = 1%nat
          | Raise e => e = index_error
          | Unfinished => False
          end.
Proof.
  split; [reflexivity|].
  destruct (scan_devices_ready ScanStub.phone ScanStub.clock Stub.session Stub.fresh "adb"
              [] [] eq_refl eq_refl ltac:(vm_compute; lia))
    as (res & calls & ds & Hrun & _ & _ & Hres).
  exists res, calls, ds. split; [exact Hrun|].
  destruct res as [found|e|]; [|exact (proj1 Hres)|exact Hres].
  destruct Hres as [-> Hserials]. split; [reflexivity|].
  apply (f_equal length) in Hserials. rewrite length_fmap in Hserials. exact Hserials.
Defined.

Example scan_devices_phone :
  (dev_serial <$> scan_results (snd (scan_devices ScanStub.phone ScanStub.clock ScanStub.start)))
  = ["emulator-5554"]
  /\ length (spawned (world (adb_sys (snd (scan_devices ScanStub.phone ScanStub.clock
                                             ScanStub.start))))) = 15%nat.
Proof. vm_compute. split; reflexivity. Qed.

Example scan_devices_short_df :
  fst (scan_devices ScanStub.short_df ScanStub.clock ScanStub.start) = Raise index_error.
Proof. vm_compute. reflexivity. Qed.

Lemma generate_report_contract_witness :
  [ScanStub.sample "emulator-5554" "pattern" "14" true true;
   ScanStub.sample "R58M" "swipe" "" false true] <> []
  /\ exists report,
       generate_report ScanStub.clock
         (mkScanSys (mkSys Stub.session Stub.fresh)
            [ScanStub.sample "emulator-5554" "pattern" "14" true true;
             ScanStub.sample "R58M" "swipe" "" false true] [])
       = (Ret (Some report),
          mkScanSys (mkSys Stub.session Stub.fresh)
            [ScanStub.sample "emulator-5554" "pattern" "14" true true;
             ScanStub.sample "R58M" "swipe" "" false true] [])
       /\ total_devices report = 2
       /\ total_devices report
          = locked_devices (report_summary report)
            + unlocked_devices (report_summary report).
Proof.
  assert (Hne : [ScanStub.sample "emulator-5554" "pattern" "14" true true;
                 ScanStub.sample "R58M" "swipe" "" false true] <> []) by discriminate.
  split; [exact Hne|].
  destruct (proj2 (generate_report_contract ScanStub.clock (mkSys Stub.session Stub.fresh)
                     [ScanStub.sample "emulator-5554" "pattern" "14" true true;
                      ScanStub.sample "R58M" "swipe" "" false true] []) Hne)
    as (report & Hrun & _ & _ & Htotal & _ & Hsum & _).
  exists report. split; [exact Hrun|]. split; [exact Htotal | exact Hsum].
Defined.

Example generate_summary_two :
  let s := fold_left count_device
             [ScanStub.sample "emulator-5554" "pattern" "14" true true;
              ScanStub.sample "R58M" "swipe" "" false true]
             (mkSummary 0 0 0 0 ∅ ∅) in
  (locked_devices s, unlocked_devices s, rooted_devices s, debugging_enabled s) = (1, 1, 1, 2)
  /\ android_versions s = {[ "14" := 1; "Unknown" := 1 ]}.
Proof. vm_compute. split; reflexivity. Qed.

Lemma scan_devices_reads_device_list_witness :
  resolved Stub.session "adb"
  /\ Forall (fun entry => field (fst entry) /\ field (snd entry)) ScanStub.attached
  /\ (forall serial w',
        df_short (ScanStub.phone w'
                    (request Stub.session "adb" ["-s"; serial; "shell"; "df"; "/data"]))
        = false)
  /\ exists found calls st',
       scan_devices ScanStub.phone ScanStub.clock ScanStub.start = (Ret found, st')
       /\ adb_sys st'
          = mkSys Stub.session
              (after_calls (log_spawn (request Stub.session "adb" ["devices"]) Stub.fresh)
                           calls)
       /\ scan_results st' = found
       /\ dev_serial <$> found = ["emulator-5554"].
Proof.
  assert (Hfields : Forall (fun entry : string * string =>
                              field (fst entry) /\ field (snd entry)) ScanStub.attached).
  { repeat constructor; field_holds. }
  assert (Hdf : forall serial w',
             df_short (ScanStub.phone w'
                         (request Stub.session "adb"
                                  ["-s"; serial; "shell"; "df"; "/data"])) = false)
    by (intros serial w'; reflexivity).
  split; [reflexivity|]. split; [exact Hfields|]. split; [exact Hdf|].
  destruct (scan_devices_reads_device_list ScanStub.phone ScanStub.clock Stub.session
              Stub.fresh "adb" [] [] ScanStub.attached "" eq_refl Hfields eq_refl
              (fun serial w' _ => Hdf serial w'))
    as (found & calls & st' & Hrun & Hsys & Hres & Hserials & _).
  exists found, calls, st'. auto.
Defined.

Lemma wait_for_device_single_device_witness :
  resolved Stub.session "adb"
  /\ 0 <= 4
  /\ exists w',
       wait_for_device ScanStub.one_device 4 (mkSys Stub.session Stub.fresh)
       = (Ret false, mkSys Stub.session w')
       /\ spawned w' = [] ++ replicate 4 (request Stub.session "adb" ["devices"])
       /\ elapsed w' = 0 + 4.
Proof.
  split; [reflexivity|]. split; [lia|].
  apply (wait_for_device_single_device ScanStub.one_device 4 Stub.session Stub.fresh "adb"
           eq_refl ltac:(lia)).
  intros w'. exists "emulator-5554", "device", 0, "".
  split; [field_holds|]. split; [field_holds | reflexivity].
Defined.
